(** * Mermaid_2_PNG: the converter, its command line and its web route

    A shallow embedding of [mermaid_to_png.py] (class [MermaidConverter],
    [main]), of the routes of [web_app.py] and of [check_directories] of
    [diagnose.py].

    The program is glue around the operating system: it starts processes,
    creates and removes files, prints.  The embedding keeps that shape.
    A [World] holds the file system, the lines printed so far, the log of
    started processes and the fields of the converter object; every
    method is a computation in a state-and-exception monad over it.  What
    the program cannot decide itself (what a started process does, which
    temporary name is handed out, whether a file can be written, whether
    PIL is importable) is read from an environment [Env].

    Conventions of the model:
    - a Python [str] is the [string] of its UTF-8 bytes; a character is a
      byte that is not a continuation byte, with the continuation bytes
      that follow it.  Slices, [len] and [strip] count characters;
    - a path is the string pathlib prints for it, in normal form
      (separator [/], no trailing separator), so [str(Path(s))] is [s];
      pathlib and [open] find the working directory [.] and the root [/]
      whether or not [fs] lists them;
    - a file holds text, an image or bytes that do not decode as UTF-8;
    - [fs] holds the files and directories the system can examine.  What
      it answers for any other path (nothing there, a name that is too
      long, a directory that may not be searched), which links lead
      nowhere and which directories may not be listed is read from the
      environment. *)

From Stdlib Require Import ZArith Lia List Ascii String Bool.
From stdpp Require Import base option list gmap strings pretty.

Local Open Scope Z_scope.

(** ** Python string methods *)

Module Py.

(** The double quote and the line feed, as one-character strings. *)
Definition dq : string := String "034" "".
Definition nl : ascii := "010"%char.

(** [len(s) > 0], the truth value of a string. *)
Definition truthy (s : string) : bool :=
  match s with "" => false | _ => true end.

(** [s.startswith(p)] *)
Fixpoint startswith (s p : string) : bool :=
  match p, s with
  | "", _ => true
  | String a p', String b s' => if Ascii.eqb a b then startswith s' p' else false
  | String _ _, "" => false
  end.

(** [sub in s] *)
Fixpoint contains (sub s : string) : bool :=
  startswith s sub ||
  match s with
  | "" => false
  | String _ s' => contains sub s'
  end.

(** [s.endswith(suf)] *)
Fixpoint endswith (s suf : string) : bool :=
  String.eqb s suf ||
  match s with
  | "" => false
  | String _ s' => endswith s' suf
  end.

(** A continuation byte of UTF-8: [10xxxxxx]. *)
Definition continuation (a : ascii) : bool :=
  let n := nat_of_ascii a in ((128 <=? n) && (n <? 192))%nat.

(** [len(s)]: the characters of [s]. *)
Fixpoint len (s : string) : nat :=
  match s with
  | "" => O
  | String a s' => ((if continuation a then 0 else 1) + len s')%nat
  end.

(** [s[:n]]: the first [n] characters of [s], each with its continuation
    bytes. *)
Fixpoint take (n : nat) (s : string) : string :=
  match s with
  | "" => ""
  | String a s' =>
      if continuation a then String a (take n s')
      else match n with
           | O => ""
           | S n' => String a (take n' s')
           end
  end.

Arguments take : simpl nomatch.

(** [s.replace(old, new)] for a non-empty [old]: the occurrences are
    found from the left and do not overlap.  [skip] counts the characters
    of an occurrence that are still to be passed over. *)
Fixpoint replace_go (old new s : string) (skip : nat) : string :=
  match s with
  | "" => ""
  | String a s' =>
      match skip with
      | S k => replace_go old new s' k
      | O =>
          if startswith s old
          then new +:+ replace_go old new s' (String.length old - 1)
          else String a (replace_go old new s' 0)
      end
  end.

Definition replace (s old new : string) : string := replace_go old new s 0.

(** [s.split('\n')] *)
Fixpoint split_lines (s : string) : list string :=
  match s with
  | "" => [""]
  | String a s' =>
      if Ascii.eqb a nl then "" :: split_lines s'
      else match split_lines s' with
           | h :: t => String a h :: t
           | [] => [String a ""]
           end
  end.

(** The text of the bytes [l]. *)
Definition bytes (l : list nat) : string :=
  fold_right (fun n s => String (ascii_of_nat n) s) "" l.

(** The characters [str.isspace] accepts, as UTF-8 text: the ASCII controls
    9 to 13 and 28 to 31, the space, U+0085, U+00A0, U+1680, U+2000 to
    U+200A, U+2028, U+2029, U+202F, U+205F and U+3000. *)
Definition whitespace : list string :=
  map bytes
    [ [9]; [10]; [11]; [12]; [13]; [28]; [29]; [30]; [31]; [32];
      [194; 133]; [194; 160]; [225; 154; 128];
      [226; 128; 128]; [226; 128; 129]; [226; 128; 130]; [226; 128; 131];
      [226; 128; 132]; [226; 128; 133]; [226; 128; 134]; [226; 128; 135];
      [226; 128; 136]; [226; 128; 137]; [226; 128; 138];
      [226; 128; 168]; [226; 128; 169]; [226; 128; 175];
      [226; 129; 159]; [227; 128; 128] ]%nat.

(** [c.isspace()] for one character [c]. *)
Definition isspace (c : string) : bool :=
  existsb (String.eqb c) whitespace.

(** [s] after the prefix [p], when it starts with it. *)
Fixpoint after (p s : string) : option string :=
  match p, s with
  | "", _ => Some s
  | String a p', String b s' => if Ascii.eqb a b then after p' s' else None
  | String _ _, "" => None
  end.

(** [s] without its first character when that is one of [cs]. *)
Fixpoint drop_one (cs : list string) (s : string) : option string :=
  match cs with
  | [] => None
  | c :: cs' =>
      match after c s with
      | Some r => Some r
      | None => drop_one cs' s
      end
  end.

(** [s] without its leading characters of [cs]; [fuel] bounds their
    number. *)
Fixpoint lstrip_go (cs : list string) (fuel : nat) (s : string) : string :=
  match fuel with
  | O => s
  | S k =>
      match drop_one cs s with
      | Some r => lstrip_go cs k r
      | None => s
      end
  end.

(** [s.lstrip()], [s.rstrip()] *)
Definition lstrip (s : string) : string :=
  lstrip_go whitespace (String.length s) s.

Definition rstrip (s : string) : string :=
  String.rev (lstrip_go (map String.rev whitespace) (String.length s) (String.rev s)).

(** [s.strip()] *)
Definition strip (s : string) : string := rstrip (lstrip s).

(** [sep.join(l)] *)
Fixpoint join (sep : string) (l : list string) : string :=
  match l with
  | [] => ""
  | [x] => x
  | x :: l' => x +:+ sep +:+ join sep l'
  end.

(** The split of [s] around the last occurrence of [c] ([s.rfind(c)]). *)
Fixpoint rsplit (c : ascii) (s : string) : option (string * string) :=
  match s with
  | "" => None
  | String a s' =>
      match rsplit c s' with
      | Some (b, e) => Some (String a b, e)
      | None => if Ascii.eqb a c then Some ("", s') else None
      end
  end.

End Py.

(** ** pathlib on path strings *)

Module Path.

(** The working directory ([Path("")] is [Path(".")]) and the root. *)
Definition anchor (p : string) : bool :=
  String.eqb p "" || String.eqb p "." || String.eqb p "/".

(** [PurePath.name]: what follows the last separator; the working
    directory and the root have the empty name. *)
Definition name (p : string) : string :=
  if anchor p then ""
  else match Py.rsplit "/" p with
       | Some (_, n) => n
       | None => p
       end.

(** [PurePath.parent], printed. *)
Definition parent (p : string) : string :=
  match Py.rsplit "/" p with
  | Some ("", _) => "/"
  | Some (d, _) => d
  | None => "."
  end.

(** [PurePath.stem]: the name without its suffix; the suffix starts at the
    last dot when that dot is neither the first nor the last character. *)
Definition stem (p : string) : string :=
  let n := name p in
  match Py.rsplit "." n with
  | Some (b, e) => if Py.truthy b && Py.truthy e then b else n
  | None => n
  end.

(** [str(d / n)] for a name [n]. *)
Definition join (d n : string) : string :=
  if String.eqb d "." then n
  else if Py.endswith d "/" then d +:+ n
  else d +:+ "/" +:+ n.

(** [str(p.with_suffix(suf))]; nothing for a path with an empty name,
    where pathlib raises [ValueError]. *)
Definition with_suffix (p suf : string) : option string :=
  if negb (Py.truthy (name p)) then None
  else match Py.rsplit "/" p with
       | Some (d, _) => Some (d +:+ "/" +:+ stem p +:+ suf)
       | None => Some (stem p +:+ suf)
       end.

(** The proper ancestors of [p], outermost first: the prefixes of [p] that
    end before a separator. *)
Fixpoint ancestors_go (pre s : string) : list string :=
  match s with
  | "" => []
  | String a s' =>
      (if Ascii.eqb a "/" && Py.truthy pre then [String.rev pre] else [])
      ++ ancestors_go (String a pre) s'
  end.

Definition ancestors (p : string) : list string := ancestors_go "" p.

(** [os.path.join(a, b)] on a POSIX system. *)
Definition os_join (a b : string) : string :=
  if Py.startswith b "/" then b
  else if negb (Py.truthy a) || Py.endswith a "/" then a +:+ b
  else a +:+ "/" +:+ b.

End Path.

(** ** Values, files, exceptions *)

(** A JSON value, as [json.load] returns it and [json.dump] takes it. *)
#[warnings="-register-all"]
Inductive json :=
| JNull
| JBool (b : bool)
| JNum (z : Z)
| JStr (s : string)
| JArr (l : list json)
| JObj (l : list (string * json)).

(** [bool(v)] *)
Definition json_truthy (v : json) : bool :=
  match v with
  | JNull => false
  | JBool b => b
  | JNum z => negb (z =? 0)
  | JStr s => Py.truthy s
  | JArr l => match l with [] => false | _ => true end
  | JObj l => match l with [] => false | _ => true end
  end.

(** The fonts of the placeholder: [ImageFont.truetype("arial.ttf", size)]
    or [ImageFont.load_default()]. *)
Inductive font := TrueType (fname : string) (size : Z) | DefaultFont.

(** One call on an [ImageDraw] object. *)
Inductive draw_op :=
| Rectangle (box : list Z) (outline : string) (width : Z) (fill : option string)
| DrawText (x y : Z) (text : string) (fill : string) (fnt : font)
| Line (pts : list Z) (fill : string) (width : Z)
| Polygon (pts : list (Z * Z)) (fill : string).

(** [Image.new('RGB', (width, height), color)] and what was drawn on it,
    in drawing order. *)
Record image := Image {
  img_width : Z;
  img_height : Z;
  img_color : string;
  img_ops : list draw_op
}.

Inductive content :=
| Text (s : string)          (* UTF-8 text *)
| Png (img : image)          (* an image saved as PNG *)
| Binary.                    (* bytes that are not UTF-8 text *)

Inductive node := Dir | File (c : content).

(** The exceptions the program meets. *)
Inductive exn :=
| TimeoutExpired
| FileNotFoundError
| FileExistsError
| IsADirectoryError
| NotADirectoryError
| UnicodeDecodeError
| JSONDecodeError
| TypeError
| AttributeError
| ValueError
| PermissionError
| OSError (msg : string).

Definition exn_name (e : exn) : string :=
  match e with
  | TimeoutExpired => "TimeoutExpired"
  | FileNotFoundError => "FileNotFoundError"
  | FileExistsError => "FileExistsError"
  | IsADirectoryError => "IsADirectoryError"
  | NotADirectoryError => "NotADirectoryError"
  | UnicodeDecodeError => "UnicodeDecodeError"
  | JSONDecodeError => "JSONDecodeError"
  | TypeError => "TypeError"
  | AttributeError => "AttributeError"
  | ValueError => "ValueError"
  | PermissionError => "PermissionError"
  | OSError _ => "OSError"
  end.

(** [str(e)], as far as the model knows it: the text the system gives
    with an [OSError]; of the other exceptions the model keeps the class
    only, and its name stands for the text. *)
Definition exn_str (e : exn) : string :=
  match e with
  | OSError msg => msg
  | _ => exn_name e
  end.

(** The outcome of a call: a value or a raised exception. *)
Inductive res (A : Type) := Ok (a : A) | Raise (e : exn).
Arguments Ok {A} a.
Arguments Raise {A} e.

(** ** Processes *)

(** The [args] of [subprocess.run]: a string (run with [shell=True]) or a
    list (run directly). *)
Inductive cmd := Shell (line : string) | Argv (args : list string).

(** [subprocess.CompletedProcess] *)
Record completed := Completed {
  returncode : Z;
  stdout : string;
  stderr : string
}.

(** How a started process ends: it completes, the timeout expires, or it
    cannot be started. *)
Inductive proc_end :=
| Exited (c : completed)
| TimedOut
| NotStarted (e : exn).

(** One entry of the process log: the command, its timeout in seconds, the
    files it found, how it ended and the files it left. *)
Record proc := Proc {
  proc_cmd : cmd;
  proc_timeout : nat;
  proc_fs : gmap string node;
  proc_result : proc_end;
  proc_fs_after : gmap string node
}.

(** The fields of a [MermaidConverter] object. *)
Record MermaidConverter := Converter {
  mermaid_cli : option string;
  demo_mode : bool
}.

(** ** The world *)

Record World := mkWorld {
  fs : gmap string node;          (* path -> what is there *)
  printed : list string;          (* the lines printed, oldest first *)
  procs : list proc;              (* the processes run, oldest first *)
  self : MermaidConverter         (* the converter object *)
}.

Definition set_fs (f : gmap string node) (w : World) : World :=
  mkWorld f (printed w) (procs w) (self w).
Definition add_printed (l : string) (w : World) : World :=
  mkWorld (fs w) (printed w ++ [l]) (procs w) (self w).
Definition add_proc (p : proc) (w : World) : World :=
  mkWorld (fs w) (printed w) (procs w ++ [p]) (self w).
Definition set_self (c : MermaidConverter) (w : World) : World :=
  mkWorld (fs w) (printed w) (procs w) c.

(** What the program does not decide.  Every answer may depend on the
    whole world at the time of asking, so two calls need not agree. *)
Record Env := mkEnv {
  (* os.path.dirname(os.path.abspath(__file__)) *)
  script_dir : string;
  (* a process: how it ends and the file system it leaves *)
  spawn : cmd -> nat -> World -> proc_end * gmap string node;
  (* tempfile.NamedTemporaryFile(suffix=..): the name, or no name *)
  temp_name : string -> World -> option string;
  (* whether a file can be created or overwritten at a path *)
  writable : string -> World -> bool;
  (* whether PIL can be imported; whether arial.ttf can be loaded *)
  pil_available : bool;
  arial_available : bool;
  (* json.dumps(v, indent=2) and json.loads *)
  json_dumps : json -> string;
  json_loads : string -> option json;
  (* os.stat on a path that fs does not hold: the error, when it is
     another one than "nothing is there" (the name is too long, a
     directory on the way may not be searched) *)
  stat_error : string -> World -> option exn;
  (* the links that lead nowhere: their directory lists them, and
     nothing is there *)
  broken_links : World -> list string;
  (* whether a directory may not be listed (permission denied) *)
  unlistable : string -> World -> bool
}.

(** ** The monad: state and exceptions *)

Definition M (A : Type) : Type := World -> res A * World.

Definition ret {A} (a : A) : M A := fun w => (Ok a, w).

Definition raise {A} (e : exn) : M A := fun w => (Raise e, w).

Definition bind {A B} (m : M A) (k : A -> M B) : M B :=
  fun w =>
    match m w with
    | (Ok a, w') => k a w'
    | (Raise e, w') => (Raise e, w')
    end.

(** [try: m  except <sel> as e: h e]; an exception [sel] rejects goes on. *)
Definition try_except {A} (m : M A) (sel : exn -> bool) (h : exn -> M A) : M A :=
  fun w =>
    match m w with
    | (Ok a, w') => (Ok a, w')
    | (Raise e, w') => if sel e then h e w' else (Raise e, w')
    end.

(** [try: m  finally: f] *)
Definition try_finally {A} (m : M A) (f : M unit) : M A :=
  fun w =>
    let (r, w1) := m w in
    match f w1 with
    | (Ok _, w2) => (r, w2)
    | (Raise e, w2) => (Raise e, w2)
    end.

(** [m] with its exception, if any, handed back as a value. *)
Definition attempt {A} (m : M A) : M (res A) :=
  fun w => let (r, w') := m w in (Ok r, w').

Definition gets {A} (f : World -> A) : M A := fun w => (Ok (f w), w).
Definition modify (f : World -> World) : M unit := fun w => (Ok tt, f w).

Declare Scope py_scope.
Delimit Scope py_scope with py.
Notation "x <- m ;; k" := (bind m (fun x => k))
  (at level 100, m at next level, right associativity) : py_scope.
Notation "m ;; k" := (bind m (fun _ => k))
  (at level 100, right associativity) : py_scope.
Local Open Scope py_scope.

(** [except Exception] and the bare [except] (no exception of the model
    is outside [Exception]); [except subprocess.TimeoutExpired]. *)
Definition any_exception (e : exn) : bool := true.
Definition is_timeout (e : exn) : bool :=
  match e with TimeoutExpired => true | _ => false end.

(** ** The operating system *)

Section OS.
Context (E : Env).

Definition print (line : string) : M unit := modify (add_printed line).

(** [os.path.exists(p)]: whether the system can examine something at
    [p]; it never raises. *)
Definition path_exists (p : string) : M bool :=
  gets (fun w => match fs w !! p with Some _ => true | None => false end).

(** What is at [p]: the working directory and the root are always there. *)
Definition node_at (p : string) (w : World) : option node :=
  if Path.anchor p then Some Dir else fs w !! p.

(** [os.stat(p)], as far as the program looks at it: what is there.  For
    a path where nothing can be examined it raises [FileNotFoundError], or
    the other error the system answers with. *)
Definition os_stat (p : string) : M node :=
  fun w =>
    match node_at p w with
    | Some n => (Ok n, w)
    | None => (Raise (default FileNotFoundError (stat_error E p w)), w)
    end.

(** [_ignore_error(e)] of pathlib: the errors that say that nothing is
    there. *)
Definition ignore_error (e : exn) : bool :=
  match e with
  | FileNotFoundError | NotADirectoryError => true
  | _ => false
  end.

(** The exceptions of [os.stat] for which the tests of pathlib answer
    [False]: [except OSError as e: if not _ignore_error(e): raise] and
    [except ValueError]. *)
Definition answers_false (e : exn) : bool :=
  ignore_error e || match e with ValueError => true | _ => false end.

(** [Path(p).exists()]: pathlib answers [False] for an error that says
    that nothing is there and raises any other again. *)
Definition Path_exists (p : string) : M bool :=
  try_except (os_stat p ;; ret true) any_exception
    (fun e => if answers_false e then ret false else raise e).

(** [Path(p).is_dir()], with the same errors. *)
Definition is_dir (p : string) : M bool :=
  try_except
    (n <- os_stat p ;; ret (match n with Dir => true | File _ => false end))
    any_exception
    (fun e => if answers_false e then ret false else raise e).

(** [os.unlink(p)], [os.remove(p)] *)
Definition unlink (p : string) : M unit :=
  fun w =>
    match fs w !! p with
    | Some (File _) => (Ok tt, set_fs (delete p (fs w)) w)
    | Some Dir => (Raise IsADirectoryError, w)
    | None => (Raise FileNotFoundError, w)
    end.

(** Creating or overwriting the file at [p]: [open(p, 'w')] and one
    write, [img.save(p, 'PNG')]. *)
Definition write_file (p : string) (c : content) : M unit :=
  fun w =>
    if writable E p w
    then (Ok tt, set_fs (<[p := File c]> (fs w)) w)
    else (Raise (OSError ("cannot write " +:+ p)), w).

(** [open(p, 'r', encoding='utf-8').read()] *)
Definition read_text (p : string) : M string :=
  fun w =>
    match node_at p w with
    | Some (File (Text s)) => (Ok s, w)
    | Some (File _) => (Raise UnicodeDecodeError, w)
    | Some Dir => (Raise IsADirectoryError, w)
    | None => (Raise FileNotFoundError, w)
    end.

(** [open(p, 'rb').read()] *)
Definition read_bytes (p : string) : M content :=
  fun w =>
    match fs w !! p with
    | Some (File c) => (Ok c, w)
    | Some Dir => (Raise IsADirectoryError, w)
    | None => (Raise FileNotFoundError, w)
    end.

(** [tempfile.NamedTemporaryFile(mode='w', suffix=.., delete=False)], one
    write of [text] and the close: a new file, which stays. *)
Definition named_temporary_file (suffix text : string) : M string :=
  fun w =>
    match temp_name E suffix w with
    | None => (Raise (OSError "no usable temporary file name"), w)
    | Some p =>
        match fs w !! p with
        | Some _ => (Raise FileExistsError, w)
        | None => (Ok p, set_fs (<[p := File (Text text)]> (fs w)) w)
        end
    end.

(** [subprocess.run(c, shell=isinstance(c, str), capture_output=True,
    text=True, timeout=t, ...)]: the process is logged, the file system is
    what it leaves; a timeout or a failure to start is raised. *)
Definition subprocess_run (c : cmd) (t : nat) : M completed :=
  fun w =>
    let (e, f) := spawn E c t w in
    let w' := add_proc (Proc c t (fs w) e f) (set_fs f w) in
    match e with
    | Exited r => (Ok r, w')
    | TimedOut => (Raise TimeoutExpired, w')
    | NotStarted x => (Raise x, w')
    end.

(** [os.mkdir(p)]: a name that is taken, be it by a link that leads
    nowhere, is not made again; the parent has to be a directory. *)
Definition os_mkdir (p : string) : M unit :=
  fun w =>
    match node_at p w with
    | Some _ => (Raise FileExistsError, w)
    | None =>
        match node_at (Path.parent p) w with
        | None => (Raise FileNotFoundError, w)
        | Some (File _) => (Raise NotADirectoryError, w)
        | Some Dir =>
            if bool_decide (p ∈ broken_links E w) then (Raise FileExistsError, w)
            else if writable E p w
            then (Ok tt, set_fs (<[p := Dir]> (fs w)) w)
            else (Raise (OSError ("cannot create " +:+ p)), w)
        end
    end.

(** The [except OSError] clause of [Path.mkdir] with [exist_ok=True]: a
    directory that is there is no error. *)
Definition mkdir_exists (p : string) (e : exn) : M unit :=
  d <- is_dir p ;;
  if d then ret tt else raise e.

(** [Path(p).mkdir(exist_ok=True)]: one directory, no parents. *)
Definition mkdir_exist_ok (p : string) : M unit :=
  try_except (os_mkdir p) any_exception
    (fun e =>
       match e with
       | FileNotFoundError => raise e
       | _ => mkdir_exists p e
       end).

(** [Path(p).mkdir(parents=True, exist_ok=True)], as pathlib does it:
    [os.mkdir(p)]; when the parent is missing, the parent is made in the
    same way and [p] is tried once more.  [up] lists the ancestors of [p],
    the nearest first; after the last of them comes the working directory
    or the root, where [self.parent == self]. *)
Fixpoint mkdir_parents_go (p : string) (up : list string) : M unit :=
  try_except (os_mkdir p) any_exception
    (fun e =>
       match e with
       | FileNotFoundError =>
           match up with
           | [] => raise e
           | q :: up' =>
               mkdir_parents_go q up' ;;
               mkdir_exist_ok p
           end
       | _ => mkdir_exists p e
       end).

Definition mkdir_parents (p : string) : M unit :=
  mkdir_parents_go p (rev (Path.ancestors p)).

(** [os.listdir(d)]: the entries of [d], those the system can examine
    and the links that lead nowhere. *)
Definition listdir (d : string) (w : World) : list string :=
  filter (fun p => Path.parent p = d /\ Path.anchor p = false)
         ((map_to_list (fs w)).*1
          ++ remove_dups (filter (fun p => fs w !! p = None) (broken_links E w))).

(** [list(Path(d).iterdir())] *)
Definition iterdir (d : string) : M (list string) :=
  fun w =>
    if unlistable E d w then (Raise PermissionError, w)
    else (Ok (listdir d w), w).

(** [list(Path(d).glob("*.mmd"))]: the entries of [d] whose name ends in
    [.mmd], in the order the directory is listed; none when the directory
    may not be listed, for [glob] passes over that error. *)
Definition glob_mmd (d : string) (w : World) : list string :=
  if unlistable E d w then []
  else filter (fun p => Py.endswith (Path.name p) ".mmd" = true) (listdir d w).

End OS.

(** ** class MermaidConverter *)

Section Converter.
Context (E : Env).

(** [os.path.join(a, *parts)] *)
Definition os_path_join (a : string) (parts : list string) : string :=
  fold_left Path.os_join parts a.

(** The candidates of [_find_mermaid_cli], in the order they are tried. *)
Definition possible_paths : list string :=
  let d := script_dir E in
  [ os_path_join d ["node_modules"; ".bin"; "mmdc.cmd"];
    os_path_join d ["node_modules"; ".bin"; "mmdc"];
    os_path_join d ["node_modules"; ".bin"; "mmdc.ps1"];
    "node " +:+ os_path_join d ["node_modules"; "@mermaid-js"; "mermaid-cli"; "dist"; "cli.js"];
    "mmdc";
    "npx @mermaid-js/mermaid-cli" ].

Definition test_code : string := "graph TD; A-->B".

(** The command line of the trial conversion. *)
Definition test_cmd (cli_path temp_input_path temp_output_path : string) : string :=
  if Py.contains "node " cli_path
  then cli_path +:+ " -i " +:+ Py.dq +:+ temp_input_path +:+ Py.dq
                +:+ " -o " +:+ Py.dq +:+ temp_output_path +:+ Py.dq
  else Py.dq +:+ cli_path +:+ Py.dq
                +:+ " -i " +:+ Py.dq +:+ temp_input_path +:+ Py.dq
                +:+ " -o " +:+ Py.dq +:+ temp_output_path +:+ Py.dq.

(** [_test_mermaid_cli_with_conversion(cli_path)] *)
Definition _test_mermaid_cli_with_conversion (cli_path : string) : M bool :=
  try_except
    (temp_input_path <- named_temporary_file E ".mmd" test_code ;;
     let temp_output_path := Py.replace temp_input_path ".mmd" ".png" in
     result <- subprocess_run E
                 (Shell (test_cmd cli_path temp_input_path temp_output_path)) 30 ;;
     (* Clean up *)
     try_except
       (unlink temp_input_path ;;
        ex <- path_exists temp_output_path ;;
        if ex then unlink temp_output_path else ret tt)
       any_exception (fun _ => ret tt) ;;
     (* Check if conversion was successful *)
     if returncode result =? 0 then ret true
     else
       print ("  Conversion test failed: " +:+ stderr result) ;;
       ret false)
    any_exception
    (fun e =>
       print ("  Conversion test error: " +:+ exn_str e) ;;
       ret false).

(** The end of an iteration of [_find_mermaid_cli] that ran a version
    query: [Some path] is [return path], [None] goes to the next
    candidate. *)
Definition after_version (path : string) (result : completed) : M (option string) :=
  if (returncode result =? 0) && Py.truthy (stdout result) then
    (* Additional test: try actual conversion *)
    ok <- _test_mermaid_cli_with_conversion path ;;
    if ok then
      print ("✅ Found working Mermaid CLI: " +:+ path) ;;
      print ("  Version: " +:+ Py.strip (stdout result)) ;;
      ret (Some path)
    else
      print "  Version check passed but conversion failed" ;;
      ret None
  else
    print ("  Failed: return code " +:+ pretty (returncode result)) ;;
    (if Py.truthy (stderr result)
     then print ("  Error: " +:+ Py.take 100 (stderr result) +:+ "...")
     else ret tt) ;;
    ret None.

Definition npm_package : string := "@mermaid-js/mermaid-cli".

(** One iteration of the loop of [_find_mermaid_cli]. *)
Definition probe (path : string) : M (option string) :=
  try_except
    (print ("Testing: " +:+ path) ;;
     if Py.startswith path "node " then
       (* Check if the JS file exists first *)
       let js_file := Py.replace path "node " "" in
       ex <- path_exists js_file ;;
       if negb ex then
         print ("  JS file not found: " +:+ js_file) ;;
         ret None
       else
         result <- subprocess_run E (Shell (path +:+ " --version")) 15 ;;
         after_version path result
     else if Py.contains "npx" path then
       (* For npx, first check if package is available without running *)
       check_result <- subprocess_run E (Shell ("npm list " +:+ npm_package)) 10 ;;
       if Py.truthy (stdout check_result)
          && Py.contains npm_package (stdout check_result)
       then
         print ("  Found via npm list: " +:+ path) ;;
         ret (Some path)
       else
         print "  Package not found in npm list" ;;
         ret None
     else
       (* Direct command execution *)
       result <- subprocess_run E
                   (Shell (Py.dq +:+ path +:+ Py.dq +:+ " --version")) 10 ;;
       after_version path result)
    any_exception
    (fun e =>
       print ("  Exception: " +:+ exn_name e +:+ ": " +:+ Py.take 100 (exn_str e)) ;;
       ret None).

(** The [for path in possible_paths] loop and the [return None] after it. *)
Fixpoint find_loop (paths : list string) : M (option string) :=
  match paths with
  | [] => ret None
  | path :: rest =>
      r <- probe path ;;
      match r with
      | Some p => ret (Some p)
      | None => find_loop rest
      end
  end.

(** [_find_mermaid_cli()] *)
Definition _find_mermaid_cli : M (option string) := find_loop possible_paths.

(** [__init__()] *)
Definition __init__ : M unit :=
  cli <- _find_mermaid_cli ;;
  modify (fun w => set_self (Converter cli (demo_mode (self w))) w) ;;
  modify (fun w => set_self (Converter (mermaid_cli (self w))
                               (match mermaid_cli (self w) with
                                | None => true | Some _ => false end)) w) ;;
  demo <- gets (fun w => demo_mode (self w)) ;;
  if demo then
    print "⚠️ Mermaid CLI not available - running in demo mode" ;;
    print "💡 Demo mode will generate placeholder images"
  else ret tt.

(** [not self.mermaid_cli]: no candidate, or an empty one. *)
Definition cli_missing (c : option string) : bool :=
  match c with
  | None => true
  | Some s => negb (Py.truthy s)
  end.

(** [self.mermaid_cli] where the code uses it as a string. *)
Definition cli_str (c : option string) : string := default "None" c.

(** [_check_dependencies()] *)
Definition _check_dependencies : M bool :=
  cli <- gets (fun w => mermaid_cli (self w)) ;;
  if cli_missing cli then
    print "❌ Mermaid CLI not found!" ;;
    print "Please install it using one of these methods:" ;;
    print "1. Global installation: npm install -g @mermaid-js/mermaid-cli" ;;
    print "2. Local installation: npm install @mermaid-js/mermaid-cli" ;;
    ret false
  else
    (* Check if puppeteer dependencies are available *)
    r <- try_except
           (result <- subprocess_run E (Shell (cli_str cli +:+ " --help")) 10 ;;
            if negb (returncode result =? 0) then
              print "❌ Mermaid CLI is not working properly" ;;
              ret (Some false)
            else ret None)
           is_timeout
           (fun _ =>
              print "❌ Mermaid CLI is not responding" ;;
              ret (Some false)) ;;
    match r with
    | Some b => ret b
    | None =>
        print "✅ All dependencies are available" ;;
        ret true
    end.

(** The excerpt of the source drawn on the placeholder: the loop
    [for i, line in enumerate(lines): if line.strip(): draw.text(...)],
    from index [i] on. *)
Fixpoint snippet_ops (i : Z) (lines : list string) (font_small : font) : list draw_op :=
  match lines with
  | [] => []
  | line :: rest =>
      (if Py.truthy (Py.strip line)
       then [DrawText 100 (450 + 20 + i * 15) (Py.take 50 line) "#95a5a6" font_small]
       else [])
      ++ snippet_ops (i + 1) rest font_small
  end.

(** What [_create_demo_image] draws for [mermaid_code]. *)
Definition demo_image (mermaid_code : string) : image :=
  let width := 800 in
  let height := 600 in
  let '(font_large, font_medium, font_small) :=
    if arial_available E
    then (TrueType "arial.ttf" 24, TrueType "arial.ttf" 16, TrueType "arial.ttf" 12)
    else (DefaultFont, DefaultFont, DefaultFont) in
  (* First 5 lines *)
  let lines := firstn 5 (Py.split_lines mermaid_code) in
  let y_pos := 450 in
  Image width height "white"
    ([ Rectangle [50; 50; width - 50; height - 50] "#333" 2 None;
       (* Title *)
       DrawText (width / 2 - 100) 80 "Mermaid Diagram" "#333" font_large;
       DrawText (width / 2 - 80) 110 "(Demo Mode)" "#666" font_medium;
       (* Box 1 *)
       Rectangle [150; 200; 300; 250] "#3498db" 2 (Some "#ecf0f1");
       DrawText (225 - 30) 220 "Start" "#2c3e50" font_medium;
       (* Arrow *)
       Line [300; 225; 350; 225] "#333" 2;
       Polygon [(345, 220); (355, 225); (345, 230)] "#333";
       (* Box 2 *)
       Rectangle [400; 200; 550; 250] "#e74c3c" 2 (Some "#fadbd8");
       DrawText (475 - 30) 220 "Process" "#2c3e50" font_medium;
       (* Arrow down *)
       Line [475; 250; 475; 300] "#333" 2;
       Polygon [(470, 295); (475, 305); (480, 295)] "#333";
       (* Box 3 *)
       Rectangle [400; 350; 550; 400] "#27ae60" 2 (Some "#d5f4e6");
       DrawText (475 - 20) 370 "End" "#2c3e50" font_medium;
       (* Add some code snippet info *)
       DrawText 100 y_pos "Original Mermaid Code:" "#7f8c8d" font_small ]
     ++ snippet_ops 0 lines font_small
     ++ [ (* Note *)
          DrawText 100 550 "Note: Install Mermaid CLI for actual conversion"
            "#e67e22" font_small ]).

(** [_create_demo_image(mermaid_code, output_path)] *)
Definition _create_demo_image (mermaid_code output_path : string) : M bool :=
  if negb (pil_available E) then
    print "❌ PIL not available for demo mode" ;;
    ret false
  else
    try_except
      ((* Save the image *)
       write_file E output_path (Png (demo_image mermaid_code)) ;;
       ret true)
      any_exception
      (fun e =>
         print ("❌ Error creating demo image: " +:+ exn_str e) ;;
         ret false).

(** [if config:] *)
Definition config_given (config : option json) : bool :=
  match config with
  | Some v => json_truthy v
  | None => false
  end.

(** The first part of the [try] block of [convert_mermaid_text]: the
    command, and the configuration file written for it, if any. *)
Definition prepare_cmd (cli : option string) (temp_input output_path : string)
    (config : option json) : M (cmd * option string) :=
  match cli with
  | None => raise AttributeError
  | Some c =>
      let cmd0 :=
        if Py.startswith c "node "
        then Shell (Py.join " " [c; "-i"; temp_input; "-o"; output_path])
        else Argv [c; "-i"; temp_input; "-o"; output_path] in
      (* Add configuration if provided *)
      r <- (if config_given config then
              config_file_path <-
                named_temporary_file E ".json" (json_dumps E (default JNull config)) ;;
              ret (match cmd0 with
                   | Argv l => Argv (l ++ ["-c"; config_file_path])
                   | Shell s => Shell (s +:+ " -c " +:+ config_file_path)
                   end, Some config_file_path)
            else ret (cmd0, None)) ;;
      (* Convert shell command if using npx or node *)
      let cmd1 :=
        if Py.contains "npx" c || Py.startswith c "node "
        then match fst r with
             | Argv l => Shell (Py.join " " l)
             | Shell s => Shell s
             end
        else fst r in
      ret (cmd1, snd r)
  end.

Definition cmd_str (c : cmd) : string :=
  match c with
  | Shell s => s
  | Argv l => Py.join " " l
  end.

(** The rest of the [try] block: run the conversion and judge it. *)
Definition run_conversion (c : cmd) (mermaid_code output_path : string) : M bool :=
  print ("Converting to " +:+ output_path +:+ "...") ;;
  print ("Command: " +:+ cmd_str c) ;;
  result <- subprocess_run E c 45 ;;
  ex <- path_exists output_path ;;
  if (returncode result =? 0) && ex then
    print ("✅ Successfully converted to " +:+ output_path) ;;
    ret true
  else
    print ("❌ Conversion failed (return code: " +:+ pretty (returncode result) +:+ ")") ;;
    (if Py.truthy (stderr result)
     then print ("Error: " +:+ Py.take 200 (stderr result) +:+ "...") else ret tt) ;;
    (if Py.truthy (stdout result)
     then print ("Output: " +:+ Py.take 200 (stdout result) +:+ "...") else ret tt) ;;
    (* Fallback to demo mode if CLI fails *)
    print "🔄 Falling back to demo mode" ;;
    _create_demo_image mermaid_code output_path.

(** The two [except] clauses of [convert_mermaid_text]. *)
Definition conversion_handler (mermaid_code output_path : string) (e : exn) : M bool :=
  if is_timeout e then
    print "❌ Conversion timed out, using demo mode" ;;
    _create_demo_image mermaid_code output_path
  else
    print ("❌ Error during conversion: " +:+ exn_str e) ;;
    print "🔄 Falling back to demo mode" ;;
    _create_demo_image mermaid_code output_path.

(** The [finally] clause: clean up temporary files. *)
Definition cleanup (temp_input : string) (config_file_path : option string) : M unit :=
  try_except
    (ex <- path_exists temp_input ;;
     (if ex then unlink temp_input else ret tt) ;;
     match config_file_path with
     | Some p =>
         if Py.truthy p then
           ex' <- path_exists p ;;
           if ex' then unlink p else ret tt
         else ret tt
     | None => ret tt
     end)
    any_exception (fun _ => ret tt).

(** [convert_mermaid_text(mermaid_code, output_path, config)].  The local
    variable [config_file_path] is [None] until the configuration file is
    written, so the [try] block is taken in two steps: [prepare_cmd], whose
    exception is kept and raised again inside the [try], then
    [run_conversion]. *)
Definition convert_mermaid_text (mermaid_code output_path : string)
    (config : option json) : M bool :=
  (* Check if we should use demo mode *)
  demo <- gets (fun w => demo_mode (self w)) ;;
  if demo then
    print "🎭 Using demo mode - generating placeholder image" ;;
    _create_demo_image mermaid_code output_path
  else
    ok <- _check_dependencies ;;
    if negb ok then
      print "⚠️ Dependencies not available, trying demo mode" ;;
      _create_demo_image mermaid_code output_path
    else
      (* Create temporary file for mermaid code *)
      temp_input <- named_temporary_file E ".mmd" mermaid_code ;;
      cli <- gets (fun w => mermaid_cli (self w)) ;;
      prepared <- attempt (prepare_cmd cli temp_input output_path config) ;;
      let config_file_path :=
        match prepared with Ok (_, p) => p | Raise _ => None end in
      try_finally
        (try_except
           (match prepared with
            | Raise e => raise e
            | Ok (c, _) => run_conversion c mermaid_code output_path
            end)
           any_exception
           (conversion_handler mermaid_code output_path))
        (cleanup temp_input config_file_path).

(** [convert_file(input_file, output_file, config)] *)
Definition convert_file (input_file : string) (output_file : option string)
    (config : option json) : M bool :=
  ex <- Path_exists E input_file ;;
  if negb ex then
    print ("❌ Input file not found: " +:+ input_file) ;;
    ret false
  else
    output_file <-
      match output_file with
      | Some o => ret o
      | None =>
          match Path.with_suffix input_file ".png" with
          | Some o => ret o
          | None => raise ValueError
          end
      end ;;
    try_except
      (mermaid_code <- read_text input_file ;;
       convert_mermaid_text mermaid_code output_file config)
      any_exception
      (fun e =>
         print ("❌ Error reading file " +:+ input_file +:+ ": " +:+ exn_str e) ;;
         ret false).

(** The [for mmd_file in mmd_files] loop of [batch_convert]. *)
Fixpoint batch_loop (mmd_files : list string) (output_path : string)
    (config : option json) (successful : nat) : M nat :=
  match mmd_files with
  | [] => ret successful
  | mmd_file :: rest =>
      let output_file := Path.join output_path (Path.stem mmd_file +:+ ".png") in
      ok <- convert_file mmd_file (Some output_file) config ;;
      batch_loop rest output_path config (if ok then S successful else successful)
  end.

(** [if output_directory:] *)
Definition opt_truthy (s : option string) : bool :=
  match s with
  | Some x => Py.truthy x
  | None => false
  end.

(** [batch_convert(input_directory, output_directory, config)] *)
Definition batch_convert (input_directory : string) (output_directory : option string)
    (config : option json) : M (nat * nat) :=
  ex <- Path_exists E input_directory ;;
  (* [or] looks at [is_dir()] only when [exists()] is true *)
  d <- (if ex then is_dir E input_directory else ret false) ;;
  if negb ex || negb d then
    print ("❌ Input directory not found: " +:+ input_directory) ;;
    ret (0%nat, 0%nat)
  else
    output_path <-
      (if opt_truthy output_directory then
         mkdir_parents E (default "" output_directory) ;;
         ret (default "" output_directory)
       else ret input_directory) ;;
    mmd_files <- gets (glob_mmd E input_directory) ;;
    match mmd_files with
    | [] =>
        print ("❌ No .mmd files found in " +:+ input_directory) ;;
        ret (0%nat, 0%nat)
    | _ =>
        let total := length mmd_files in
        print ("Found " +:+ pretty total +:+ " .mmd files to convert...") ;;
        successful <- batch_loop mmd_files output_path config 0 ;;
        print (String Py.nl "✅ Conversion complete: " +:+ pretty successful +:+ "/"
               +:+ pretty total +:+ " files converted successfully") ;;
        ret (successful, total)
    end.

End Converter.

(** ** The command line *)

Section Main.
Context (E : Env).

(** What [create_sample_mermaid] writes. *)
Definition sample_content : string :=
"graph TD
    A[开始] --> B{是否有Mermaid代码?}
    B -->|是| C[转换为PNG]
    B -->|否| D[创建Mermaid代码]
    C --> E[保存图片]
    D --> C
    E --> F[完成]
    
    style A fill:#e1f5fe
    style F fill:#c8e6c9
    style C fill:#fff3e0
".

(** [create_sample_mermaid()] *)
Definition create_sample_mermaid : M unit :=
  write_file E "sample.mmd" (Text sample_content) ;;
  print "✅ Created sample.mmd file".

(** The namespace [parser.parse_args()] returns. *)
Record Args := mkArgs {
  arg_file : option string;
  arg_output : option string;
  arg_directory : option string;
  arg_output_directory : option string;
  arg_text : option string;
  arg_config : option string;
  arg_sample : bool;
  arg_check : bool
}.

(** [json.load(open(p, 'r', encoding='utf-8'))] *)
Definition json_load (p : string) : M json :=
  s <- read_text p ;;
  match json_loads E s with
  | Some v => ret v
  | None => raise JSONDecodeError
  end.

(** The operations of [main], once the converter is built and the
    configuration is read. *)
Definition dispatch (args : Args) (config : option json) : M Z :=
  if arg_check args then
    ok <- _check_dependencies E ;;
    if ok then
      print "✅ All dependencies are working correctly" ;;
      ret 0
    else ret 1
  else if arg_sample args then
    create_sample_mermaid ;;
    ret 0
  else if opt_truthy (arg_text args) then
    let output_file :=
      if opt_truthy (arg_output args) then default "" (arg_output args)
      else "output.png" in
    ok <- convert_mermaid_text E (default "" (arg_text args)) output_file config ;;
    if ok then ret 0 else ret 1
  else if opt_truthy (arg_file args) then
    ok <- convert_file E (default "" (arg_file args)) (arg_output args) config ;;
    if ok then ret 0 else ret 1
  else if opt_truthy (arg_directory args) then
    r <- batch_convert E (default "" (arg_directory args))
           (arg_output_directory args) config ;;
    let '(successful, total) := r in
    ret (if (successful =? total)%nat then 0 else 1)
  else
    print "usage: mermaid_to_png.py [-h] [-f FILE] [-o OUTPUT] [-d DIRECTORY] ..." ;;
    ret 1.

(** [main()], after [parser.parse_args()]; the value is the exit code. *)
Definition main (args : Args) : M Z :=
  __init__ E ;;
  (* Load configuration if provided *)
  loaded <-
    (if opt_truthy (arg_config args) then
       try_except
         (v <- json_load (default "" (arg_config args)) ;; ret (Some (Some v)))
         any_exception
         (fun e =>
            print ("❌ Error loading config file: " +:+ exn_str e) ;;
            ret None)
     else ret (Some None)) ;;
  match loaded with
  | None => ret 1
  | Some config => dispatch args config
  end.

End Main.

(** ** The route POST /api/convert *)

Section Web.
Context (E : Env).
(** [werkzeug.utils.secure_filename], a function of the web framework. *)
Context (secure_filename : string -> string).

Definition OUTPUT_FOLDER : string := "outputs".

(** The body of a response, and the response with its status. *)
Inductive body :=
| ErrorBody (error : string)
| FailureBody (error : string)
| SuccessBody (image_data : content) (filename : string) (message : string).

Record response := Response { resp_body : body; resp_status : nat }.

(** [d[key]] on the object [json.loads] builds: the last binding wins. *)
Fixpoint obj_get (key : string) (l : list (string * json)) : option json :=
  match l with
  | [] => None
  | (k, v) :: rest =>
      match obj_get key rest with
      | Some v' => Some v'
      | None => if String.eqb k key then Some v else None
      end
  end.

(** [not data or 'mermaid_code' not in data], or the [TypeError] of the
    [in] test. *)
Definition missing_code (data : json) : res bool :=
  match data with
  | JNull => Ok true
  | JBool b => if b then Raise TypeError else Ok true
  | JNum z => if z =? 0 then Ok true else Raise TypeError
  | JStr s => Ok (negb (Py.truthy s) || negb (Py.contains "mermaid_code" s))
  | JArr l => Ok (match l with [] => true | _ => false end
                  || negb (existsb (fun v => match v with
                                             | JStr s => String.eqb s "mermaid_code"
                                             | _ => false end) l))
  | JObj l => Ok (match l with [] => true | _ => false end
                  || match obj_get "mermaid_code" l with None => true | Some _ => false end)
  end.

(** [convert_mermaid_text] called with a [mermaid_code] that is not a
    string: [mermaid_code.split] in [_create_demo_image] raises inside its
    [try], [temp_file.write] raises after the temporary file is made. *)
Definition demo_image_of_non_text : M bool :=
  if negb (pil_available E) then
    print "❌ PIL not available for demo mode" ;; ret false
  else
    print ("❌ Error creating demo image: " +:+ exn_str AttributeError) ;; ret false.

Definition convert_non_text : M bool :=
  demo <- gets (fun w => demo_mode (self w)) ;;
  if demo then
    print "🎭 Using demo mode - generating placeholder image" ;;
    demo_image_of_non_text
  else
    ok <- _check_dependencies E ;;
    if negb ok then
      print "⚠️ Dependencies not available, trying demo mode" ;;
      demo_image_of_non_text
    else
      named_temporary_file E ".mmd" "" ;;
      raise TypeError.

(** The [try] block of [convert_mermaid], for the parsed request body
    [data] ([request.get_json()]). *)
Definition convert_mermaid_try (data : json) : M response :=
  match missing_code data with
  | Raise e => raise e
  | Ok true => ret (Response (ErrorBody "Missing mermaid_code in request") 400)
  | Ok false =>
      match data with
      | JObj l =>
          let mermaid_code := default JNull (obj_get "mermaid_code" l) in
          let config := obj_get "config" l in
          match default (JStr "diagram.png") (obj_get "filename" l) with
          | JStr name =>
              let filename := secure_filename name in
              let filename :=
                if negb (Py.endswith filename ".png") then filename +:+ ".png"
                else filename in
              (* Create output file path *)
              let output_path := Path.os_join OUTPUT_FOLDER filename in
              (* Convert the Mermaid code *)
              success <- match mermaid_code with
                         | JStr code => convert_mermaid_text E code output_path config
                         | _ => convert_non_text
                         end ;;
              ex <- path_exists output_path ;;
              if success && ex then
                png_data <- read_bytes output_path ;;
                (* Clean up the file *)
                unlink output_path ;;
                ret (Response (SuccessBody png_data filename "Conversion successful") 200)
              else
                ret (Response (FailureBody "Conversion failed") 500)
          | _ => raise TypeError
          end
      | _ => raise TypeError
      end
  end.

(** [convert_mermaid()]: [get_json] gives [data] or raises. *)
Definition convert_mermaid (request_json : res json) : M response :=
  try_except
    (match request_json with
     | Raise e => raise e
     | Ok data => convert_mermaid_try data
     end)
    any_exception
    (fun e => ret (Response (FailureBody (exn_str e)) 500)).

End Web.

(** ** The other routes of the web application *)

Section Routes.
Context (E : Env).
Context (secure_filename : string -> string).

Definition UPLOAD_FOLDER : string := "uploads".

(** The answer of [GET /api/health]. *)
Record health := Health {
  health_status : string;
  mermaid_cli_available : bool
}.

(** [health_check()] *)
Definition health_check : M health :=
  cli <- gets (fun w => mermaid_cli (self w)) ;;
  ret (Health "ok" (match cli with Some _ => true | None => false end)).

(** The answer of [GET /api/check-dependencies]. *)
Record dependencies := Dependencies {
  dependencies_ok : bool;
  dependencies_cli : option string
}.

(** [check_dependencies()]: the route has no [try]. *)
Definition check_dependencies : M dependencies :=
  is_available <- _check_dependencies E ;;
  cli <- gets (fun w => mermaid_cli (self w)) ;;
  ret (Dependencies is_available cli).

(** An uploaded file, [request.files['file']]: its name and what it holds. *)
Record upload := Upload {
  upload_filename : string;
  upload_data : content
}.

(** What [convert_file] reads of the request: the file field, if there,
    and the form field [config], if there. *)
Record file_request := FileRequest {
  request_file : option upload;
  request_config : option string
}.

(** The optional configuration of the upload: the form field parsed as
    JSON, nothing when it does not parse ([except json.JSONDecodeError:
    pass]). *)
Definition upload_config (form_config : option string) : option json :=
  match form_config with
  | Some s => json_loads E s
  | None => None
  end.

(** [convert_file()], the route [POST /api/convert-file]. *)
Definition convert_file_route (request : file_request) : M response :=
  try_except
    (match request_file request with
     | None => ret (Response (ErrorBody "No file uploaded") 400)
     | Some file =>
         if String.eqb (upload_filename file) "" then
           ret (Response (ErrorBody "No file selected") 400)
         else if negb (Py.endswith (upload_filename file) ".mmd") then
           ret (Response (ErrorBody "File must have .mmd extension") 400)
         else
           (* Save uploaded file *)
           let filename := secure_filename (upload_filename file) in
           let input_path := Path.os_join UPLOAD_FOLDER filename in
           write_file E input_path (upload_data file) ;;
           (* Prepare output filename *)
           let output_filename := Py.replace filename ".mmd" ".png" in
           let output_path := Path.os_join OUTPUT_FOLDER output_filename in
           (* Get optional config *)
           let config := upload_config (request_config request) in
           (* Convert the file *)
           success <- convert_file E input_path (Some output_path) config ;;
           ex <- path_exists output_path ;;
           if success && ex then
             png_data <- read_bytes output_path ;;
             (* Clean up files *)
             unlink input_path ;;
             unlink output_path ;;
             ret (Response (SuccessBody png_data output_filename
                              "File conversion successful") 200)
           else
             (* Clean up input file even if conversion failed *)
             ex_in <- path_exists input_path ;;
             (if ex_in then unlink input_path else ret tt) ;;
             ret (Response (FailureBody "File conversion failed") 500)
     end)
    any_exception
    (fun e => ret (Response (FailureBody (exn_str e)) 500)).

End Routes.

(** ** diagnose.py: the project directories *)

Section Diagnose.
Context (E : Env).

(** [print_header(title)] *)
Definition print_header (title : string) : M unit :=
  let bar := String.concat "" (repeat "=" 60) in
  print (String Py.nl bar) ;;
  print (" " +:+ title) ;;
  print bar.

Definition required_dirs : list string :=
  ["templates"; "static"; "examples"; "uploads"; "outputs"].

(** One round of the loop of [check_directories]. *)
Definition check_directory (dir_path : string) : M unit :=
  ex <- Path_exists E dir_path ;;
  (* [and] looks at [is_dir()] only when [exists()] is true *)
  d <- (if ex then is_dir E dir_path else ret false) ;;
  if ex && d then
    files <- iterdir E dir_path ;;
    print ("✅ " +:+ dir_path +:+ "/ (" +:+ pretty (length files) +:+ " items)")
  else
    print ("❌ " +:+ dir_path +:+ "/ - Missing") ;;
    (* Create missing directories *)
    try_except
      (mkdir_exist_ok E dir_path ;;
       print ("   📁 Created " +:+ dir_path +:+ "/"))
      any_exception
      (fun e => print ("   ⚠️ Could not create: " +:+ exn_str e)).

Fixpoint check_directories_loop (dirs : list string) : M unit :=
  match dirs with
  | [] => ret tt
  | dir_path :: rest =>
      check_directory dir_path ;;
      check_directories_loop rest
  end.

(** [check_directories()] *)
Definition check_directories : M unit :=
  print_header "Project Directories" ;;
  check_directories_loop required_dirs.

End Diagnose.

(** * Environments and worlds for the examples *)

(** A file can be written where its directory is. *)
Definition parent_writable (p : string) (w : World) : bool :=
  match fs w !! Path.parent p with
  | Some Dir => true
  | _ => false
  end.

(** Temporary names are numbered by the processes run so far. *)
Definition numbered_temp (suffix : string) (w : World) : option string :=
  Some ("/tmp/tmp" +:+ pretty (length (procs w)) +:+ suffix).

(** A machine on which PIL is installed, with the script in [/app] and
    processes that behave as [sp] says. *)
Definition machine (sp : cmd -> nat -> World -> proc_end * gmap string node) : Env :=
  mkEnv "/app" sp numbered_temp parent_writable true false
        (fun _ => "{}") (fun _ => None)
        (fun _ _ => None) (fun _ => []) (fun _ _ => false).

(** No command is found: the shell exits with 127. *)
Definition env_no_tool : Env :=
  machine (fun _ _ w => (Exited (Completed 127 "" "command not found"), fs w)).

(** Only [npm list] answers, and names the package; nothing else runs. *)
Definition env_npm_only : Env :=
  machine (fun c _ w =>
    match c with
    | Shell line =>
        if Py.startswith line "npm list"
        then (Exited (Completed 0 "app@1.0.0 /app +-- @mermaid-js/mermaid-cli@10.9.1" ""),
              fs w)
        else (Exited (Completed 127 "" "command not found"), fs w)
    | Argv _ => (NotStarted FileNotFoundError, fs w)
    end).

(** [mmdc] answers the version query at once; a run with the 30 second
    timeout of the trial conversion does not end in time. *)
Definition env_hanging : Env :=
  machine (fun _ t w =>
    if (t =? 30)%nat then (TimedOut, fs w)
    else (Exited (Completed 0 "10.9.1" ""), fs w)).

(** The tool answers every query, but a run with the 45 second timeout of
    a conversion exits with 1 and writes nothing. *)
Definition env_failing_conversion : Env :=
  machine (fun _ t w =>
    if (t =? 45)%nat then (Exited (Completed 1 "" "Error: Failed to launch the browser process"), fs w)
    else (Exited (Completed 0 "10.9.1" ""), fs w)).

(** The tool answers every query and every run exits with 0. *)
Definition env_working : Env :=
  machine (fun _ _ w => (Exited (Completed 0 "10.9.1" ""), fs w)).

(** No command is found, and every path can be written. *)
Definition env_open : Env :=
  mkEnv "/app" (fun _ _ w => (Exited (Completed 127 "" "command not found"), fs w))
        numbered_temp (fun _ _ => true) true false (fun _ => "{}") (fun _ => None)
        (fun _ _ => None) (fun _ => []) (fun _ _ => false).

(** A fresh start: the script directory, the temporary directory, a
    directory [/d] of diagrams and the output folder of the web
    application; no converter built yet. *)
Definition w_start : World :=
  mkWorld {[ "/app" := Dir; "/tmp" := Dir; "/d" := Dir; "outputs" := Dir;
             "/d/flow.mmd" := File (Text "graph TD; A-->B") ]}
          [] [] (Converter None false).

(** The same with a converter in demo mode, or with [mmdc] as its tool. *)
Definition w_demo : World := set_self (Converter None true) w_start.
Definition w_mmdc : World := set_self (Converter (Some "mmdc") false) w_start.

(** * Vocabulary of the statements *)

(** [keeps R m]: the computation [m] takes every world to a world related
    to it by [R], whether it returns or raises. *)
Definition keeps (R : World -> World -> Prop) {A} (m : M A) : Prop :=
  forall w, R w (snd (m w)).

(** Relations that a change of the files, a printed line or a started
    process does not break. *)
Class FsFrame (R : World -> World -> Prop) : Prop :=
  fs_frame : forall w f, R w (set_fs f w).

Class PrintFrame (R : World -> World -> Prop) : Prop :=
  print_frame : forall w l, R w (add_printed l w).

Class ProcFrame (R : World -> World -> Prop) : Prop :=
  proc_frame : forall w p, R w (add_proc p w).

(** No process was started. *)
Definition same_procs (w w' : World) : Prop := procs w' = procs w.

(** The line that opens every probe of [_find_mermaid_cli]. *)
Definition probe_line (l : string) : bool := Py.startswith l "Testing: ".

(** From [w] to [w'] the fields of the converter object are the same and
    no probe line was printed. *)
Definition settled (w w' : World) : Prop :=
  self w' = self w /\
  exists new, printed w' = printed w ++ new /\
              Forall (fun l => probe_line l = false) new.

(** [m] returns in every world: it never raises. *)
Definition total {A} (m : M A) : Prop := forall w, exists a, fst (m w) = Ok a.

(** The texts drawn in the colour of the excerpt, in drawing order. *)
Definition excerpt_texts (img : image) : list string :=
  omap (fun op =>
          match op with
          | DrawText _ _ t fill _ =>
              if String.eqb fill "#95a5a6" then Some t else None
          | _ => None
          end) (img_ops img).

(** The excerpt in the words of the specification: the first non-empty
    lines of the input, up to 5 of them, each cut to 50 characters. *)
Definition spec_excerpt (mermaid_code : string) : list string :=
  map (Py.take 50) (firstn 5 (List.filter Py.truthy (Py.split_lines mermaid_code))).

(** A line with something else than white space on it. *)
Definition not_blank (line : string) : bool := Py.truthy (Py.strip line).

(** Six lines, the second of them empty. *)
Definition six_lines : string :=
  Py.join (String Py.nl "") ["a"; ""; "b"; "c"; "d"; "e"].

(** The log only grows. *)
Definition extends (w w' : World) : Prop := exists new, procs w' = procs w ++ new.

(** The processes started between [w] and [w']. *)
Definition new_procs (w w' : World) : list proc :=
  drop (length (procs w)) (procs w').

(** Among the processes [ps], a trial conversion of the candidate [p]:
    the command of [_test_mermaid_cli_with_conversion], run on a file that
    holds the trivial diagram, and ended with exit code zero. *)
Definition trial_passed (p : string) (ps : list proc) : Prop :=
  exists tin f c f',
    Proc (Shell (test_cmd p tin (Py.replace tin ".mmd" ".png"))) 30 f (Exited c) f'
      ∈ ps /\
    f !! tin = Some (File (Text test_code)) /\
    returncode c = 0.

(** Among the processes [ps], a package listing that names the tool. *)
Definition listed_by_npm (ps : list proc) : Prop :=
  exists f c f',
    Proc (Shell ("npm list " +:+ npm_package)) 10 f (Exited c) f' ∈ ps /\
    Py.contains npm_package (stdout c) = true.

(** The two ways a candidate is accepted: one that is tried through the
    package runner, on the package listing; any other, on its trial
    conversion. *)
Definition accepted (p : string) (ps : list proc) : Prop :=
  (Py.startswith p "node " = false /\ Py.contains "npx" p = true /\
   listed_by_npm ps)
  \/ ((Py.startswith p "node " = true \/ Py.contains "npx" p = false) /\
      trial_passed p ps).


(** The log grows, and by no process with the timeout of a conversion. *)
Definition no_conversion (w w' : World) : Prop :=
  exists new, procs w' = procs w ++ new /\
              Forall (fun pr => proc_timeout pr <> 45%nat) new.

(** The files only go, and the log stays. *)
Definition shrinks (w w' : World) : Prop := fs w' ⊆ fs w /\ procs w' = procs w.



(** The output directory of [batch_convert] and the world once it is
    made: the given directory, created with its parents, or the input
    directory when none is given; nothing when it cannot be created. *)
Definition batch_output (E : Env) (input_directory : string)
    (output_directory : option string) (w : World) : option (string * World) :=
  if opt_truthy output_directory then
    match mkdir_parents E (default "" output_directory) w with
    | (Ok _, w') => Some (default "" output_directory, w')
    | (Raise _, _) => None
    end
  else Some (input_directory, w).


(** A directory with one file that is not UTF-8 text. *)
Definition w_binary : World :=
  set_fs {[ "/d" := Dir; "/d/scan.mmd" := File Binary ]} w_demo.


(** [-d /missing]: batch mode on a directory that does not exist. *)
Definition args_missing_directory : Args :=
  mkArgs None None (Some "/missing") None None None false false.

(** [-d /app]: batch mode on a directory without [.mmd] files. *)
Definition args_empty_directory : Args :=
  mkArgs None None (Some "/app") None None None false false.

(** [-f /missing.mmd]: file mode on a file that does not exist. *)
Definition args_missing_file : Args :=
  mkArgs (Some "/missing.mmd") None None None None None false false.

(** A request that only carries the diagram. *)
Definition request_plain : res json :=
  Ok (JObj [("mermaid_code", JStr "graph TD; A-->B")]).

(** What is at [p] did not change. *)
Definition same_at (p : string) (w w' : World) : Prop := fs w' !! p = fs w !! p.

(** The conversion is timed out, everything else answers. *)
Definition env_conversion_timeout : Env :=
  machine (fun _ t w =>
    if (t =? 45)%nat then (TimedOut, fs w)
    else (Exited (Completed 0 "10.9.1" ""), fs w)).

(** No temporary file can be made; everything else answers. *)
Definition env_no_temp : Env :=
  mkEnv "/app" (fun _ _ w => (Exited (Completed 0 "10.9.1" ""), fs w))
        (fun _ _ => None) parent_writable true false (fun _ => "{}") (fun _ => None)
        (fun _ _ => None) (fun _ => []) (fun _ _ => false).

(** Nothing can be started: the system has no memory for a process. *)
Definition env_no_process : Env :=
  machine (fun _ _ w => (NotStarted (OSError "Cannot allocate memory"), fs w)).

(** The lines printed between [w] and [w'] that open a probe. *)
Definition probe_lines (w w' : World) : list string :=
  List.filter probe_line (drop (length (printed w)) (printed w')).

(** The file name of the answer of [convert_mermaid], from the name asked
    for. *)
Definition answer_filename (secure_filename : string -> string) (name : string)
    : string :=
  if Py.endswith (secure_filename name) ".png" then secure_filename name
  else secure_filename name +:+ ".png".

(** The status of an answer goes with its body. *)
Definition well_formed (resp : response) : Prop :=
  match resp_body resp with
  | ErrorBody _ => resp_status resp = 400%nat
  | FailureBody _ => resp_status resp = 500%nat
  | SuccessBody _ _ _ => resp_status resp = 200%nat
  end.

(** The upload is refused before anything is saved: no file field, an
    empty file name, or a name that does not end in [.mmd]. *)
Definition upload_refused (request : file_request) : bool :=
  match request_file request with
  | None => true
  | Some file =>
      String.eqb (upload_filename file) "" ||
      negb (Py.endswith (upload_filename file) ".mmd")
  end.

(** Where the route saves the upload named [name]. *)
Definition upload_path (secure_filename : string -> string) (name : string) : string :=
  Path.os_join UPLOAD_FOLDER (secure_filename name).

(** The route after its three checks: the upload is saved and converted. *)
Definition accepted_upload (E : Env) (secure_filename : string -> string)
    (file : upload) (form_config : option string) : M response :=
  let filename := secure_filename (upload_filename file) in
  let input_path := Path.os_join UPLOAD_FOLDER filename in
  write_file E input_path (upload_data file) ;;
  let output_filename := Py.replace filename ".mmd" ".png" in
  let output_path := Path.os_join OUTPUT_FOLDER output_filename in
  let config := upload_config E form_config in
  success <- convert_file E input_path (Some output_path) config ;;
  ex <- path_exists output_path ;;
  if success && ex then
    png_data <- read_bytes output_path ;;
    unlink input_path ;;
    unlink output_path ;;
    ret (Response (SuccessBody png_data output_filename
                     "File conversion successful") 200)
  else
    ex_in <- path_exists input_path ;;
    (if ex_in then unlink input_path else ret tt) ;;
    ret (Response (FailureBody "File conversion failed") 500).

(** No command is found, PIL is not installed, every path can be written. *)
Definition env_no_pil : Env :=
  mkEnv "/app" (fun _ _ w => (Exited (Completed 127 "" "command not found"), fs w))
        numbered_temp (fun _ _ => true) false false (fun _ => "{}") (fun _ => None)
        (fun _ _ => None) (fun _ => []) (fun _ _ => false).

(** An upload of one small diagram, without a configuration. *)
Definition request_upload : file_request :=
  FileRequest (Some (Upload "flow.mmd" (Text "graph TD; A-->B"))) None.

(** A configuration that is not there, with [--check] and a text. *)
Definition args_bad_config : Args :=
  mkArgs None None None None (Some "graph TD; A-->B") (Some "/missing.json") false true.

(** [--sample] alone. *)
Definition args_sample : Args :=
  mkArgs None None None None None None true false.

(** From [w] to [w'] every entry stayed as it was, every new entry is a
    directory named in [dirs], and no process was started. *)
Definition only_adds_dirs (dirs : list string) (w w' : World) : Prop :=
  fs w ⊆ fs w' /\
  (forall p n, fs w' !! p = Some n ->
               fs w !! p = Some n \/ (p ∈ dirs /\ n = Dir)) /\
  procs w' = procs w.

(** [os.stat(p)] answers that nothing is there. *)
Definition nothing_at (E : Env) (p : string) (w : World) : Prop :=
  node_at p w = None /\
  match stat_error E p w with
  | Some e => answers_false e = true
  | None => True
  end.


(** A system whose file names have at most 255 bytes; no command is
    found, every other path can be written. *)
Definition env_long_names : Env :=
  mkEnv "/app" (fun _ _ w => (Exited (Completed 127 "" "command not found"), fs w))
        numbered_temp (fun p _ => (String.length (Path.name p) <=? 255)%nat)
        true false (fun _ => "{}") (fun _ => None)
        (fun p _ => if (String.length (Path.name p) <=? 255)%nat then None
                    else Some (OSError "[Errno 36] File name too long"))
        (fun _ => []) (fun _ _ => false).

(** [os.stat] fails only with the answer that nothing is there: no name
    is too long for it, no directory closed to it. *)
Definition stat_plain (E : Env) : Prop :=
  forall p w e, stat_error E p w = Some e -> answers_false e = true.

(** An output directory with a name that is too long, in a directory
    that is still to be made. *)
Definition long_output : string := "/new/" +:+ String.concat "" (repeat "x" 300).

(** The conversion [convert_mermaid] asks for, for the request object
    [l] and the output path: [converter.convert_mermaid_text(mermaid_code,
    output_path, config)]. *)
Definition route_conversion (E : Env) (l : list (string * json))
    (output_path : string) : M bool :=
  match default JNull (obj_get "mermaid_code" l) with
  | JStr code => convert_mermaid_text E code output_path (obj_get "config" l)
  | _ => convert_non_text E
  end.

(** The same system, where the directory [/d] lists a link [long.mmd]
    to a name that is too long. *)
Definition env_broken_link : Env :=
  mkEnv "/app" (fun _ _ w => (Exited (Completed 127 "" "command not found"), fs w))
        numbered_temp (fun _ _ => true) true false (fun _ => "{}") (fun _ => None)
        (fun p _ => if String.eqb p "/d/long.mmd"
                    then Some (OSError "[Errno 36] File name too long") else None)
        (fun _ => ["/d/long.mmd"]) (fun _ _ => false).

(** No process answers a version query with exit code zero and some
    output, and none names the package. *)
Definition nothing_answers (E : Env) : Prop :=
  forall c t w r,
    fst (spawn E c t w) = Exited r ->
    (returncode r =? 0) && Py.truthy (stdout r) = false /\
    Py.contains npm_package (stdout r) = false.

(** * Facts *)

(** ** The string and path functions on examples *)

Example replace_ex : Py.replace "node a node b" "node " "" = "a b".
Proof. reflexivity. Qed.

Example split_ex : Py.split_lines (String "a" (String Py.nl (String Py.nl "b"))) = ["a"; ""; "b"].
Proof. reflexivity. Qed.

Example strip_ex : Py.strip "  a b  " = "a b".
Proof. reflexivity. Qed.

(** Characters, not bytes: U+3000 and U+00A0 are white space, the last
    byte of [à] is not; a slice cuts between characters. *)
Example strip_unicode_ex :
  Py.strip (Py.bytes [227; 128; 128]%nat +:+ "a" +:+ Py.bytes [194; 160]%nat) = "a" /\
  Py.strip "voilà" = "voilà" /\
  Py.truthy (Py.strip (Py.bytes [226; 128; 131; 32; 194; 133]%nat)) = false.
Proof. repeat split; reflexivity. Qed.

Example take_ex :
  Py.take 2 "日本語" = "日本" /\ Py.len "日本語" = 3%nat /\
  Py.take 3 "añb" = "añb" /\ Py.take 0 "abc" = "".
Proof. repeat split; reflexivity. Qed.

(** Sixty characters of three bytes each are cut to fifty characters. *)
Example take_wide_ex :
  Py.len (Py.take 50 (String.concat "" (repeat "日" 60))) = 50%nat /\
  String.length (Py.take 50 (String.concat "" (repeat "日" 60))) = 150%nat.
Proof. split; vm_compute; reflexivity. Qed.

Example with_suffix_ex :
  Path.with_suffix "dir/flow.mmd" ".png" = Some "dir/flow.png" /\
  Path.with_suffix "/flow" ".png" = Some "/flow.png" /\
  Path.with_suffix "." ".png" = None /\ Path.with_suffix "/" ".png" = None.
Proof. repeat split; reflexivity. Qed.

Example rsplit_ex : Py.rsplit "." "a.b.c" = Some ("a.b", "c").
Proof. reflexivity. Qed.

Example stem_ex : Path.stem "dir/flow.mmd" = "flow" /\ Path.stem "dir/.mmd" = ".mmd".
Proof. split; reflexivity. Qed.

Example ancestors_ex : Path.ancestors "/a/b/c" = ["/a"; "/a/b"].
Proof. reflexivity. Qed.


(** ** Strings and paths *)

Section StringFacts.

Lemma app_cons (a : ascii) (s t : string) : String a s +:+ t = String a (s +:+ t).
Proof. reflexivity. Qed.



Lemma app_assoc_s (s t u : string) : (s +:+ t) +:+ u = s +:+ (t +:+ u).
Proof.
  induction s as [|a s IH]; [reflexivity|].
  rewrite !app_cons. by rewrite IH.
Qed.


Lemma endswith_spec (s suf : string) :
  Py.endswith s suf = true <-> exists pre, s = pre +:+ suf.
Proof.
  induction s as [|a s IH].
  - destruct suf as [|b suf]; simpl; split; try done.
    + by exists "".
    + intros [pre H]. destruct pre; discriminate.
  - change (Py.endswith (String a s) suf)
      with (String.eqb (String a s) suf || Py.endswith s suf).
    rewrite orb_true_iff, String.eqb_eq, IH. split.
    + intros [<- | [pre ->]]; [by exists "" | by exists (String a pre)].
    + intros [pre H]. destruct pre as [|b pre].
      * left. by rewrite H.
      * rewrite app_cons in H. injection H as _ ->. right. by exists pre.
Qed.

Lemma endswith_app (s suf : string) : Py.endswith (s +:+ suf) suf = true.
Proof. apply endswith_spec. by exists s. Qed.







End StringFacts.

(** ** Frames: what a computation leaves as it was

    For a preorder [R], [keeps R] goes through every way of putting
    computations together. *)

Section Frame.
Context (R : World -> World -> Prop) {Rrefl : Reflexive R} {Rtrans : Transitive R}.

Lemma keeps_ret {A} (a : A) : keeps R (ret a).
Proof. intros w. apply Rrefl. Qed.

Lemma keeps_raise {A} (e : exn) : keeps R (@raise A e).
Proof. intros w. apply Rrefl. Qed.

Lemma keeps_gets {A} (f : World -> A) : keeps R (gets f).
Proof. intros w. apply Rrefl. Qed.

Lemma keeps_bind {A B} (m : M A) (k : A -> M B) :
  keeps R m -> (forall a, keeps R (k a)) -> keeps R (bind m k).
Proof.
  intros Hm Hk w. unfold bind. specialize (Hm w).
  destruct (m w) as [[a|e] w1]; simpl in *; [|done].
  etrans; [exact Hm | apply Hk].
Qed.

Lemma keeps_try_except {A} (m : M A) sel (h : exn -> M A) :
  keeps R m -> (forall e, keeps R (h e)) -> keeps R (try_except m sel h).
Proof.
  intros Hm Hh w. unfold try_except. specialize (Hm w).
  destruct (m w) as [[a|e] w1]; simpl in *; [done|].
  destruct (sel e); [|done]. etrans; [exact Hm | apply Hh].
Qed.

Lemma keeps_try_finally {A} (m : M A) (f : M unit) :
  keeps R m -> keeps R f -> keeps R (try_finally m f).
Proof.
  intros Hm Hf w. unfold try_finally. specialize (Hm w).
  destruct (m w) as [r w1]. specialize (Hf w1).
  destruct (f w1) as [[[]|e] w2]; simpl in *; by etrans.
Qed.

Lemma keeps_attempt {A} (m : M A) : keeps R m -> keeps R (attempt m).
Proof.
  intros Hm w. unfold attempt. specialize (Hm w). by destruct (m w).
Qed.

Lemma keeps_print `{!PrintFrame R} (l : string) : keeps R (print l).
Proof. intros w. apply print_frame. Qed.

Section Files.
Context {Rfs : FsFrame R} (E : Env).

Lemma keeps_unlink (p : string) : keeps R (unlink p).
Proof.
  intros w. unfold unlink.
  destruct (fs w !! p) as [[|c]|]; simpl; first [apply fs_frame | apply Rrefl].
Qed.

Lemma keeps_write_file (p : string) (c : content) : keeps R (write_file E p c).
Proof.
  intros w. unfold write_file.
  destruct (writable E p w); simpl; first [apply fs_frame | apply Rrefl].
Qed.

Lemma keeps_read_text (p : string) : keeps R (read_text p).
Proof.
  intros w. unfold read_text. destruct (node_at p w) as [[|[]]|]; apply Rrefl.
Qed.

Lemma keeps_read_bytes (p : string) : keeps R (read_bytes p).
Proof.
  intros w. unfold read_bytes. destruct (fs w !! p) as [[|]|]; apply Rrefl.
Qed.

Lemma keeps_named_temporary_file (suffix text : string) :
  keeps R (named_temporary_file E suffix text).
Proof.
  intros w. unfold named_temporary_file.
  destruct (temp_name E suffix w); [|apply Rrefl].
  destruct (fs w !! _); simpl; first [apply fs_frame | apply Rrefl].
Qed.

Lemma keeps_os_stat (p : string) : keeps R (os_stat E p).
Proof. intros w. unfold os_stat. destruct (node_at p w); apply Rrefl. Qed.

Lemma keeps_Path_exists (p : string) : keeps R (Path_exists E p).
Proof.
  unfold Path_exists. apply keeps_try_except.
  - apply keeps_bind; [apply keeps_os_stat | intros n; apply keeps_ret].
  - intros e. destruct (answers_false e); [apply keeps_ret | apply keeps_raise].
Qed.

Lemma keeps_is_dir (p : string) : keeps R (is_dir E p).
Proof.
  unfold is_dir. apply keeps_try_except.
  - apply keeps_bind; [apply keeps_os_stat | intros n; apply keeps_ret].
  - intros e. destruct (answers_false e); [apply keeps_ret | apply keeps_raise].
Qed.

Lemma keeps_os_mkdir (p : string) : keeps R (os_mkdir E p).
Proof.
  intros w. unfold os_mkdir.
  destruct (node_at p w); [apply Rrefl|].
  destruct (node_at (Path.parent p) w) as [[|c]|]; try apply Rrefl.
  destruct (bool_decide _); [apply Rrefl|].
  destruct (writable E p w); simpl; first [apply fs_frame | apply Rrefl].
Qed.

Lemma keeps_mkdir_exists (p : string) (e : exn) : keeps R (mkdir_exists E p e).
Proof.
  unfold mkdir_exists. apply keeps_bind; [apply keeps_is_dir|].
  intros [|]; [apply keeps_ret | apply keeps_raise].
Qed.

Lemma keeps_mkdir_exist_ok (p : string) : keeps R (mkdir_exist_ok E p).
Proof.
  unfold mkdir_exist_ok. apply keeps_try_except; [apply keeps_os_mkdir|].
  intros e. destruct e; first [apply keeps_raise | apply keeps_mkdir_exists].
Qed.

Lemma keeps_mkdir_parents_go (p : string) (up : list string) :
  keeps R (mkdir_parents_go E p up).
Proof.
  revert p. induction up as [|q up IH]; intros p; simpl;
    (apply keeps_try_except; [apply keeps_os_mkdir|]);
    intros e; destruct e;
    first [apply keeps_raise | apply keeps_mkdir_exists | idtac].
  apply keeps_bind; [apply IH | intros _; apply keeps_mkdir_exist_ok].
Qed.

Lemma keeps_mkdir_parents (p : string) : keeps R (mkdir_parents E p).
Proof. apply keeps_mkdir_parents_go. Qed.

Lemma keeps_iterdir (d : string) : keeps R (iterdir E d).
Proof. intros w. unfold iterdir. destruct (unlistable E d w); apply Rrefl. Qed.

Lemma keeps_subprocess_run `{!ProcFrame R} (c : cmd) (t : nat) :
  keeps R (subprocess_run E c t).
Proof.
  intros w. unfold subprocess_run. destruct (spawn E c t w) as [e f].
  assert (R w (add_proc (Proc c t (fs w) e f) (set_fs f w))).
  { etrans; [apply (fs_frame w f) | apply proc_frame]. }
  by destruct e.
Qed.

End Files.
End Frame.

(** Taking a computation apart along its structure. *)
Ltac frame_step :=
  lazymatch goal with
  | |- keeps _ (bind _ _) => apply keeps_bind; [apply _ | try done | intros ?]
  | |- keeps _ (try_except _ _ _) =>
      apply keeps_try_except; [apply _ | try done | intros ?]
  | |- keeps _ (try_finally _ _) =>
      apply keeps_try_finally; [apply _ | try done | try done]
  | |- keeps _ (attempt _) => apply keeps_attempt; try done
  | |- keeps _ (ret _) => apply keeps_ret; apply _
  | |- keeps _ (raise _) => apply keeps_raise; apply _
  | |- keeps _ (gets _) => apply keeps_gets; apply _
  | |- keeps _ (path_exists _) => apply keeps_gets; apply _
  | |- keeps _ (Path_exists _ _) => apply keeps_Path_exists; apply _
  | |- keeps _ (is_dir _ _) => apply keeps_is_dir; apply _
  | |- keeps _ (iterdir _ _) => apply keeps_iterdir; apply _
  | |- keeps _ (mkdir_exist_ok _ _) => apply keeps_mkdir_exist_ok; apply _
  | |- keeps _ (unlink _) => apply keeps_unlink; apply _
  | |- keeps _ (write_file _ _ _) => apply keeps_write_file; apply _
  | |- keeps _ (read_text _) => apply keeps_read_text; apply _
  | |- keeps _ (read_bytes _) => apply keeps_read_bytes; apply _
  | |- keeps _ (named_temporary_file _ _ _) =>
      apply keeps_named_temporary_file; apply _
  | |- keeps _ (mkdir_parents _ _) => apply keeps_mkdir_parents; apply _
  | |- keeps _ (subprocess_run _ _ _) => apply keeps_subprocess_run; apply _
  | |- keeps _ (if ?b then _ else _) => destruct b
  | |- keeps _ (match ?x with _ => _ end) => destruct x
  | |- keeps _ (let (_, _) := ?x in _) => destruct x
  end.
Ltac frame := repeat frame_step.

(** *** The process log *)

#[local] Instance same_procs_refl : Reflexive same_procs.
Proof. by intros w. Qed.
#[local] Instance same_procs_trans : Transitive same_procs.
Proof. unfold same_procs. intros w1 w2 w3 H1 H2. congruence. Qed.
#[local] Instance same_procs_fs : FsFrame same_procs.
Proof. by intros w f. Qed.
#[local] Instance same_procs_print : PrintFrame same_procs.
Proof. by intros w l. Qed.

(** *** The converter object and the probe lines *)

#[local] Instance settled_refl : Reflexive settled.
Proof. intros w. split; [done|]. exists []. by rewrite app_nil_r. Qed.

#[local] Instance settled_trans : Transitive settled.
Proof.
  intros w1 w2 w3 [Hs1 (n1 & Hp1 & Hf1)] [Hs2 (n2 & Hp2 & Hf2)]. split.
  - congruence.
  - exists (n1 ++ n2). split.
    + by rewrite Hp2, Hp1, app_assoc.
    + by apply Forall_app.
Qed.

#[local] Instance settled_fs : FsFrame settled.
Proof. intros w f. split; [done|]. exists []. by rewrite app_nil_r. Qed.

#[local] Instance settled_proc : ProcFrame settled.
Proof. intros w p. split; [done|]. exists []. by rewrite app_nil_r. Qed.

Section Settled.
Context (E : Env).

Lemma settled_print (l : string) :
  probe_line l = false -> keeps settled (print l).
Proof.
  intros Hl w. split; [done|]. exists [l]. split; [done|]. by constructor.
Qed.

Lemma settled_check_dependencies : keeps settled (_check_dependencies E).
Proof. unfold _check_dependencies. frame; auto using settled_print. Qed.

Lemma settled_create_demo_image (code out : string) :
  keeps settled (_create_demo_image E code out).
Proof. unfold _create_demo_image. frame; auto using settled_print. Qed.

Lemma settled_cleanup (temp_input : string) (cfg : option string) :
  keeps settled (cleanup temp_input cfg).
Proof. unfold cleanup. frame. Qed.

Lemma settled_convert_mermaid_text (code out : string) (config : option json) :
  keeps settled (convert_mermaid_text E code out config).
Proof.
  unfold convert_mermaid_text, prepare_cmd, run_conversion, conversion_handler.
  frame; auto using settled_print, settled_check_dependencies,
    settled_create_demo_image, settled_cleanup.
Qed.

Lemma settled_convert_file (input : string) (output : option string)
    (config : option json) :
  keeps settled (convert_file E input output config).
Proof.
  unfold convert_file.
  frame; auto using settled_print, settled_convert_mermaid_text.
Qed.

Lemma settled_batch_loop (files : list string) (out : string)
    (config : option json) (n : nat) :
  keeps settled (batch_loop E files out config n).
Proof.
  revert n. induction files as [|f files IH]; intros n; simpl.
  - frame.
  - frame; [apply settled_convert_file | apply IH].
Qed.

Lemma settled_batch_convert (input : string) (output : option string)
    (config : option json) :
  keeps settled (batch_convert E input output config).
Proof.
  unfold batch_convert.
  frame; auto using settled_print, settled_batch_loop.
Qed.

End Settled.

(** ** Computations that return *)

Lemma total_try_except_any {A} (m : M A) (h : exn -> M A) :
  (forall e, total (h e)) -> total (try_except m any_exception h).
Proof.
  intros Hh w. unfold try_except.
  destruct (m w) as [[a|e] w1]; simpl; [by eexists | apply Hh].
Qed.

Lemma total_print_ret {A} (l : string) (a : A) : total (print l ;; ret a).
Proof. intros w. by exists a. Qed.

Section Discovery.
Context (E : Env).

Lemma total_test_conversion (p : string) :
  total (_test_mermaid_cli_with_conversion E p).
Proof. apply total_try_except_any. intros e. apply total_print_ret. Qed.

Lemma total_probe (p : string) : total (probe E p).
Proof. apply total_try_except_any. intros e. apply total_print_ret. Qed.

Lemma total_find_loop (paths : list string) : total (find_loop E paths).
Proof.
  induction paths as [|p paths IH]; intros w; simpl.
  - by eexists.
  - unfold bind. destruct (total_probe p w) as [r Hr].
    destruct (probe E p w) as [r' w1]; simpl in Hr; subst r'.
    destruct r as [q|]; [by eexists | apply IH].
Qed.

End Discovery.

(** ** The converter object after construction *)

(** C7: for every converter, discovery runs once, at construction: the
    processes and files [__init__] leaves are those of one run of
    [_find_mermaid_cli], whose answer fills [mermaid_cli] and decides
    [demo_mode], and after that run it prints no line that opens a probe.  No later operation ([convert_mermaid_text],
    [convert_file], [batch_convert], [_check_dependencies]) changes either
    field or prints the line that opens a probe: the active candidate, or
    its absence, is fixed and is not probed again per request. *)
Theorem discovery_only_at_construction (E : Env) :
  (forall w, exists cli w1,
      _find_mermaid_cli E w = (Ok cli, w1) /\
      fst (__init__ E w) = Ok tt /\
      self (snd (__init__ E w))
        = Converter cli (match cli with None => true | Some _ => false end) /\
      procs (snd (__init__ E w)) = procs w1 /\
      fs (snd (__init__ E w)) = fs w1 /\
      exists more, printed (snd (__init__ E w)) = printed w1 ++ more /\
                   Forall (fun l => probe_line l = false) more) /\
  (forall code out config, keeps settled (convert_mermaid_text E code out config)) /\
  (forall input output config, keeps settled (convert_file E input output config)) /\
  (forall input output config, keeps settled (batch_convert E input output config)) /\
  keeps settled (_check_dependencies E).
Proof.
  split; [|auto using settled_convert_mermaid_text, settled_convert_file,
             settled_batch_convert, settled_check_dependencies].
  intros w. destruct (total_find_loop E (possible_paths E) w) as [cli Hcli].
  unfold __init__, bind, _find_mermaid_cli in *.
  destruct (find_loop E (possible_paths E) w) as [r w1]; simpl in Hcli; subst r.
  exists cli, w1. split; [done|].
  destruct cli; simpl; repeat (split; [done|]).
  - exists []. by rewrite app_nil_r.
  - eexists [_; _]. split; [by rewrite <- app_assoc|]. by repeat constructor.
Qed.

(** ** The tests of pathlib *)

Section Pathlib.
Context (E : Env).

Lemma node_at_fs (p : string) (w : World) (n : node) :
  fs w !! p = Some n -> exists n', node_at p w = Some n'.
Proof. unfold node_at. intros H. destruct (Path.anchor p); by eexists. Qed.




Lemma node_at_set_fs (p : string) (f : gmap string node) (w : World) :
  node_at p (set_fs f w) = if Path.anchor p then Some Dir else f !! p.
Proof. reflexivity. Qed.

Lemma Path_exists_eq (p : string) (w : World) :
  Path_exists E p w =
    (match node_at p w with
     | Some _ => Ok true
     | None =>
         match stat_error E p w with
         | Some e => if answers_false e then Ok false else Raise e
         | None => Ok false
         end
     end, w).
Proof.
  unfold Path_exists, try_except, bind, os_stat.
  destruct (node_at p w); [done|].
  destruct (stat_error E p w) as [e|]; simpl; [|done].
  by destruct (answers_false e).
Qed.

Lemma is_dir_eq (p : string) (w : World) :
  is_dir E p w =
    (match node_at p w with
     | Some Dir => Ok true
     | Some (File _) => Ok false
     | None =>
         match stat_error E p w with
         | Some e => if answers_false e then Ok false else Raise e
         | None => Ok false
         end
     end, w).
Proof.
  unfold is_dir, try_except, bind, os_stat.
  destruct (node_at p w) as [[|c]|]; [done|done|].
  destruct (stat_error E p w) as [e|]; simpl; [|done].
  by destruct (answers_false e).
Qed.


Lemma Path_exists_nothing (p : string) (w : World) :
  nothing_at E p w -> Path_exists E p w = (Ok false, w).
Proof.
  intros [Hn He]. rewrite Path_exists_eq, Hn.
  destruct (stat_error E p w) as [e|]; [by rewrite He | done].
Qed.

Lemma is_dir_nothing (p : string) (w : World) :
  nothing_at E p w -> is_dir E p w = (Ok false, w).
Proof.
  intros [Hn He]. rewrite is_dir_eq, Hn.
  destruct (stat_error E p w) as [e|]; [by rewrite He | done].
Qed.

(** What [exists()] raises is the error of [os.stat], and nothing is
    changed. *)
Lemma Path_exists_raise (p : string) (w : World) (e : exn) (w' : World) :
  Path_exists E p w = (Raise e, w') ->
  node_at p w = None /\ stat_error E p w = Some e /\ answers_false e = false /\ w' = w.
Proof.
  rewrite Path_exists_eq. destruct (node_at p w); [done|].
  destruct (stat_error E p w) as [e'|]; [|done].
  destruct (answers_false e') eqn:Hi; [done|]. by intros [= <- <-].
Qed.

End Pathlib.

(** ** A missing input file *)




(** ** The placeholder renderer *)

(** C9, the claim as stated fails: with PIL installed, an output path in
    a directory that does not exist makes [img.save] raise, and
    [_create_demo_image] returns [False]. *)
Lemma create_demo_image_can_fail_with_pil :
  pil_available env_no_tool = true /\
  fst (_create_demo_image env_no_tool "graph TD; A-->B" "/nowhere/out.png" w_demo)
    = Ok false.
Proof. split; reflexivity. Qed.

(** [_create_demo_image] in closed form. *)
Lemma create_demo_image_unfold (E : Env) (mermaid_code output_path : string)
    (w : World) :
  _create_demo_image E mermaid_code output_path w =
    if pil_available E then
      if writable E output_path w
      then (Ok true,
            set_fs (<[output_path := File (Png (demo_image E mermaid_code))]> (fs w)) w)
      else (Ok false,
            add_printed ("❌ Error creating demo image: cannot write " +:+ output_path) w)
    else (Ok false, add_printed "❌ PIL not available for demo mode" w).
Proof.
  unfold _create_demo_image. destruct (pil_available E); [|done].
  unfold try_except, bind, write_file. simpl.
  by destruct (writable E output_path w).
Qed.

(** C9, amended: [_create_demo_image] never raises.  It returns [True],
    with the placeholder written at the output path, exactly when PIL is
    importable and the image can be saved there.  Otherwise it returns
    [False] and the files are as they were; without PIL the value is the
    same [False] as for a failed save, and only the printed line tells the
    two apart.  It starts no process and leaves the converter object. *)
Theorem create_demo_image_result (E : Env) (mermaid_code output_path : string)
    (w : World) :
  fst (_create_demo_image E mermaid_code output_path w)
    = Ok (pil_available E && writable E output_path w) /\
  fs (snd (_create_demo_image E mermaid_code output_path w))
    = (if pil_available E && writable E output_path w
       then <[output_path := File (Png (demo_image E mermaid_code))]> (fs w)
       else fs w) /\
  printed (snd (_create_demo_image E mermaid_code output_path w))
    = printed w ++
      (if pil_available E then
         if writable E output_path w then []
         else ["❌ Error creating demo image: cannot write " +:+ output_path]
       else ["❌ PIL not available for demo mode"]) /\
  procs (snd (_create_demo_image E mermaid_code output_path w)) = procs w /\
  self (snd (_create_demo_image E mermaid_code output_path w)) = self w.
Proof.
  rewrite create_demo_image_unfold.
  destruct (pil_available E); [destruct (writable E output_path w)|]; simpl;
    by rewrite ?app_nil_r.
Qed.

(** ** The excerpt on the placeholder *)

Lemma snippet_ops_texts (i : Z) (lines : list string) (fnt : font) :
  excerpt_texts (Image 800 600 "white" (snippet_ops i lines fnt))
    = map (Py.take 50) (List.filter not_blank lines).
Proof.
  unfold excerpt_texts. simpl. revert i.
  induction lines as [|line lines IH]; intros i; simpl; [done|].
  unfold not_blank at 1. rewrite omap_app.
  destruct (Py.truthy (Py.strip line)); simpl; by rewrite IH.
Qed.

Lemma demo_image_excerpt (E : Env) (mermaid_code : string) :
  excerpt_texts (demo_image E mermaid_code)
    = map (Py.take 50)
          (List.filter not_blank (firstn 5 (Py.split_lines mermaid_code))).
Proof.
  rewrite <- (snippet_ops_texts 0 _ (if arial_available E
                                     then TrueType "arial.ttf" 12 else DefaultFont)).
  unfold demo_image, excerpt_texts.
  destruct (arial_available E); simpl; rewrite omap_app; simpl;
    by rewrite app_nil_r.
Qed.

Lemma take_cons (n : nat) (a : ascii) (s : string) :
  Py.take n (String a s) =
    if Py.continuation a then String a (Py.take n s)
    else match n with
         | O => ""
         | S n' => String a (Py.take n' s)
         end.
Proof. reflexivity. Qed.

(** [s[:n]] has at most [n] characters. *)
Lemma take_length (n : nat) (s : string) : (Py.len (Py.take n s) <= n)%nat.
Proof.
  revert n. induction s as [|a s IH]; intros n; [simpl; lia|].
  rewrite take_cons. destruct (Py.continuation a) eqn:Ha.
  - cbn [Py.len]. rewrite Ha. apply IH.
  - destruct n as [|n]; [simpl; lia|].
    cbn [Py.len]. rewrite Ha. specialize (IH n). lia.
Qed.

(** [s[:n]] is [s] when [s] has at most [n] characters. *)
Lemma take_all (n : nat) (s : string) : (Py.len s <= n)%nat -> Py.take n s = s.
Proof.
  revert n. induction s as [|a s IH]; intros n; [done|].
  rewrite take_cons. cbn [Py.len]. destruct (Py.continuation a).
  - intros H. by rewrite IH.
  - destruct n as [|n]; [lia|]. intros H. rewrite IH; [done | lia].
Qed.

Lemma filter_length_le {A} (f : A -> bool) (l : list A) :
  (length (List.filter f l) <= length l)%nat.
Proof. induction l as [|a l IH]; simpl; [lia|]. destruct (f a); simpl; lia. Qed.

(** C3, the claim as stated fails: of six lines whose second is empty,
    the first five non-empty ones are a, b, c, d, e, but the placeholder
    shows a, b, c, d. *)
Lemma excerpt_is_not_first_nonempty_lines :
  excerpt_texts (demo_image env_no_tool six_lines) <> spec_excerpt six_lines.
Proof. intros H. vm_compute in H. discriminate H. Qed.

(** C3, amended: for every source text, the placeholder that
    [_create_demo_image] writes shows, as text, those of the first 5 lines
    of the input (split at line feeds) that are not blank, that is, not
    empty once white space is stripped, each cut to its first 50
    characters; so at most 5 lines of at most 50 characters.  Lines after
    the fifth are not shown.  Characters are those of Python: [Py.take]
    and [Py.len] count code points of the UTF-8 text, [Py.strip] knows the
    white space of Unicode. *)
Theorem create_demo_image_excerpt (E : Env) (mermaid_code output_path : string)
    (w : World) :
  fst (_create_demo_image E mermaid_code output_path w) = Ok true ->
  exists img,
    fs (snd (_create_demo_image E mermaid_code output_path w)) !! output_path
      = Some (File (Png img)) /\
    excerpt_texts img
      = map (Py.take 50)
            (List.filter not_blank (firstn 5 (Py.split_lines mermaid_code))) /\
    (length (excerpt_texts img) <= 5)%nat /\
    Forall (fun t => (Py.len t <= 50)%nat) (excerpt_texts img).
Proof.
  rewrite create_demo_image_unfold.
  destruct (pil_available E); [|done].
  destruct (writable E output_path w); [|done].
  intros _. exists (demo_image E mermaid_code). simpl.
  split; [by rewrite lookup_insert_eq|].
  rewrite demo_image_excerpt. split; [done|]. split.
  - rewrite length_map.
    etrans; [apply filter_length_le|]. rewrite length_take. lia.
  - apply Forall_map, Forall_forall. intros t _. apply take_length.
Qed.

Lemma create_demo_image_excerpt_witness :
  fst (_create_demo_image env_no_tool six_lines "/d/out.png" w_demo) = Ok true /\
  exists img,
    fs (snd (_create_demo_image env_no_tool six_lines "/d/out.png" w_demo))
      !! "/d/out.png" = Some (File (Png img)) /\
    excerpt_texts img = ["a"; "b"; "c"; "d"].
Proof.
  assert (H : fst (_create_demo_image env_no_tool six_lines "/d/out.png" w_demo)
              = Ok true) by reflexivity.
  split; [exact H|].
  destruct (create_demo_image_excerpt env_no_tool six_lines "/d/out.png" w_demo H)
    as (img & Hf & Ht & _).
  exists img. split; [exact Hf|]. rewrite Ht. reflexivity.
Defined.

(** ** Discovery: what makes a candidate the active one *)

#[local] Instance extends_refl : Reflexive extends.
Proof. intros w. exists []. by rewrite app_nil_r. Qed.
#[local] Instance extends_trans : Transitive extends.
Proof.
  intros w1 w2 w3 [n1 H1] [n2 H2]. exists (n1 ++ n2).
  by rewrite H2, H1, app_assoc.
Qed.
#[local] Instance extends_fs : FsFrame extends.
Proof. intros w f. exists []. by rewrite app_nil_r. Qed.
#[local] Instance extends_print : PrintFrame extends.
Proof. intros w l. exists []. by rewrite app_nil_r. Qed.
#[local] Instance extends_proc : ProcFrame extends.
Proof. intros w p. by exists [p]. Qed.

Lemma new_procs_app (w w' : World) (new : list proc) :
  procs w' = procs w ++ new -> new_procs w w' = new.
Proof. intros H. unfold new_procs. by rewrite H, drop_app_length. Qed.

Lemma new_procs_trans (w1 w2 w3 : World) :
  extends w1 w2 -> extends w2 w3 ->
  new_procs w1 w3 = new_procs w1 w2 ++ new_procs w2 w3.
Proof.
  intros [n1 H1] [n2 H2].
  rewrite (new_procs_app _ _ _ H1), (new_procs_app _ _ _ H2).
  apply new_procs_app. by rewrite H2, H1, app_assoc.
Qed.

Lemma trial_passed_timeout (p : string) (ps : list proc) :
  trial_passed p ps -> existsb (fun pr => (proc_timeout pr =? 30)%nat) ps = true.
Proof.
  intros (tin & f & c & f' & Hin & _). apply existsb_exists.
  eexists. split; [by apply list_elem_of_In|]. done.
Qed.

Lemma trial_passed_mono (p : string) (ps qs rs : list proc) :
  trial_passed p ps -> trial_passed p (qs ++ ps ++ rs).
Proof.
  intros (tin & f & c & f' & Hin & H). exists tin, f, c, f'.
  split; [|done]. rewrite !elem_of_app. auto.
Qed.

Lemma accepted_mono (p : string) (ps qs rs : list proc) :
  accepted p ps -> accepted p (qs ++ ps ++ rs).
Proof.
  intros [(H1 & H2 & (f & c & f' & Hin & H3)) | [H1 H2]].
  - left. split; [done|]. split; [done|]. exists f, c, f'.
    split; [|done]. rewrite !elem_of_app. auto.
  - right. split; [done|]. by apply trial_passed_mono.
Qed.

Section DiscoverySound.
Context (E : Env).

Lemma named_temporary_file_ok (suffix text : string) (w : World) p w' :
  named_temporary_file E suffix text w = (Ok p, w') ->
  fs w !! p = None /\ w' = set_fs (<[p := File (Text text)]> (fs w)) w.
Proof.
  unfold named_temporary_file. destruct (temp_name E suffix w) as [q|]; [|done].
  destruct (fs w !! q) eqn:Hq; [done|]. by intros [= <- <-].
Qed.

Lemma subprocess_run_ok (c : cmd) (t : nat) (w : World) r w' :
  subprocess_run E c t w = (Ok r, w') ->
  procs w' = procs w ++ [Proc c t (fs w) (Exited r) (fs w')].
Proof.
  unfold subprocess_run. destruct (spawn E c t w) as [e f].
  destruct e; [|done..]. by intros [= <- <-].
Qed.

Lemma extends_test_conversion (p : string) :
  keeps extends (_test_mermaid_cli_with_conversion E p).
Proof. unfold _test_mermaid_cli_with_conversion. frame; apply keeps_print; apply _. Qed.

Lemma extends_after_version (p : string) (r : completed) :
  keeps extends (after_version E p r).
Proof.
  unfold after_version. frame;
    first [apply extends_test_conversion | apply keeps_print; apply _].
Qed.

Lemma extends_probe (p : string) : keeps extends (probe E p).
Proof.
  unfold probe. frame;
    first [apply extends_after_version | apply keeps_print; apply _].
Qed.

Lemma extends_find_loop (paths : list string) : keeps extends (find_loop E paths).
Proof.
  induction paths as [|p paths IH]; simpl; frame.
  - apply extends_probe.
  - apply IH.
Qed.

(** A trial conversion answers [True] only after its process exited with
    zero. *)
Lemma test_conversion_true (p : string) (w w' : World) :
  _test_mermaid_cli_with_conversion E p w = (Ok true, w') ->
  trial_passed p (new_procs w w').
Proof.
  unfold _test_mermaid_cli_with_conversion, try_except at 1.
  match goal with |- context [bind ?m ?k w] => destruct (bind m k w) as [[b|e] w1] eqn:Hb end;
    [|simpl; discriminate].
  intros [= -> ->]. unfold bind at 1 in Hb.
  destruct (named_temporary_file E ".mmd" test_code w) as [[tin|e] w1] eqn:Ht; [|done].
  apply named_temporary_file_ok in Ht as [Hfresh ->].
  unfold bind at 1 in Hb.
  match type of Hb with context [subprocess_run E ?c ?t ?w0] =>
    destruct (subprocess_run E c t w0) as [[r|e] w2] eqn:Hr end; [|done].
  apply subprocess_run_ok in Hr. simpl in Hr.
  unfold bind at 1 in Hb.
  match type of Hb with context [try_except ?m ?s ?h w2] =>
    assert (Hc : keeps same_procs (try_except m s h)) by frame;
    specialize (Hc w2); destruct (try_except m s h w2) as [[u|e] w3] end;
    [|done].
  simpl in Hc. destruct (returncode r =? 0) eqn:Hrc; [|done].
  injection Hb as <-. apply Z.eqb_eq in Hrc.
  unfold new_procs. rewrite Hc, Hr, drop_app_length.
  eexists tin, _, r, _. split; [apply list_elem_of_singleton; reflexivity|].
  split; [|done]. simpl. by rewrite lookup_insert_eq.
Qed.

Lemma after_version_sound (p : string) (r : completed) (w : World) res w' :
  after_version E p r w = (res, w') ->
  res = Ok None \/ (res = Ok (Some p) /\ trial_passed p (new_procs w w')).
Proof.
  unfold after_version.
  destruct ((returncode r =? 0) && Py.truthy (stdout r)).
  - unfold bind at 1.
    destruct (total_test_conversion E p w) as [ok Hok].
    destruct (_test_mermaid_cli_with_conversion E p w) as [r1 w1] eqn:Ht.
    simpl in Hok. subst r1. destruct ok.
    + intros [= <- <-]. right. split; [done|].
      apply test_conversion_true in Ht. exact Ht.
    + intros [= <- <-]. by left.
  - destruct (Py.truthy (stderr r)); intros [= <- <-]; by left.
Qed.

Lemma probe_sound (p : string) (w : World) res w' :
  probe E p w = (res, w') ->
  res = Ok None \/ (res = Ok (Some p) /\ accepted p (new_procs w w')).
Proof.
  unfold probe, try_except.
  match goal with |- context [bind ?m ?k w] =>
    destruct (bind m k w) as [[b|e] w1] eqn:Hb end;
    [|intros [= <- <-]; by left].
  intros [= <- <-]. unfold bind at 1 in Hb. simpl in Hb.
  destruct (Py.startswith p "node ") eqn:Hnode.
  - (* the interpreter candidate *)
    unfold bind at 1 in Hb. simpl in Hb.
    destruct (negb _); [injection Hb as <- <-; by left|].
    unfold bind at 1 in Hb.
    match type of Hb with context [subprocess_run E ?c ?t ?w0] =>
      destruct (subprocess_run E c t w0) as [[r|e] w2] eqn:Hr end; [|done].
    match type of Hr with subprocess_run E ?c ?t ?w0 = _ =>
      pose proof (keeps_subprocess_run extends E c t w0) as Hx end.
    rewrite Hr in Hx. simpl in Hx.
    pose proof (extends_after_version p r w2) as Hy. rewrite Hb in Hy. simpl in Hy.
    apply after_version_sound in Hb as [->|[-> Htp]]; [by left|].
    right. split; [done|]. right. split; [by left|].
    assert (Hw : extends w (add_printed ("Testing: " +:+ p) w)) by apply print_frame.
    rewrite (new_procs_trans w w2 w1); [|by etrans|done].
    apply (trial_passed_mono _ _ (new_procs w w2) []) in Htp. by rewrite app_nil_r in Htp.
  - destruct (Py.contains "npx" p) eqn:Hnpx.
    + (* the package runner *)
      unfold bind at 1 in Hb.
      match type of Hb with context [subprocess_run E ?c ?t ?w0] =>
        destruct (subprocess_run E c t w0) as [[r|e] w2] eqn:Hr end; [|done].
      apply subprocess_run_ok in Hr. simpl in Hr.
      destruct (Py.truthy (stdout r) && Py.contains npm_package (stdout r)) eqn:Hl;
        injection Hb as <- <-; [|by left].
      right. split; [done|]. left. split; [done|]. split; [done|].
      apply andb_true_iff in Hl as [_ Hl].
      unfold new_procs. simpl. rewrite Hr, drop_app_length.
      eexists _, r, _. split; [apply list_elem_of_singleton; reflexivity | done].
    + (* a command run directly *)
      unfold bind at 1 in Hb.
      match type of Hb with context [subprocess_run E ?c ?t ?w0] =>
        destruct (subprocess_run E c t w0) as [[r|e] w2] eqn:Hr end; [|done].
      match type of Hr with subprocess_run E ?c ?t ?w0 = _ =>
        pose proof (keeps_subprocess_run extends E c t w0) as Hx end.
      rewrite Hr in Hx. simpl in Hx.
      pose proof (extends_after_version p r w2) as Hy. rewrite Hb in Hy. simpl in Hy.
      apply after_version_sound in Hb as [->|[-> Htp]]; [by left|].
      right. split; [done|]. right. split; [by right|].
      assert (Hw : extends w (add_printed ("Testing: " +:+ p) w)) by apply print_frame.
      rewrite (new_procs_trans w w2 w1); [|by etrans|done].
      apply (trial_passed_mono _ _ (new_procs w w2) []) in Htp. by rewrite app_nil_r in Htp.
Qed.

Lemma find_loop_sound (paths : list string) (w : World) p w' :
  find_loop E paths w = (Ok (Some p), w') ->
  p ∈ paths /\ accepted p (new_procs w w').
Proof.
  revert w. induction paths as [|q paths IH]; intros w; simpl; [done|].
  unfold bind at 1. destruct (probe E q w) as [r w1] eqn:Hq.
  pose proof (extends_probe q w) as Hx. rewrite Hq in Hx. simpl in Hx.
  apply probe_sound in Hq as [->|[-> Hacc]].
  - intros Hrest.
    pose proof (extends_find_loop paths w1) as Hy. rewrite Hrest in Hy. simpl in Hy.
    apply IH in Hrest as [Hin Hacc]. split; [by right|].
    rewrite (new_procs_trans w w1 w'); [|done..].
    apply (accepted_mono _ _ (new_procs w w1) []) in Hacc. by rewrite app_nil_r in Hacc.
  - intros [= <- <-]. split; [by left | done].
Qed.

End DiscoverySound.

(** C1, the claim as stated fails: where only the package listing names
    the tool, the package-runner candidate becomes the active one, and no
    trial conversion was run at all. *)
Lemma npx_accepted_without_trial :
  fst (_find_mermaid_cli env_npm_only w_start) = Ok (Some "npx @mermaid-js/mermaid-cli") /\
  ~ trial_passed "npx @mermaid-js/mermaid-cli"
      (new_procs w_start (snd (_find_mermaid_cli env_npm_only w_start))).
Proof.
  split; [reflexivity|]. intros H%trial_passed_timeout.
  vm_compute in H. discriminate H.
Qed.

(** C1, amended: [_find_mermaid_cli] returns a candidate only if it is
    one of the listed candidates and, during this discovery, either its
    trial conversion (input [graph TD; A-->B]) exited with code zero, or,
    for a candidate that contains [npx] and does not start with [node ],
    the output of [npm list @mermaid-js/mermaid-cli] named the package.
    A version query alone never makes a candidate the active one; the
    package listing does, for the package-runner candidate. *)
Theorem find_mermaid_cli_sound (E : Env) (w : World) (p : string) :
  fst (_find_mermaid_cli E w) = Ok (Some p) ->
  p ∈ possible_paths E /\
  accepted p (new_procs w (snd (_find_mermaid_cli E w))).
Proof.
  unfold _find_mermaid_cli. intros H.
  destruct (find_loop E (possible_paths E) w) as [r w'] eqn:Hf.
  simpl in H. subst r. by apply find_loop_sound in Hf.
Qed.

Lemma find_mermaid_cli_sound_witness :
  fst (_find_mermaid_cli env_working w_start) = Ok (Some "/app/node_modules/.bin/mmdc.cmd") /\
  accepted "/app/node_modules/.bin/mmdc.cmd"
    (new_procs w_start (snd (_find_mermaid_cli env_working w_start))).
Proof.
  assert (H : fst (_find_mermaid_cli env_working w_start)
              = Ok (Some "/app/node_modules/.bin/mmdc.cmd")) by reflexivity.
  split; [exact H|].
  apply (find_mermaid_cli_sound env_working w_start _ H).
Defined.

(** ** Running computations step by step *)

Lemma bind_ok {A B} (m : M A) (k : A -> M B) (w : World) a w1 :
  m w = (Ok a, w1) -> bind m k w = k a w1.
Proof. intros H. unfold bind. by rewrite H. Qed.

Lemma bind_raise {A B} (m : M A) (k : A -> M B) (w : World) e w1 :
  m w = (Raise e, w1) -> bind m k w = (Raise e, w1).
Proof. intros H. unfold bind. by rewrite H. Qed.

Lemma bind_print {B} (l : string) (k : unit -> M B) (w : World) :
  bind (print l) k w = k tt (add_printed l w).
Proof. reflexivity. Qed.

Lemma bind_gets {A B} (f : World -> A) (k : A -> M B) (w : World) :
  bind (gets f) k w = k (f w) w.
Proof. reflexivity. Qed.

Lemma bind_path_exists {B} (p : string) (k : bool -> M B) (w : World) :
  bind (path_exists p) k w
    = k (match fs w !! p with Some _ => true | None => false end) w.
Proof. reflexivity. Qed.

(** ** The fallback of [convert_mermaid_text] *)

#[local] Instance no_conversion_refl : Reflexive no_conversion.
Proof. intros w. exists []. by rewrite app_nil_r. Qed.
#[local] Instance no_conversion_trans : Transitive no_conversion.
Proof.
  intros w1 w2 w3 (n1 & H1 & F1) (n2 & H2 & F2). exists (n1 ++ n2).
  split; [by rewrite H2, H1, app_assoc | by apply Forall_app].
Qed.
#[local] Instance no_conversion_fs : FsFrame no_conversion.
Proof. intros w f. exists []. by rewrite app_nil_r. Qed.
#[local] Instance no_conversion_print : PrintFrame no_conversion.
Proof. intros w l. exists []. by rewrite app_nil_r. Qed.

#[local] Instance shrinks_refl : Reflexive shrinks.
Proof. by intros w. Qed.
#[local] Instance shrinks_trans : Transitive shrinks.
Proof. intros w1 w2 w3 [H1 P1] [H2 P2]. split; [by etrans | congruence]. Qed.
#[local] Instance shrinks_print : PrintFrame shrinks.
Proof. by intros w l. Qed.

Section Fallback.
Context (E : Env).

Lemma no_conversion_subprocess_run (c : cmd) (t : nat) :
  t <> 45%nat -> keeps no_conversion (subprocess_run E c t).
Proof.
  intros Ht w. unfold subprocess_run. destruct (spawn E c t w) as [e f].
  assert (no_conversion w (add_proc (Proc c t (fs w) e f) (set_fs f w))).
  { eexists [_]. split; [done|]. by constructor. }
  by destruct e.
Qed.

Lemma no_conversion_check_dependencies : keeps no_conversion (_check_dependencies E).
Proof.
  unfold _check_dependencies. frame;
    first [apply keeps_print; apply _ | by apply no_conversion_subprocess_run].
Qed.


Lemma shrinks_unlink (p : string) : keeps shrinks (unlink p).
Proof.
  intros w. unfold unlink. destruct (fs w !! p) as [[|c]|]; simpl; try done.
  split; [apply delete_subseteq | done].
Qed.

(** The [finally] clause returns, and only removes files. *)
Lemma cleanup_spec (tin : string) (cfg : option string) (w : World) :
  exists w', cleanup tin cfg w = (Ok tt, w') /\ shrinks w w'.
Proof.
  assert (Hk : keeps shrinks (cleanup tin cfg)).
  { unfold cleanup. frame; apply shrinks_unlink. }
  assert (Ht : total (cleanup tin cfg)).
  { apply total_try_except_any. intros e w0. by exists tt. }
  specialize (Hk w). destruct (Ht w) as [[] Hw].
  destruct (cleanup tin cfg w) as [r w']. simpl in *. subst r. by exists w'.
Qed.

(** The placeholder renderer returns, and starts no process. *)
Lemma create_demo_image_returns (code out : string) (w : World) :
  exists b w', _create_demo_image E code out w = (Ok b, w') /\ procs w' = procs w.
Proof.
  rewrite create_demo_image_unfold.
  destruct (pil_available E); [destruct (writable E out w)|]; by eexists _, _.
Qed.


Lemma bind_attempt {A B} (m : M A) (k : res A -> M B) (w : World) r w1 :
  m w = (r, w1) -> bind (attempt m) k w = k r w1.
Proof. intros H. unfold bind, attempt. by rewrite H. Qed.






End Fallback.




(** ** Batch conversion in demo mode *)

Section Batch.
Context (E : Env).
Hypothesis pil : pil_available E = true.
Hypothesis can_write : forall p w, writable E p w = true.



End Batch.






(** The step of [batch_convert] that settles the output directory. *)
Lemma batch_output_step (E : Env) (input_directory : string)
    (output_directory : option string) (w : World) output_path w1
    {B} (k : string -> M B) :
  batch_output E input_directory output_directory w = Some (output_path, w1) ->
  bind (if opt_truthy output_directory
        then mkdir_parents E (default "" output_directory) ;;
             ret (default "" output_directory)
        else ret input_directory) k w
  = k output_path w1.
Proof.
  unfold batch_output. destruct (opt_truthy output_directory).
  - unfold bind, ret.
    destruct (mkdir_parents E _ w) as [[u|e] w']; [|done]. by intros [= <- <-].
  - by intros [= <- <-].
Qed.





(** ** The temporary files of a probe *)

(** Where the trial conversion ends, with whatever exit code, the probe
    removes its temporary input before it answers. *)
Example probe_removes_temp_input_after_exit :
  fst (_test_mermaid_cli_with_conversion env_no_tool "mmdc" w_start) = Ok false /\
  fs (snd (_test_mermaid_cli_with_conversion env_no_tool "mmdc" w_start))
    !! "/tmp/tmp0.mmd" = None.
Proof. split; reflexivity. Qed.

(** C4, on the code: where the trial conversion does not end within its
    30 seconds, [subprocess.run] raises, the clean-up after it is passed
    over, and the temporary input file is still there when the probe
    answers [False]. *)
Theorem probe_timeout_leaves_temp_input :
  fst (_test_mermaid_cli_with_conversion env_hanging "mmdc" w_start) = Ok false /\
  fs w_start !! "/tmp/tmp0.mmd" = None /\
  fs (snd (_test_mermaid_cli_with_conversion env_hanging "mmdc" w_start))
    !! "/tmp/tmp0.mmd" = Some (File (Text test_code)).
Proof. repeat split; reflexivity. Qed.

(** ** The exit code of the command line *)

(** The sibling: a missing input file ends in exit code 1. *)
Example main_missing_file_exits_one :
  fst (main env_no_tool args_missing_file w_start) = Ok 1.
Proof. reflexivity. Qed.

(** C5, on the code: in batch mode on a directory that does not exist,
    [batch_convert] reports the failure and returns [(0, 0)], and [main]
    returns exit code 0, since 0 = 0; the same for a directory without
    [.mmd] files. *)
Theorem main_missing_directory_exits_zero :
  fst (main env_no_tool args_missing_directory w_start) = Ok 0 /\
  last (printed (snd (main env_no_tool args_missing_directory w_start)))
    = Some "❌ Input directory not found: /missing" /\
  fst (main env_no_tool args_empty_directory w_start) = Ok 0 /\
  last (printed (snd (main env_no_tool args_empty_directory w_start)))
    = Some "❌ No .mmd files found in /app".
Proof. repeat split; vm_compute; reflexivity. Qed.

(** In batch mode the exit code is 0 exactly when the two counts agree. *)
Lemma dispatch_directory_exit (E : Env) (d : string) (od : option string)
    (config : option json) (w : World) successful total w' :
  Py.truthy d = true ->
  batch_convert E d od config w = (Ok (successful, total), w') ->
  dispatch E (mkArgs None None (Some d) od None None false false) config w
    = (Ok (if (successful =? total)%nat then 0 else 1), w').
Proof.
  intros Hd Hb. unfold dispatch. simpl. rewrite Hd.
  by rewrite (bind_ok _ _ _ _ _ Hb).
Qed.

(** ** The file name in the answer of POST /api/convert *)

(** C10: for every successful response of the route, the request body is
    an object, the file name asked for is a string or is absent, in which
    case it is [diagram.png]; the file name in the response is that name
    put through [secure_filename], with [.png] added when the result does
    not already end in it; so it ends in [.png]. *)
Theorem convert_response_filename (E : Env) (secure_filename : string -> string)
    (request_json : res json) (w : World)
    (image_data : content) (filename message : string) (status : nat) (w' : World) :
  convert_mermaid E secure_filename request_json w
    = (Ok (Response (SuccessBody image_data filename message) status), w') ->
  Py.endswith filename ".png" = true /\
  exists l name,
    request_json = Ok (JObj l) /\
    (obj_get "filename" l = None -> name = "diagram.png") /\
    (forall v, obj_get "filename" l = Some v -> v = JStr name) /\
    filename = (if Py.endswith (secure_filename name) ".png"
                then secure_filename name
                else secure_filename name +:+ ".png").
Proof.
  intros H. unfold convert_mermaid, try_except in H.
  destruct request_json as [data|e]; [|unfold raise in H; discriminate H].
  destruct (convert_mermaid_try E secure_filename data w) as [[resp|e] w1] eqn:Ht;
    [|discriminate H].
  injection H as -> ->. unfold convert_mermaid_try in Ht.
  destruct (missing_code data) as [[|]|e]; [discriminate Ht| |discriminate Ht].
  destruct data as [| | | | |l]; try discriminate Ht.
  destruct (default (JStr "diagram.png") (obj_get "filename" l))
    as [| | |name| |] eqn:Hname; try discriminate Ht.
  unfold bind at 1 in Ht.
  match type of Ht with context [match ?m w with _ => _ end] =>
    destruct (m w) as [[success|e] w1] end; [|discriminate Ht].
  rewrite bind_path_exists in Ht.
  destruct (success && _); [|discriminate Ht].
  unfold bind in Ht.
  destruct (read_bytes _ w1) as [[c|e] w2]; [|discriminate Ht].
  destruct (unlink _ w2) as [[u|e] w3]; [|discriminate Ht].
  injection Ht as <- <- <- <- <-.
  split.
  - destruct (Py.endswith (secure_filename name) ".png") eqn:Hs; simpl; [done|].
    apply endswith_app.
  - exists l, name. split; [done|]. split; [|split].
    + intros Hn. rewrite Hn in Hname. by injection Hname as <-.
    + intros v Hv. by rewrite Hv in Hname.
    + by destruct (Py.endswith (secure_filename name) ".png").
Qed.

Lemma convert_response_filename_witness :
  exists image_data filename message status w',
    convert_mermaid env_open (fun s => s) request_plain w_demo
      = (Ok (Response (SuccessBody image_data filename message) status), w') /\
    filename = "diagram.png" /\
    Py.endswith filename ".png" = true.
Proof.
  eexists _, _, _, _, _.
  match goal with |- ?eq /\ _ =>
    assert (Hrun : eq) by (vm_compute; reflexivity) end.
  split; [exact Hrun|]. split; [reflexivity|].
  apply (convert_response_filename env_open (fun s => s) request_plain w_demo
           _ _ _ _ _ Hrun).
Defined.

(** * More of the code *)

(** ** [convert_file]: what it does with an input it cannot use *)

Section ConvertFileMore.
Context (E : Env).

(** A path with a name has its suffix replaced. *)
Lemma with_suffix_some (p suf : string) :
  Py.truthy (Path.name p) = true -> exists o, Path.with_suffix p suf = Some o.
Proof.
  intros H. unfold Path.with_suffix. rewrite H.
  destruct (Py.rsplit "/" p) as [[d n]|]; by eexists.
Qed.

(** [convert_file] once the input is found and the output path is
    settled: the [try] block. *)
Lemma convert_file_there (input_file : string) (output_file : option string)
    (config : option json) (w : World) (n : node) (o : string) :
  node_at input_file w = Some n ->
  default (Path.with_suffix input_file ".png") (Some <$> output_file) = Some o ->
  convert_file E input_file output_file config w =
    try_except
      (mermaid_code <- read_text input_file ;;
       convert_mermaid_text E mermaid_code o config)
      any_exception
      (fun e =>
         print ("❌ Error reading file " +:+ input_file +:+ ": " +:+ exn_str e) ;;
         ret false) w.
Proof.
  intros Hn Ho. unfold convert_file.
  assert (Hex : Path_exists E input_file w = (Ok true, w))
    by (by rewrite Path_exists_eq, Hn).
  rewrite (bind_ok _ _ _ _ _ Hex). cbn [negb].
  destruct output_file as [o'|]; cbn in Ho.
  - by injection Ho as ->.
  - by rewrite Ho.
Qed.

(** With the input found and an output path, [convert_file] returns. *)
Lemma convert_file_returns (input_file : string) (output_file : option string)
    (config : option json) (w : World) (n : node) (o : string) :
  node_at input_file w = Some n ->
  default (Path.with_suffix input_file ".png") (Some <$> output_file) = Some o ->
  exists b, fst (convert_file E input_file output_file config w) = Ok b.
Proof.
  intros Hn Ho. rewrite (convert_file_there _ _ _ _ _ _ Hn Ho).
  apply total_try_except_any. intros e. apply total_print_ret.
Qed.

(** What [convert_file] raises, it raises before its [try] block, with
    nothing done. *)
Lemma convert_file_raise (input_file : string) (output_file : option string)
    (config : option json) (w : World) (e : exn) (w' : World) :
  convert_file E input_file output_file config w = (Raise e, w') ->
  w' = w /\
  ((node_at input_file w = None /\ stat_error E input_file w = Some e /\
    answers_false e = false)
   \/ (e = ValueError /\ output_file = None /\
       Py.truthy (Path.name input_file) = false /\
       is_Some (node_at input_file w))).
Proof.
  unfold convert_file. unfold bind at 1. rewrite Path_exists_eq.
  destruct (node_at input_file w) as [n|] eqn:Hn.
  - cbn [negb].
    assert (Hret : forall o w0,
      bind (ret o) (fun output_file0 =>
        try_except
          (mermaid_code <- read_text input_file ;;
           convert_mermaid_text E mermaid_code output_file0 config)
          any_exception
          (fun e0 =>
             print ("❌ Error reading file " +:+ input_file +:+ ": " +:+ exn_str e0) ;;
             ret false)) w0 <> (Raise e, w')).
    { intros o w0 H.
      destruct (total_try_except_any
                  (mermaid_code <- read_text input_file ;;
                   convert_mermaid_text E mermaid_code o config)
                  (fun e0 =>
                     print ("❌ Error reading file " +:+ input_file +:+ ": "
                            +:+ exn_str e0) ;;
                     ret false)
                  (fun e0 => total_print_ret _ false) w0) as [b Hb].
      unfold bind at 1, ret at 1 in H. rewrite H in Hb. discriminate Hb. }
    destruct output_file as [o|]; [by intros ?%Hret|].
    unfold Path.with_suffix.
    destruct (Py.truthy (Path.name input_file)) eqn:Hname; cbn [negb].
    + destruct (Py.rsplit "/" input_file) as [[d nm]|]; by intros ?%Hret.
    + intros [= <- <-]. split; [done|]. right. by repeat split.
  - destruct (stat_error E input_file w) as [e'|] eqn:Hs; [|done].
    destruct (answers_false e') eqn:Hi; [done|].
    intros [= <- <-]. split; [done|]. by left.
Qed.

End ConvertFileMore.

(** [convert_file] raises only before its [try] block, and then it has
    done nothing: either [Path.exists()] raised, because the system
    answers for the input path with another error than that nothing is
    there, or no output path was given and the input path has no name, so
    that [with_suffix] raised [ValueError].  Whatever the read or the
    conversion raises is answered with [False]. *)
Theorem convert_file_raises_early (E : Env) (input_file : string)
    (output_file : option string) (config : option json) (w : World) (e : exn) :
  fst (convert_file E input_file output_file config w) = Raise e ->
  snd (convert_file E input_file output_file config w) = w /\
  ((node_at input_file w = None /\ stat_error E input_file w = Some e /\
    answers_false e = false)
   \/ (e = ValueError /\ output_file = None /\
       Py.truthy (Path.name input_file) = false /\
       is_Some (node_at input_file w))).
Proof.
  destruct (convert_file E input_file output_file config w) as [r w'] eqn:H.
  cbn [fst snd]. intros ->. by apply (convert_file_raise E _ _ _ _ _ _ H).
Qed.

Lemma convert_file_raises_early_witness :
  fst (convert_file env_open "." None None w_demo) = Raise ValueError /\
  snd (convert_file env_open "." None None w_demo) = w_demo.
Proof.
  assert (H : fst (convert_file env_open "." None None w_demo) = Raise ValueError)
    by (vm_compute; reflexivity).
  split; [exact H|].
  apply (convert_file_raises_early env_open "." None None w_demo ValueError H).
Defined.

Lemma startswith_app (p t : string) : Py.startswith (p +:+ t) p = true.
Proof.
  induction p as [|a p IH]; [by destruct t|].
  rewrite app_cons. simpl. by rewrite Ascii.eqb_refl.
Qed.

(** An input path that is there but is a directory, or a file that is
    not UTF-8 text, makes [convert_file] answer [False] with the files as
    they were and no process started, once the output path is settled
    (one is given, or the input path has a name); the one line printed
    names the error of the read. *)
Theorem convert_file_unreadable_input (E : Env) (input_file : string)
    (output_file : option string) (config : option json) (w : World) (n : node) :
  node_at input_file w = Some n ->
  (forall s, n <> File (Text s)) ->
  (output_file = None -> Py.truthy (Path.name input_file) = true) ->
  exists line,
    convert_file E input_file output_file config w
      = (Ok false, add_printed line w) /\
    Py.startswith line ("❌ Error reading file " +:+ input_file) = true.
Proof.
  intros Hn Hs Hname.
  assert (Ho : exists o, default (Path.with_suffix input_file ".png")
                           (Some <$> output_file) = Some o).
  { destruct output_file as [o|]; [by exists o|].
    cbn. by apply with_suffix_some, Hname. }
  destruct Ho as [o Ho]. rewrite (convert_file_there E _ _ _ _ _ _ Hn Ho).
  unfold try_except, bind at 1, read_text. rewrite Hn.
  assert (Hpre : forall t, Py.startswith
             ("❌ Error reading file " +:+ input_file +:+ t)
             ("❌ Error reading file " +:+ input_file) = true).
  { intros t. rewrite <- app_assoc_s. apply startswith_app. }
  destruct n as [|[s| |]]; [| by destruct (Hs s) | |]; eexists; (split; [reflexivity|]);
    apply Hpre.
Qed.

Lemma convert_file_unreadable_input_witness :
  node_at "/d/scan.mmd" w_binary = Some (File Binary) /\
  exists line,
    convert_file env_open "/d/scan.mmd" None None w_binary
      = (Ok false, add_printed line w_binary) /\
    Py.startswith line "❌ Error reading file /d/scan.mmd" = true.
Proof.
  split; [reflexivity|].
  apply (convert_file_unreadable_input env_open "/d/scan.mmd" None None w_binary
           (File Binary) eq_refl).
  - intros s. discriminate.
  - intros _. reflexivity.
Defined.

(** ** [convert_mermaid_text]: its output and its temporary files *)

#[local] Instance same_at_refl p : Reflexive (same_at p).
Proof. by intros w. Qed.
#[local] Instance same_at_trans p : Transitive (same_at p).
Proof. unfold same_at. intros w1 w2 w3 H1 H2. congruence. Qed.
#[local] Instance same_at_print p : PrintFrame (same_at p).
Proof. by intros w l. Qed.

Lemma same_at_unlink (p q : string) : q <> p -> keeps (same_at p) (unlink q).
Proof.
  intros Hne w. unfold unlink, same_at.
  destruct (fs w !! q) as [[|c]|]; simpl; try done. by rewrite lookup_delete_ne.
Qed.

(** The [finally] clause touches the two temporary files only. *)
Lemma cleanup_other (tin : string) (cfgp : option string) (p : string) (w : World) :
  p <> tin -> cfgp <> Some p ->
  fs (snd (cleanup tin cfgp w)) !! p = fs w !! p.
Proof.
  intros Htin Hcfg.
  assert (Hk : keeps (same_at p) (cleanup tin cfgp)); [|apply Hk].
  unfold cleanup. frame; apply same_at_unlink; congruence.
Qed.

(** Removing the configuration file leaves an absent path absent. *)
Lemma unlink_config_absent (cfgp : option string) (p : string) (w : World) :
  fs w !! p = None ->
  fs (snd (match cfgp with
           | Some q =>
               if Py.truthy q then
                 ex' <- path_exists q ;;
                 if ex' then unlink q else ret tt
               else ret tt
           | None => ret tt
           end w)) !! p = None.
Proof.
  intros Hp. destruct cfgp as [q|]; [|done].
  destruct (Py.truthy q); [|done].
  unfold bind, path_exists, gets, unlink.
  destruct (fs w !! q) as [[|c1]|] eqn:Hq; simpl; rewrite ?Hq; simpl; try done.
  destruct (decide (q = p)) as [->|Hne];
    [by rewrite lookup_delete_eq | by rewrite lookup_delete_ne].
Qed.

(** After the [finally] clause the temporary input is not a file. *)
Lemma cleanup_removes (tin : string) (cfgp : option string) (w : World) c :
  fs (snd (cleanup tin cfgp w)) !! tin <> Some (File c).
Proof.
  unfold cleanup, try_except. rewrite bind_path_exists. unfold bind at 1.
  destruct (fs w !! tin) as [[|c0]|] eqn:Htin; unfold unlink at 1, ret at 1;
    rewrite ?Htin; simpl.
  - by rewrite Htin.
  - match goal with |- context [match ?m ?w0 with _ => _ end] =>
      assert (Hk : fs (snd (m w0)) !! tin = None)
        by (apply unlink_config_absent; apply lookup_delete_eq);
      destruct (m w0) as [[u|e] w1] eqn:Hm end;
      simpl in *; by rewrite Hk.
  - match goal with |- context [match ?m ?w0 with _ => _ end] =>
      assert (Hk : fs (snd (m w0)) !! tin = None)
        by (by apply unlink_config_absent);
      destruct (m w0) as [[u|e] w1] eqn:Hm end;
      simpl in *; by rewrite Hk.
Qed.

Lemma try_finally_snd {A} (m : M A) (f : M unit) (w : World) :
  snd (try_finally m f w) = snd (f (snd (m w))).
Proof. unfold try_finally. destruct (m w) as [r w1]. simpl. by destruct (f w1) as [[[]|e] w2]. Qed.

Section ConvertMore.
Context (E : Env).

Lemma named_temporary_file_name (suffix text : string) (w : World) p w' :
  named_temporary_file E suffix text w = (Ok p, w') ->
  temp_name E suffix w = Some p.
Proof.
  unfold named_temporary_file. destruct (temp_name E suffix w) as [q|]; [|done].
  destruct (fs w !! q); [done|]. by intros [= <- <-].
Qed.

Lemma prepare_cmd_config (cli : option string) (tin out : string)
    (config : option json) (w : World) c p w' :
  prepare_cmd E cli tin out config w = (Ok (c, Some p), w') ->
  temp_name E ".json" w = Some p.
Proof.
  unfold prepare_cmd. destruct cli as [s|]; [|done].
  destruct (config_given config).
  - unfold bind at 1, bind at 1.
    destruct (named_temporary_file E ".json" _ w) as [[q|e] w1] eqn:Hq; [|done].
    apply named_temporary_file_name in Hq. by intros [= _ <- _].
  - by intros [= _ ? _].
Qed.

(** [convert_mermaid_text] once the dependency check has passed and the
    temporary input is written: the [try] block with its [finally]. *)
Lemma convert_attempted (code out : string) (config : option json)
    (w wc wt : World) (tin : string) :
  demo_mode (self w) = false ->
  _check_dependencies E w = (Ok true, wc) ->
  named_temporary_file E ".mmd" code wc = (Ok tin, wt) ->
  convert_mermaid_text E code out config w =
    try_finally
      (try_except
         (match fst (prepare_cmd E (mermaid_cli (self wt)) tin out config wt) with
          | Raise e => raise e
          | Ok (c, _) => run_conversion E c code out
          end)
         any_exception (conversion_handler E code out))
      (cleanup tin
         (match fst (prepare_cmd E (mermaid_cli (self wt)) tin out config wt) with
          | Ok (_, p) => p
          | Raise _ => None
          end))
      (snd (prepare_cmd E (mermaid_cli (self wt)) tin out config wt)).
Proof.
  intros Hd Hc Ht. unfold convert_mermaid_text.
  rewrite bind_gets, Hd, (bind_ok _ _ _ _ _ Hc). cbn [negb].
  rewrite (bind_ok _ _ _ _ _ Ht), bind_gets.
  destruct (prepare_cmd E (mermaid_cli (self wt)) tin out config wt)
    as [prep wp] eqn:Hp.
  by rewrite (bind_attempt _ _ _ _ _ Hp).
Qed.

Lemma demo_true_output (code out : string) (w : World) :
  fst (_create_demo_image E code out w) = Ok true ->
  is_Some (fs (snd (_create_demo_image E code out w)) !! out).
Proof.
  rewrite create_demo_image_unfold.
  destruct (pil_available E); [destruct (writable E out w)|]; try done.
  intros _. simpl. rewrite lookup_insert_eq. by eexists.
Qed.

Lemma handler_true_output (code out : string) (e : exn) (w : World) :
  fst (conversion_handler E code out e w) = Ok true ->
  is_Some (fs (snd (conversion_handler E code out e w)) !! out).
Proof.
  unfold conversion_handler. destruct (is_timeout e); rewrite !bind_print;
    apply demo_true_output.
Qed.

Lemma demo_true_eq (code out : string) (w w' : World) :
  _create_demo_image E code out w = (Ok true, w') -> is_Some (fs w' !! out).
Proof.
  intros H. pose proof (demo_true_output code out w) as Hd.
  rewrite H in Hd. by apply Hd.
Qed.

Lemma run_conversion_true_eq (c : cmd) (code out : string) (w w' : World) :
  run_conversion E c code out w = (Ok true, w') -> is_Some (fs w' !! out).
Proof.
  unfold run_conversion. rewrite !bind_print. unfold bind at 1.
  destruct (subprocess_run E c 45 _) as [[r|e] w1]; [|done].
  rewrite bind_path_exists.
  destruct (returncode r =? 0).
  - destruct (fs w1 !! out) eqn:Hout; cbn [andb]; cbv iota.
    + rewrite bind_print. intros [= <-]. simpl. rewrite Hout. by eexists.
    + rewrite !bind_print.
      destruct (Py.truthy (stderr r)), (Py.truthy (stdout r));
        rewrite ?bind_print; apply demo_true_eq.
  - cbn [andb]. cbv iota. rewrite !bind_print.
    destruct (Py.truthy (stderr r)), (Py.truthy (stdout r));
      rewrite ?bind_print; apply demo_true_eq.
Qed.

Lemma run_conversion_true_output (c : cmd) (code out : string) (w : World) :
  fst (run_conversion E c code out w) = Ok true ->
  is_Some (fs (snd (run_conversion E c code out w)) !! out).
Proof.
  destruct (run_conversion E c code out w) as [r w'] eqn:H. simpl.
  intros ->. by eapply run_conversion_true_eq.
Qed.

(** The [try] block with its handlers answers [True] only with the
    output file in place. *)
Lemma guarded_true_output (body : M bool) (code out : string) (w : World) :
  (forall w0, fst (body w0) = Ok true -> is_Some (fs (snd (body w0)) !! out)) ->
  fst (try_except body any_exception (conversion_handler E code out) w) = Ok true ->
  is_Some (fs (snd (try_except body any_exception (conversion_handler E code out) w))
             !! out).
Proof.
  intros Hb. unfold try_except. specialize (Hb w).
  destruct (body w) as [[b|e] w1]; simpl in *; [done|].
  apply handler_true_output.
Qed.

Lemma total_handler (code out : string) (e : exn) :
  total (conversion_handler E code out e).
Proof.
  intros w. unfold conversion_handler.
  destruct (is_timeout e); rewrite !bind_print;
    match goal with |- context [_create_demo_image E code out ?w0] =>
      destruct (create_demo_image_returns E code out w0) as (b & w2 & -> & _) end;
    by eexists.
Qed.

Lemma try_finally_cleanup_fst (body : M bool) (tin : string)
    (cfgp : option string) (w : World) :
  fst (try_finally body (cleanup tin cfgp) w) = fst (body w).
Proof.
  unfold try_finally. destruct (body w) as [r w1].
  by destruct (cleanup_spec tin cfgp w1) as (w2 & -> & _).
Qed.

End ConvertMore.

(** Whenever [convert_mermaid_text] answers [True], the output file is
    there when it returns, be it the converted image or the placeholder;
    the clean-up of the temporary files cannot take it away, given that no
    temporary file is ever handed out under the name of the output. *)
Theorem convert_mermaid_text_true_output (E : Env) (mermaid_code output_path : string)
    (config : option json) (w : World) :
  (forall suffix w0, temp_name E suffix w0 <> Some output_path) ->
  fst (convert_mermaid_text E mermaid_code output_path config w) = Ok true ->
  is_Some (fs (snd (convert_mermaid_text E mermaid_code output_path config w))
             !! output_path).
Proof.
  intros Htmp.
  destruct (demo_mode (self w)) eqn:Hd.
  { unfold convert_mermaid_text. rewrite bind_gets, Hd, bind_print.
    apply demo_true_output. }
  destruct (_check_dependencies E w) as [[ok|e] wc] eqn:Hc.
  2:{ unfold convert_mermaid_text.
      by rewrite bind_gets, Hd, (bind_raise _ _ _ _ _ Hc). }
  destruct ok.
  2:{ unfold convert_mermaid_text.
      rewrite bind_gets, Hd, (bind_ok _ _ _ _ _ Hc). cbn [negb].
      rewrite bind_print. apply demo_true_output. }
  destruct (named_temporary_file E ".mmd" mermaid_code wc) as [[tin|e] wt] eqn:Ht.
  2:{ unfold convert_mermaid_text.
      rewrite bind_gets, Hd, (bind_ok _ _ _ _ _ Hc). cbn [negb].
      by rewrite (bind_raise _ _ _ _ _ Ht). }
  rewrite (convert_attempted E _ _ _ _ _ _ _ Hd Hc Ht).
  rewrite try_finally_snd, try_finally_cleanup_fst.
  destruct (prepare_cmd E (mermaid_cli (self wt)) tin output_path config wt)
    as [prep wp] eqn:Hp.
  intros Htrue. rewrite cleanup_other.
  - revert Htrue. apply guarded_true_output. intros w0. cbn [fst].
    destruct prep as [[c cfgp]|e]; [apply run_conversion_true_output | done].
  - intros ->. apply named_temporary_file_name in Ht. by apply Htmp in Ht.
  - cbn [fst]. destruct prep as [[c [q|]]|e]; try done.
    intros [= ->]. apply prepare_cmd_config in Hp. by apply Htmp in Hp.
Qed.

Lemma convert_mermaid_text_true_output_witness :
  fst (convert_mermaid_text env_failing_conversion test_code "/d/out.png" None w_mmdc)
    = Ok true /\
  is_Some (fs (snd (convert_mermaid_text env_failing_conversion test_code
                      "/d/out.png" None w_mmdc)) !! "/d/out.png").
Proof.
  assert (H : fst (convert_mermaid_text env_failing_conversion test_code
                     "/d/out.png" None w_mmdc) = Ok true) by reflexivity.
  split; [exact H|].
  apply (convert_mermaid_text_true_output env_failing_conversion test_code
           "/d/out.png" None w_mmdc); [|exact H].
  intros suffix w0. simpl. unfold numbered_temp. intros [= Heq].
Defined.

(** Once [convert_mermaid_text] has written its temporary input, no file
    is left under that name when the call returns, whatever the conversion
    did: exit, timeout, an exception, the fallback to the placeholder. *)
Theorem convert_mermaid_text_removes_temp_input (E : Env)
    (mermaid_code output_path : string) (config : option json)
    (w wc wt : World) (tin : string) (c : content) :
  demo_mode (self w) = false ->
  _check_dependencies E w = (Ok true, wc) ->
  named_temporary_file E ".mmd" mermaid_code wc = (Ok tin, wt) ->
  fs (snd (convert_mermaid_text E mermaid_code output_path config w)) !! tin
    <> Some (File c).
Proof.
  intros Hd Hc Ht. rewrite (convert_attempted E _ _ _ _ _ _ _ Hd Hc Ht).
  rewrite try_finally_snd. apply cleanup_removes.
Qed.

Lemma convert_mermaid_text_removes_temp_input_witness :
  named_temporary_file env_conversion_timeout ".mmd" test_code
    (snd (_check_dependencies env_conversion_timeout w_mmdc))
    = (Ok "/tmp/tmp1.mmd",
       snd (named_temporary_file env_conversion_timeout ".mmd" test_code
              (snd (_check_dependencies env_conversion_timeout w_mmdc)))) /\
  forall c,
    fs (snd (convert_mermaid_text env_conversion_timeout test_code "/d/out.png" None
               w_mmdc)) !! "/tmp/tmp1.mmd" <> Some (File c).
Proof.
  split; [reflexivity|].
  exact (fun c => convert_mermaid_text_removes_temp_input env_conversion_timeout
                    test_code "/d/out.png" None w_mmdc _ _ "/tmp/tmp1.mmd" c
                    eq_refl eq_refl eq_refl).
Defined.

(** [convert_mermaid_text] raises only before a conversion is tried: when
    the dependency check raises, or when the temporary input cannot be
    made.  Once the [try] block is entered every exception ends in the
    placeholder renderer. *)
Theorem convert_mermaid_text_raises_early (E : Env) (mermaid_code output_path : string)
    (config : option json) (w : World) (e : exn) :
  fst (convert_mermaid_text E mermaid_code output_path config w) = Raise e ->
  demo_mode (self w) = false /\
  (fst (_check_dependencies E w) = Raise e \/
   exists wc, _check_dependencies E w = (Ok true, wc) /\
              fst (named_temporary_file E ".mmd" mermaid_code wc) = Raise e) /\
  no_conversion w (snd (convert_mermaid_text E mermaid_code output_path config w)).
Proof.
  destruct (demo_mode (self w)) eqn:Hd.
  { unfold convert_mermaid_text. rewrite bind_gets, Hd, bind_print.
    match goal with |- context [_create_demo_image E _ _ ?w0] =>
      destruct (create_demo_image_returns E mermaid_code output_path w0)
        as (b & w2 & -> & _) end. done. }
  pose proof (no_conversion_check_dependencies E w) as Hnc.
  destruct (_check_dependencies E w) as [[ok|e'] wc] eqn:Hc; simpl in Hnc.
  2:{ unfold convert_mermaid_text.
      rewrite bind_gets, Hd, (bind_raise _ _ _ _ _ Hc). simpl.
      intros [= ->]. split; [done|]. split; [by left | done]. }
  destruct ok.
  2:{ unfold convert_mermaid_text.
      rewrite bind_gets, Hd, (bind_ok _ _ _ _ _ Hc). cbn [negb].
      rewrite bind_print.
      match goal with |- context [_create_demo_image E _ _ ?w0] =>
        destruct (create_demo_image_returns E mermaid_code output_path w0)
          as (b & w2 & -> & _) end. done. }
  pose proof (keeps_named_temporary_file no_conversion E ".mmd" mermaid_code wc) as Hnt.
  destruct (named_temporary_file E ".mmd" mermaid_code wc) as [[tin|e'] wt] eqn:Ht;
    simpl in Hnt.
  2:{ unfold convert_mermaid_text.
      rewrite bind_gets, Hd, (bind_ok _ _ _ _ _ Hc). cbn [negb].
      rewrite (bind_raise _ _ _ _ _ Ht). simpl.
      intros [= ->]. split; [done|]. split; [|by etrans].
      right. exists wc. by rewrite Ht. }
  rewrite (convert_attempted E _ _ _ _ _ _ _ Hd Hc Ht), try_finally_cleanup_fst.
  intros Hraise. exfalso.
  match type of Hraise with fst (?m ?w0) = _ =>
    assert (Htot : total m)
      by (apply total_try_except_any; apply total_handler);
    destruct (Htot w0) as [b Hb] end.
  congruence.
Qed.

Lemma convert_mermaid_text_raises_early_witness :
  exists e,
    fst (convert_mermaid_text env_no_temp test_code "/d/out.png" None w_mmdc) = Raise e /\
    no_conversion w_mmdc
      (snd (convert_mermaid_text env_no_temp test_code "/d/out.png" None w_mmdc)).
Proof.
  eexists.
  match goal with |- ?P /\ _ => assert (Hr : P) by reflexivity end.
  split; [exact Hr|].
  apply (convert_mermaid_text_raises_early env_no_temp test_code "/d/out.png" None
           w_mmdc _ Hr).
Defined.

(** ** [_check_dependencies]: when it says yes, when it raises *)

(** [_check_dependencies] in closed form, for a candidate that is there. *)
Lemma check_dependencies_unfold (E : Env) (w : World) (cli : string) :
  mermaid_cli (self w) = Some cli -> Py.truthy cli = true ->
  _check_dependencies E w =
    let (e, f) := spawn E (Shell (cli +:+ " --help")) 10 w in
    let w' := add_proc (Proc (Shell (cli +:+ " --help")) 10 (fs w) e f) (set_fs f w) in
    match e with
    | Exited r =>
        if returncode r =? 0
        then (Ok true, add_printed "✅ All dependencies are available" w')
        else (Ok false, add_printed "❌ Mermaid CLI is not working properly" w')
    | TimedOut => (Ok false, add_printed "❌ Mermaid CLI is not responding" w')
    | NotStarted x =>
        if is_timeout x
        then (Ok false, add_printed "❌ Mermaid CLI is not responding" w')
        else (Raise x, w')
    end.
Proof.
  intros Hcli Ht. unfold _check_dependencies.
  rewrite bind_gets, Hcli. cbn [cli_missing]. rewrite Ht.
  change (cli_str (Some cli)) with cli.
  cbn [negb]. unfold bind at 1, try_except, bind at 1, subprocess_run.
  destruct (spawn E (Shell (cli +:+ " --help")) 10 w) as [[r| |x] f]; try done.
  - by destruct (returncode r =? 0).
  - by destruct (is_timeout x).
Qed.

(** [_check_dependencies] answers [True] only when there is a candidate
    and the one process it starts, the candidate with [--help] and a ten
    second timeout, exits with zero. *)
Theorem check_dependencies_true (E : Env) (w : World) :
  fst (_check_dependencies E w) = Ok true ->
  exists cli r f,
    mermaid_cli (self w) = Some cli /\
    new_procs w (snd (_check_dependencies E w))
      = [Proc (Shell (cli +:+ " --help")) 10 (fs w) (Exited r) f] /\
    returncode r = 0.
Proof.
  destruct (mermaid_cli (self w)) as [cli|] eqn:Hcli.
  2:{ unfold _check_dependencies. by rewrite bind_gets, Hcli. }
  destruct (Py.truthy cli) eqn:Ht.
  2:{ unfold _check_dependencies. rewrite bind_gets, Hcli.
      cbn [cli_missing]. by rewrite Ht. }
  rewrite (check_dependencies_unfold E w cli Hcli Ht).
  destruct (spawn E (Shell (cli +:+ " --help")) 10 w) as [[r| |x] f]; try done.
  - destruct (returncode r =? 0) eqn:Hrc; [|done]. intros _.
    exists cli, r, f. split; [done|]. split; [|by apply Z.eqb_eq].
    unfold new_procs. simpl. by rewrite drop_app_length.
  - by destruct (is_timeout x).
Qed.

Lemma check_dependencies_true_witness :
  fst (_check_dependencies env_working w_mmdc) = Ok true /\
  exists cli r f,
    mermaid_cli (self w_mmdc) = Some cli /\
    new_procs w_mmdc (snd (_check_dependencies env_working w_mmdc))
      = [Proc (Shell (cli +:+ " --help")) 10 (fs w_mmdc) (Exited r) f] /\
    returncode r = 0.
Proof.
  assert (H : fst (_check_dependencies env_working w_mmdc) = Ok true) by reflexivity.
  split; [exact H|]. exact (check_dependencies_true env_working w_mmdc H).
Defined.

(** [_check_dependencies] answers a timeout with [False]; what it raises
    is never a timeout: it is the exception with which its process could
    not be started. *)
Theorem check_dependencies_raises (E : Env) (w : World) (e : exn) :
  fst (_check_dependencies E w) = Raise e ->
  is_timeout e = false /\
  exists cli f,
    mermaid_cli (self w) = Some cli /\
    spawn E (Shell (cli +:+ " --help")) 10 w = (NotStarted e, f).
Proof.
  destruct (mermaid_cli (self w)) as [cli|] eqn:Hcli.
  2:{ unfold _check_dependencies. by rewrite bind_gets, Hcli. }
  destruct (Py.truthy cli) eqn:Ht.
  2:{ unfold _check_dependencies. rewrite bind_gets, Hcli.
      cbn [cli_missing]. by rewrite Ht. }
  rewrite (check_dependencies_unfold E w cli Hcli Ht).
  destruct (spawn E (Shell (cli +:+ " --help")) 10 w) as [[r| |x] f] eqn:Hs;
    try done.
  - by destruct (returncode r =? 0).
  - destruct (is_timeout x) eqn:Hx; [done|]. intros [= ->].
    split; [done|]. by exists cli, f.
Qed.

Lemma check_dependencies_raises_witness :
  fst (_check_dependencies env_no_process w_mmdc)
    = Raise (OSError "Cannot allocate memory") /\
  is_timeout (OSError "Cannot allocate memory") = false.
Proof.
  assert (H : fst (_check_dependencies env_no_process w_mmdc)
              = Raise (OSError "Cannot allocate memory")) by reflexivity.
  split; [exact H|].
  apply (check_dependencies_raises env_no_process w_mmdc _ H).
Defined.

(** ** [batch_convert]: its counts and its one exception *)

Section BatchMore.
Context (E : Env).



(** What the loop raises is the error of [os.stat] on one of the files:
    [Path.exists()] in [convert_file] raised it. *)
Lemma batch_loop_raise (out : string) (config : option json)
    (files : list string) (e : exn) :
  forall (n : nat) (w w' : World),
    batch_loop E files out config n w = (Raise e, w') ->
    exists f w0,
      f ∈ files /\ node_at f w0 = None /\ stat_error E f w0 = Some e /\
      answers_false e = false.
Proof.
  induction files as [|f files IH]; intros n w w'; simpl; [done|].
  unfold bind at 1.
  destruct (convert_file E f _ config w) as [[ok|e'] w1] eqn:Hc.
  - intros (g & w0 & Hg & H)%IH. exists g, w0. split; [by right | done].
  - intros [= <- <-].
    apply convert_file_raise in Hc as [_ [(Hn & Hs & Hi)|(_ & [=] & _)]].
    exists f, w. split; [by left | done].
Qed.

End BatchMore.



Lemma batch_convert_raise (E : Env) (input_directory : string)
    (output_directory : option string) (config : option json) (w : World)
    (e : exn) (w' : World) :
  batch_convert E input_directory output_directory config w = (Raise e, w') ->
  (node_at input_directory w = None /\ stat_error E input_directory w = Some e /\
   w' = w)
  \/ (opt_truthy output_directory = true /\
      mkdir_parents E (default "" output_directory) w = (Raise e, w'))
  \/ (exists output_path w1 f w0,
        batch_output E input_directory output_directory w = Some (output_path, w1) /\
        f ∈ glob_mmd E input_directory w1 /\
        node_at f w0 = None /\ stat_error E f w0 = Some e).
Proof.
  unfold batch_convert. unfold bind at 1. rewrite Path_exists_eq.
  destruct (node_at input_directory w) as [n|] eqn:Hn.
  - unfold bind at 1. rewrite is_dir_eq, Hn.
    destruct n as [|c]; cbn [negb orb]; [|by rewrite bind_print].
    destruct (batch_output E input_directory output_directory w)
      as [[out w1]|] eqn:Hbo.
    + rewrite (batch_output_step E _ _ _ _ _ _ Hbo), bind_gets.
      destruct (glob_mmd E input_directory w1) as [|g gs] eqn:Hfiles;
        rewrite bind_print; [done|].
      match goal with |- context [bind (batch_loop E ?fl ?o ?c ?k) _ ?w0] =>
        destruct (batch_loop E fl o c k w0) as [[m|e'] w2] eqn:Hloop end.
      * by rewrite (bind_ok _ _ _ _ _ Hloop), bind_print.
      * rewrite (bind_raise _ _ _ _ _ Hloop). intros [= -> ->].
        apply batch_loop_raise in Hloop as (f & w0 & Hf & Hnf & Hs & _).
        right. right. exists out, w1, f, w0. by rewrite Hfiles.
    + unfold batch_output in Hbo.
      destruct (opt_truthy output_directory) eqn:Hod; [|done].
      unfold bind at 1, bind at 1.
      destruct (mkdir_parents E _ w) as [[u|e'] w2] eqn:Hmk; [done|].
      intros [= -> ->]. right. left. by split.
  - destruct (stat_error E input_directory w) as [e'|] eqn:Hs.
    + destruct (answers_false e').
      * cbv beta iota. unfold bind at 1, ret at 1. cbn [negb orb].
        by rewrite bind_print.
      * intros [= -> ->]. left. by repeat split.
    + cbv beta iota. unfold bind at 1, ret at 1. cbn [negb orb].
      by rewrite bind_print.
Qed.

(** What [batch_convert] raises comes from one of three places, all
    outside any [try]: [exists()] on the input directory, and then nothing
    was done; making the output directory, and then what [mkdir] had made
    of its parents stays; or [exists()] on a listed entry, in
    [convert_file]. *)
Theorem batch_convert_raises (E : Env) (input_directory : string)
    (output_directory : option string) (config : option json) (w : World)
    (e : exn) :
  fst (batch_convert E input_directory output_directory config w) = Raise e ->
  (node_at input_directory w = None /\ stat_error E input_directory w = Some e /\
   snd (batch_convert E input_directory output_directory config w) = w)
  \/ (opt_truthy output_directory = true /\
      mkdir_parents E (default "" output_directory) w
        = (Raise e, snd (batch_convert E input_directory output_directory config w)))
  \/ (exists output_path w1 f w0,
        batch_output E input_directory output_directory w = Some (output_path, w1) /\
        f ∈ glob_mmd E input_directory w1 /\
        node_at f w0 = None /\ stat_error E f w0 = Some e).
Proof.
  destruct (batch_convert E input_directory output_directory config w)
    as [r w'] eqn:H.
  cbn [fst snd]. intros ->. by apply (batch_convert_raise E _ _ config).
Qed.

(** A listed link to a name that is too long: [exists()] raises in
    [convert_file], and so does [batch_convert], after the file before it
    was converted. *)
Example batch_broken_link_raises :
  glob_mmd env_broken_link "/d" w_demo = ["/d/flow.mmd"; "/d/long.mmd"] /\
  fst (batch_convert env_broken_link "/d" None None w_demo)
    = Raise (OSError "[Errno 36] File name too long") /\
  is_Some (fs (snd (batch_convert env_broken_link "/d" None None w_demo))
             !! "/d/flow.png").
Proof. repeat split; vm_compute; eauto. Qed.

Lemma batch_convert_raises_witness :
  exists e w',
    fst (batch_convert env_long_names "/d" (Some long_output) None w_demo) = Raise e /\
    mkdir_parents env_long_names long_output w_demo = (Raise e, w') /\
    fs w' !! "/new" = Some Dir.
Proof.
  eexists _, _.
  assert (H : fst (batch_convert env_long_names "/d" (Some long_output) None w_demo)
              = Raise (OSError "[Errno 36] File name too long"))
    by (vm_compute; reflexivity).
  split; [exact H|].
  destruct (batch_convert_raises env_long_names "/d" (Some long_output) None w_demo
              _ H) as [(Hn & _)|[(_ & Hmk)|(out & w1 & f & w0 & Hbo & _)]].
  - vm_compute in Hn. discriminate Hn.
  - split; [exact Hmk|]. vm_compute. reflexivity.
  - vm_compute in Hbo. discriminate Hbo.
Defined.

(** For an input path where a file is, or where [os.stat] answers that
    nothing is there, [batch_convert] answers [(0, 0)] at once: the output
    directory is not made, no file is read or written, no process is
    started. *)
Theorem batch_convert_no_directory (E : Env) (input_directory : string)
    (output_directory : option string) (config : option json) (w : World) :
  (exists c, node_at input_directory w = Some (File c))
  \/ nothing_at E input_directory w ->
  batch_convert E input_directory output_directory config w
    = (Ok (0%nat, 0%nat),
       add_printed ("❌ Input directory not found: " +:+ input_directory) w).
Proof.
  intros [[c Hc]|Hn]; unfold batch_convert; unfold bind at 1.
  - rewrite Path_exists_eq, Hc. unfold bind at 1. by rewrite is_dir_eq, Hc.
  - by rewrite (Path_exists_nothing E _ _ Hn).
Qed.

Lemma batch_convert_no_directory_witness :
  node_at "/d/flow.mmd" w_demo = Some (File (Text "graph TD; A-->B")) /\
  batch_convert env_open "/d/flow.mmd" (Some "/out") None w_demo
    = (Ok (0%nat, 0%nat),
       add_printed "❌ Input directory not found: /d/flow.mmd" w_demo).
Proof.
  split; [reflexivity|].
  apply (batch_convert_no_directory env_open "/d/flow.mmd" (Some "/out") None w_demo).
  left. by eexists.
Defined.

(** ** Discovery: order, and what it finds where nothing answers *)

Section DiscoveryMore.
Context (E : Env).

Lemma subprocess_run_exited (c : cmd) (t : nat) (w : World) r w' :
  subprocess_run E c t w = (Ok r, w') -> fst (spawn E c t w) = Exited r.
Proof.
  unfold subprocess_run. destruct (spawn E c t w) as [[r0| |x] f]; try done.
  by intros [= <- _].
Qed.

Lemma settled_test_conversion (p : string) :
  keeps settled (_test_mermaid_cli_with_conversion E p).
Proof. unfold _test_mermaid_cli_with_conversion. frame; by apply settled_print. Qed.

Lemma settled_after_version (p : string) (r : completed) :
  keeps settled (after_version E p r).
Proof.
  unfold after_version. frame;
    first [apply settled_test_conversion | by apply settled_print].
Qed.

(** A probe prints its opening line, and no other such line. *)
Lemma probe_prints (p : string) (w : World) :
  exists more,
    printed (snd (probe E p w)) = printed w ++ ("Testing: " +:+ p) :: more /\
    Forall (fun l => probe_line l = false) more.
Proof.
  unfold probe, try_except. rewrite bind_print.
  set (w0 := add_printed ("Testing: " +:+ p) w).
  match goal with |- context [match ?m w0 with _ => _ end] =>
    assert (Hk : keeps settled m);
    [| specialize (Hk w0); destruct (m w0) as [[r|e] w1] ] end.
  { frame; first [apply settled_after_version | by apply settled_print]. }
  - destruct Hk as [_ (more & Hp & Hf)]. exists more. simpl in *.
    by rewrite Hp, <- app_assoc.
  - destruct Hk as [_ (more & Hp & Hf)]. simpl in *.
    eexists (more ++ [_]). rewrite Hp. rewrite <- !app_assoc. split; [done|].
    apply Forall_app. split; [done|]. by constructor.
Qed.

Lemma probe_lines_probe (p : string) (w : World) :
  probe_lines w (snd (probe E p w)) = ["Testing: " +:+ p].
Proof.
  destruct (probe_prints p w) as (more & Hp & Hf).
  unfold probe_lines. rewrite Hp, drop_app_length. cbn [List.filter].
  unfold probe_line at 1. rewrite startswith_app. f_equal.
  clear Hp. induction Hf as [|l more Hl _ IH]; simpl; [reflexivity|].
  rewrite Hl. exact IH.
Qed.

Lemma probe_lines_trans (w1 w2 w3 : World) :
  (exists n, printed w2 = printed w1 ++ n) ->
  (exists n, printed w3 = printed w2 ++ n) ->
  probe_lines w1 w3 = probe_lines w1 w2 ++ probe_lines w2 w3.
Proof.
  intros [n1 H1] [n2 H2]. unfold probe_lines.
  rewrite H2, H1, <- app_assoc, !drop_app_length.
  rewrite app_assoc, drop_app_length. apply List.filter_app.
Qed.

Lemma probe_grows (p : string) (w : World) :
  exists n, printed (snd (probe E p w)) = printed w ++ n.
Proof. destruct (probe_prints p w) as (more & Hp & _). by eexists. Qed.

Lemma find_loop_grows (paths : list string) (w : World) :
  exists n, printed (snd (find_loop E paths w)) = printed w ++ n.
Proof.
  revert w. induction paths as [|p paths IH]; intros w; simpl.
  - exists []. by rewrite app_nil_r.
  - unfold bind. destruct (probe_grows p w) as [n1 H1].
    destruct (probe E p w) as [[[q|]|e] w1]; simpl in *; try by eexists.
    destruct (IH w1) as [n2 H2]. exists (n1 ++ n2). by rewrite H2, H1, app_assoc.
Qed.

(** The loop probes the candidates from the first on, one line each, and
    stops at the candidate it returns. *)
Lemma find_loop_order (paths : list string) (w : World) :
  exists r tried rest,
    fst (find_loop E paths w) = Ok r /\
    paths = tried ++ rest /\
    probe_lines w (snd (find_loop E paths w)) = map (fun p => "Testing: " +:+ p) tried /\
    match r with
    | Some p => last tried = Some p
    | None => rest = []
    end.
Proof.
  revert w. induction paths as [|p paths IH]; intros w; simpl.
  - exists None, [], []. repeat split; try done.
    unfold probe_lines. by rewrite drop_all.
  - pose proof (probe_lines_probe p w) as Hl. pose proof (probe_grows p w) as Hg.
    pose proof (probe_sound E p w) as Hs. unfold bind.
    destruct (probe E p w) as [r1 w1]. simpl in Hl, Hg.
    destruct (Hs r1 w1 eq_refl) as [->|[-> _]].
    + destruct (IH w1) as (r & tried & rest & Hr & Hp & Hlines & Hlast).
      exists r, (p :: tried), rest. split; [done|]. split; [by rewrite Hp|].
      split.
      * rewrite (probe_lines_trans w w1); [|done|apply find_loop_grows].
        by rewrite Hl, Hlines.
      * destruct r as [q|]; [|done]. destruct tried; [done|]. done.
    + exists (Some p), [p], paths. by repeat split.
Qed.

End DiscoveryMore.

(** [_find_mermaid_cli] never raises.  It probes the candidates in the
    listed order, printing one line [Testing: ...] for each, and stops at
    the one it returns: the probed candidates are a first part of the
    list that ends with the returned one, or the whole list when it
    returns [None]. *)
Theorem find_mermaid_cli_order (E : Env) (w : World) :
  exists r tried rest,
    fst (_find_mermaid_cli E w) = Ok r /\
    possible_paths E = tried ++ rest /\
    probe_lines w (snd (_find_mermaid_cli E w))
      = map (fun p => "Testing: " +:+ p) tried /\
    match r with
    | Some p => last tried = Some p
    | None => rest = []
    end.
Proof. apply find_loop_order. Qed.

Section NothingAnswers.
Context (E : Env).
Hypothesis silent : nothing_answers E.

Lemma after_version_none (p : string) (r : completed) (w : World) :
  (returncode r =? 0) && Py.truthy (stdout r) = false ->
  fst (after_version E p r w) = Ok None.
Proof.
  intros H. unfold after_version. rewrite H. rewrite bind_print.
  by destruct (Py.truthy (stderr r)).
Qed.

Lemma probe_none (p : string) (w : World) : fst (probe E p w) = Ok None.
Proof.
  unfold probe, try_except. rewrite bind_print.
  match goal with |- context [match ?m ?w0 with _ => _ end] =>
    assert (H : forall o w', m w0 = (Ok o, w') -> o = None);
    [| destruct (m w0) as [[o|e] w1]; [by rewrite (H o w1 eq_refl) | done] ] end.
  intros o w'. destruct (Py.startswith p "node ").
  - rewrite bind_path_exists. destruct (negb _); [by intros [= <- _]|].
    unfold bind at 1.
    destruct (subprocess_run E _ 15 _) as [[r|e] w1] eqn:Hr; [|done].
    apply subprocess_run_exited, silent in Hr as [Hr _].
    intros Ha. pose proof (after_version_none p r w1 Hr) as Hn.
    rewrite Ha in Hn. by injection Hn.
  - destruct (Py.contains "npx" p).
    + unfold bind at 1.
      destruct (subprocess_run E _ 10 _) as [[r|e] w1] eqn:Hr; [|done].
      apply subprocess_run_exited, silent in Hr as [_ Hr]. rewrite Hr, andb_false_r.
      by intros [= <- _].
    + unfold bind at 1.
      destruct (subprocess_run E _ 10 _) as [[r|e] w1] eqn:Hr; [|done].
      apply subprocess_run_exited, silent in Hr as [Hr _].
      intros Ha. pose proof (after_version_none p r w1 Hr) as Hn.
      rewrite Ha in Hn. by injection Hn.
Qed.

Lemma find_loop_none (paths : list string) (w : World) :
  fst (find_loop E paths w) = Ok None.
Proof.
  revert w. induction paths as [|p paths IH]; intros w; simpl; [done|].
  unfold bind. pose proof (probe_none p w) as Hp.
  destruct (probe E p w) as [r w1]. simpl in Hp. subst r. apply IH.
Qed.

End NothingAnswers.

(** Where no version query is answered with exit code zero and some
    output, and no process names the package, discovery finds no
    candidate, and the converter it builds is in demo mode. *)
Theorem discovery_without_answer (E : Env) (w : World) :
  nothing_answers E ->
  fst (_find_mermaid_cli E w) = Ok None /\
  self (snd (__init__ E w)) = Converter None true.
Proof.
  intros Hs. pose proof (find_loop_none E Hs (possible_paths E) w) as Hf.
  split; [exact Hf|].
  unfold __init__, _find_mermaid_cli, bind.
  destruct (find_loop E (possible_paths E) w) as [r w1]. simpl in Hf. by subst r.
Qed.

Lemma discovery_without_answer_witness :
  fst (_find_mermaid_cli env_no_tool w_start) = Ok None /\
  self (snd (__init__ env_no_tool w_start)) = Converter None true.
Proof.
  apply (discovery_without_answer env_no_tool w_start).
  intros c t w r [= <-]. split; reflexivity.
Defined.

(** ** The probe where its process exits *)

(** Where the trial conversion exits, with whatever code, and leaves the
    temporary input a file, the probe answers whether the code was zero,
    and when it returns the temporary input is gone and no file is left
    under the name of the temporary output. *)
Theorem probe_cleans_after_exit (E : Env) (cli_path : string) (w : World)
    (tin : string) (r : completed) (f : gmap string node) (c0 : content) :
  temp_name E ".mmd" w = Some tin ->
  fs w !! tin = None ->
  spawn E (Shell (test_cmd cli_path tin (Py.replace tin ".mmd" ".png"))) 30
        (set_fs (<[tin := File (Text test_code)]> (fs w)) w) = (Exited r, f) ->
  f !! tin = Some (File c0) ->
  fst (_test_mermaid_cli_with_conversion E cli_path w) = Ok (returncode r =? 0) /\
  fs (snd (_test_mermaid_cli_with_conversion E cli_path w)) !! tin = None /\
  forall c, fs (snd (_test_mermaid_cli_with_conversion E cli_path w))
              !! Py.replace tin ".mmd" ".png" <> Some (File c).
Proof.
  intros Hname Hfresh Hspawn Hleft.
  set (tout := Py.replace tin ".mmd" ".png") in *.
  set (w1 := set_fs (<[tin := File (Text test_code)]> (fs w)) w) in *.
  set (w2 := add_proc (Proc (Shell (test_cmd cli_path tin tout)) 30 (fs w1)
                         (Exited r) f) (set_fs f w1)).
  assert (Htmp : named_temporary_file E ".mmd" test_code w = (Ok tin, w1)).
  { unfold named_temporary_file. by rewrite Hname, Hfresh. }
  assert (Hrun : subprocess_run E (Shell (test_cmd cli_path tin tout)) 30 w1
                 = (Ok r, w2)).
  { unfold subprocess_run. by rewrite Hspawn. }
  assert (Hclean : exists w3,
             try_except
               (unlink tin ;;
                ex <- path_exists tout ;;
                if ex then unlink tout else ret tt)
               any_exception (fun _ => ret tt) w2 = (Ok tt, w3) /\
             fs w3 !! tin = None /\
             (forall c, fs w3 !! tout <> Some (File c))).
  { unfold try_except, bind at 1, unlink at 1.
    change (fs w2) with f. rewrite Hleft. rewrite bind_path_exists.
    change (fs (set_fs (delete tin f) w2)) with (delete tin f).
    destruct (decide (tout = tin)) as [Heq|Hne].
    - rewrite Heq, lookup_delete_eq. eexists. split; [reflexivity|].
      simpl. rewrite lookup_delete_eq. done.
    - rewrite lookup_delete_ne by done.
      destruct (f !! tout) as [n|] eqn:Hout; cbv iota.
      + unfold unlink. cbn [fs set_fs]. rewrite lookup_delete_ne, Hout by done.
        destruct n as [|c1]; eexists; (split; [reflexivity|]); cbn [fs set_fs].
        * rewrite lookup_delete_eq, lookup_delete_ne, Hout by done. done.
        * rewrite lookup_delete_ne, !lookup_delete_eq by done. done.
      + eexists. split; [reflexivity|]. cbn [fs set_fs].
        rewrite lookup_delete_eq, lookup_delete_ne, Hout by done. done. }
  destruct Hclean as (w3 & Hclean & Hin & Hout).
  assert (Heq : exists w4,
             _test_mermaid_cli_with_conversion E cli_path w
               = (Ok (returncode r =? 0), w4) /\ fs w4 = fs w3).
  { unfold _test_mermaid_cli_with_conversion, try_except at 1.
    rewrite (bind_ok _ _ _ _ _ Htmp). fold tout.
    rewrite (bind_ok _ _ _ _ _ Hrun), (bind_ok _ _ _ _ _ Hclean).
    destruct (returncode r =? 0); by eexists. }
  destruct Heq as (w4 & -> & Hfs). simpl. by rewrite Hfs.
Qed.

Lemma probe_cleans_after_exit_witness :
  fst (_test_mermaid_cli_with_conversion env_no_tool "mmdc" w_start) = Ok false /\
  fs (snd (_test_mermaid_cli_with_conversion env_no_tool "mmdc" w_start))
    !! "/tmp/tmp0.mmd" = None.
Proof.
  destruct (probe_cleans_after_exit env_no_tool "mmdc" w_start "/tmp/tmp0.mmd"
              (Completed 127 "" "command not found")
              (<["/tmp/tmp0.mmd" := File (Text test_code)]> (fs w_start))
              (Text test_code) eq_refl eq_refl eq_refl eq_refl) as (H1 & H2 & _).
  split; [exact H1 | exact H2].
Defined.

(** ** The route POST /api/convert: its answers *)

Section RouteConvert.
Context (E : Env) (secure_filename : string -> string).

(** The [try] block of the route for a request that names its diagram
    and its file name as it should: the conversion, then the answer. *)
Lemma convert_mermaid_try_object (l : list (string * json)) (v : json)
    (name : string) (w : World) :
  obj_get "mermaid_code" l = Some v ->
  default (JStr "diagram.png") (obj_get "filename" l) = JStr name ->
  convert_mermaid_try E secure_filename (JObj l) w =
    (let output_path := Path.os_join OUTPUT_FOLDER (answer_filename secure_filename name) in
     success <- match v with
                | JStr code =>
                    convert_mermaid_text E code output_path (obj_get "config" l)
                | _ => convert_non_text E
                end ;;
     ex <- path_exists output_path ;;
     if success && ex then
       png_data <- read_bytes output_path ;;
       unlink output_path ;;
       ret (Response (SuccessBody png_data (answer_filename secure_filename name)
                        "Conversion successful") 200)
     else ret (Response (FailureBody "Conversion failed") 500)) w.
Proof.
  intros Hv Hname. unfold convert_mermaid_try, missing_code.
  destruct l as [|kv l']; [done|]. rewrite Hv, Hname. cbn [orb default].
  unfold answer_filename. by destruct (Py.endswith (secure_filename name) ".png").
Qed.

Lemma convert_mermaid_try_well_formed (data : json) (w : World) resp w' :
  convert_mermaid_try E secure_filename data w = (Ok resp, w') -> well_formed resp.
Proof.
  unfold convert_mermaid_try.
  destruct (missing_code data) as [[|]|e]; [by intros [= <- _]| |done].
  destruct data as [| | | | |l]; try done.
  destruct (default (JStr "diagram.png") (obj_get "filename" l))
    as [| | |name| |]; try done.
  unfold bind at 1.
  match goal with |- context [match ?m w with _ => _ end] =>
    destruct (m w) as [[success|e] w1] end; [|done].
  rewrite bind_path_exists.
  destruct (success && _); [|by intros [= <- _]].
  unfold bind.
  destruct (read_bytes _ w1) as [[c|e] w2]; [|done].
  destruct (unlink _ w2) as [[u|e] w3]; [|done].
  by intros [= <- _].
Qed.

End RouteConvert.

(** [convert_mermaid] always answers: it raises nothing, and the answer
    is an error body with status 400, a failure body with status 500 or a
    success body with status 200. *)
Theorem convert_mermaid_answers (E : Env) (secure_filename : string -> string)
    (request_json : res json) (w : World) :
  exists resp,
    fst (convert_mermaid E secure_filename request_json w) = Ok resp /\
    well_formed resp.
Proof.
  unfold convert_mermaid, try_except.
  destruct request_json as [data|e]; [|by eexists].
  destruct (convert_mermaid_try E secure_filename data w) as [[resp|e] w1] eqn:Ht;
    [|by eexists].
  exists resp. split; [done|]. by eapply convert_mermaid_try_well_formed.
Qed.

(** A request object without the key [mermaid_code] (the empty object
    too) is answered with status 400 and the message of the missing code;
    nothing is converted, written or started. *)
Theorem convert_mermaid_missing_code (E : Env) (secure_filename : string -> string)
    (l : list (string * json)) (w : World) :
  obj_get "mermaid_code" l = None ->
  convert_mermaid E secure_filename (Ok (JObj l)) w
    = (Ok (Response (ErrorBody "Missing mermaid_code in request") 400), w).
Proof.
  intros H. unfold convert_mermaid, try_except, convert_mermaid_try, missing_code.
  rewrite H. by rewrite orb_true_r.
Qed.

Lemma convert_mermaid_missing_code_witness :
  obj_get "mermaid_code" [("filename", JStr "a.png")] = None /\
  convert_mermaid env_open (fun s => s) (Ok (JObj [("filename", JStr "a.png")])) w_demo
    = (Ok (Response (ErrorBody "Missing mermaid_code in request") 400), w_demo).
Proof.
  split; [reflexivity|].
  apply (convert_mermaid_missing_code env_open (fun s => s)
           [("filename", JStr "a.png")] w_demo eq_refl).
Defined.

(** A success answer carries what the conversion left in the output
    folder: the request is an object, its conversion to
    [outputs/<filename>] answered [True] and left there a file with the
    image data of the answer; the route then removed that file and changed
    nothing else. *)
Theorem convert_mermaid_success_cleans (E : Env) (secure_filename : string -> string)
    (request_json : res json) (w : World)
    (image_data : content) (filename message : string) (status : nat) (w' : World) :
  convert_mermaid E secure_filename request_json w
    = (Ok (Response (SuccessBody image_data filename message) status), w') ->
  exists l w1,
    request_json = Ok (JObj l) /\
    route_conversion E l (Path.os_join OUTPUT_FOLDER filename) w = (Ok true, w1) /\
    fs w1 !! Path.os_join OUTPUT_FOLDER filename = Some (File image_data) /\
    w' = set_fs (delete (Path.os_join OUTPUT_FOLDER filename) (fs w1)) w1.
Proof.
  intros H. unfold convert_mermaid, try_except in H.
  destruct request_json as [data|e]; [|unfold raise in H; discriminate H].
  destruct (convert_mermaid_try E secure_filename data w) as [[resp|e] w1] eqn:Ht;
    [|discriminate H].
  injection H as -> ->. unfold convert_mermaid_try in Ht.
  destruct (missing_code data) as [[|]|e]; [discriminate Ht| |discriminate Ht].
  destruct data as [| | | | |l]; try discriminate Ht.
  destruct (default (JStr "diagram.png") (obj_get "filename" l))
    as [| | |name| |] eqn:Hname; try discriminate Ht.
  unfold bind at 1 in Ht.
  match type of Ht with context [match ?m w with _ => _ end] =>
    destruct (m w) as [[success|e] w1] eqn:Hconv end; [|discriminate Ht].
  rewrite bind_path_exists in Ht.
  destruct success; cbn [andb] in Ht; [|discriminate Ht].
  destruct (fs w1 !! _) as [n|] eqn:Hout; [|discriminate Ht].
  unfold bind, read_bytes, unlink in Ht. rewrite Hout in Ht.
  destruct n as [|c]; [discriminate Ht|]. rewrite Hout in Ht.
  injection Ht as <- <- <- <- <-.
  exists l, w1. by repeat split.
Qed.

Lemma convert_mermaid_success_cleans_witness :
  exists image_data filename message status w',
    convert_mermaid env_open (fun s => s) request_plain w_demo
      = (Ok (Response (SuccessBody image_data filename message) status), w') /\
    exists l w1,
      request_plain = Ok (JObj l) /\
      route_conversion env_open l (Path.os_join OUTPUT_FOLDER filename) w_demo
        = (Ok true, w1) /\
      fs w1 !! Path.os_join OUTPUT_FOLDER filename = Some (File image_data) /\
      w' = set_fs (delete (Path.os_join OUTPUT_FOLDER filename) (fs w1)) w1.
Proof.
  eexists _, _, _, _, _.
  match goal with |- ?eq /\ _ =>
    assert (Hrun : eq) by (vm_compute; reflexivity) end.
  split; [exact Hrun|].
  apply (convert_mermaid_success_cleans env_open (fun s => s) request_plain w_demo
           _ _ _ _ _ Hrun).
Defined.

(** In demo mode, with PIL at hand and the output path writable, a
    request with a diagram text and a file name that is a string or absent
    is answered with status 200 and the placeholder image of that text;
    the image file does not stay in the output folder. *)
Theorem convert_mermaid_demo (E : Env) (secure_filename : string -> string)
    (l : list (string * json)) (code name : string) (w : World) :
  obj_get "mermaid_code" l = Some (JStr code) ->
  default (JStr "diagram.png") (obj_get "filename" l) = JStr name ->
  demo_mode (self w) = true ->
  pil_available E = true ->
  (forall w0, writable E (Path.os_join OUTPUT_FOLDER
                            (answer_filename secure_filename name)) w0 = true) ->
  fst (convert_mermaid E secure_filename (Ok (JObj l)) w)
    = Ok (Response (SuccessBody (Png (demo_image E code))
                      (answer_filename secure_filename name)
                      "Conversion successful") 200) /\
  fs (snd (convert_mermaid E secure_filename (Ok (JObj l)) w))
    = delete (Path.os_join OUTPUT_FOLDER (answer_filename secure_filename name)) (fs w) /\
  procs (snd (convert_mermaid E secure_filename (Ok (JObj l)) w)) = procs w.
Proof.
  intros Hcode Hname Hdemo Hpil Hwr.
  set (out := Path.os_join OUTPUT_FOLDER _) in *.
  assert (Heq : exists w',
            convert_mermaid E secure_filename (Ok (JObj l)) w
              = (Ok (Response (SuccessBody (Png (demo_image E code))
                                 (answer_filename secure_filename name)
                                 "Conversion successful") 200), w') /\
            fs w' = delete out (fs w) /\ procs w' = procs w).
  { eexists. split.
    - unfold convert_mermaid, try_except.
      rewrite (convert_mermaid_try_object E secure_filename l _ name w Hcode Hname).
      cbv zeta. fold out.
      unfold convert_mermaid_text.
      unfold bind at 1. rewrite bind_gets, Hdemo, bind_print.
      rewrite create_demo_image_unfold, Hpil, Hwr.
      rewrite bind_path_exists. cbn [fs set_fs]. rewrite lookup_insert_eq. cbn [andb].
      unfold bind, read_bytes, unlink. cbn [fs set_fs]. rewrite lookup_insert_eq.
      cbn [fs set_fs fst snd]. rewrite lookup_insert_eq. unfold ret. reflexivity.
    - cbn [fs set_fs procs add_printed]. split; [|done]. by rewrite delete_insert_eq. }
  destruct Heq as (w' & Heq & Hfs & Hprocs).
  rewrite Heq. by cbn [fst snd].
Qed.

Lemma convert_mermaid_demo_witness :
  fst (convert_mermaid env_open (fun s => s) request_plain w_demo)
    = Ok (Response (SuccessBody (Png (demo_image env_open "graph TD; A-->B"))
                      "diagram.png" "Conversion successful") 200) /\
  fs (snd (convert_mermaid env_open (fun s => s) request_plain w_demo))
    = delete "outputs/diagram.png" (fs w_demo).
Proof.
  destruct (convert_mermaid_demo env_open (fun s => s)
              [("mermaid_code", JStr "graph TD; A-->B")] "graph TD; A-->B"
              "diagram.png" w_demo eq_refl eq_refl eq_refl eq_refl
              (fun _ => eq_refl)) as (H1 & H2 & _).
  split; [exact H1 | exact H2].
Defined.

(** ** The route POST /api/convert-file *)

Section RouteUpload.
Context (E : Env) (secure_filename : string -> string).

Lemma convert_file_route_accepted (request : file_request) (file : upload) :
  request_file request = Some file ->
  upload_refused request = false ->
  convert_file_route E secure_filename request =
    try_except (accepted_upload E secure_filename file (request_config request))
      any_exception
      (fun e => ret (Response (FailureBody (exn_str e)) 500)).
Proof.
  intros Hf Hr. unfold upload_refused in Hr. rewrite Hf in Hr.
  apply orb_false_elim in Hr as [Hn Hx].
  unfold convert_file_route. by rewrite Hf, Hn, Hx.
Qed.

(** How the accepted upload ends: an exception, the success answer with
    both files removed, or the failure answer with the upload removed. *)
Lemma accepted_upload_cases (file : upload) (form_config : option string) (w : World) :
  let input_path := upload_path secure_filename (upload_filename file) in
  let output_filename :=
    Py.replace (secure_filename (upload_filename file)) ".mmd" ".png" in
  exists r w',
    accepted_upload E secure_filename file form_config w = (r, w') /\
    ((exists e, r = Raise e /\ exn_str e <> "File conversion failed") \/
     (exists png_data,
        r = Ok (Response (SuccessBody png_data output_filename
                            "File conversion successful") 200) /\
        fs w' !! input_path = None /\
        fs w' !! Path.os_join OUTPUT_FOLDER output_filename = None) \/
     (r = Ok (Response (FailureBody "File conversion failed") 500) /\
      fs w' !! input_path = None)).
Proof.
  intros input_path output_filename. unfold accepted_upload. cbv zeta.
  fold (upload_path secure_filename (upload_filename file)).
  fold input_path. fold output_filename.
  set (output_path := Path.os_join OUTPUT_FOLDER output_filename).
  unfold bind at 1, write_file.
  destruct (writable E input_path w).
  2:{ eexists _, _. split; [reflexivity|]. left. eexists. split; [done|].
      cbn [exn_str]. rewrite app_cons. discriminate. }
  set (w1 := set_fs _ w).
  unfold bind at 1.
  destruct (node_at_fs input_path w1 (File (upload_data file))) as [n1 Hn1];
    [apply lookup_insert_eq|].
  destruct (convert_file_returns E input_path (Some output_path)
              (upload_config E form_config) w1 n1 output_path Hn1 eq_refl)
    as [success Hs].
  destruct (convert_file E input_path (Some output_path) _ w1) as [r1 w2].
  cbn [fst] in Hs. subst r1.
  rewrite bind_path_exists.
  destruct (fs w2 !! output_path) as [n|] eqn:Hout;
    destruct success; cbn [andb]; cbv iota.
  - unfold bind at 1, read_bytes. rewrite Hout.
    destruct n as [|c].
    { eexists _, _. split; [reflexivity|]. left. by eexists. }
    unfold bind at 1, unlink at 1.
    destruct (fs w2 !! input_path) as [[|ci]|] eqn:Hin.
    { eexists _, _. split; [reflexivity|]. left. by eexists. }
    2:{ eexists _, _. split; [reflexivity|]. left. by eexists. }
    unfold bind, unlink. cbn [fs set_fs].
    destruct (delete input_path (fs w2) !! output_path) as [[|co]|].
    { eexists _, _. split; [reflexivity|]. left. by eexists. }
    2:{ eexists _, _. split; [reflexivity|]. left. by eexists. }
    eexists _, _. split; [reflexivity|]. right. left. exists c.
    split; [done|]. cbn [fs set_fs]. split.
    + apply lookup_delete_None. right. apply lookup_delete_eq.
    + apply lookup_delete_eq.
  - rewrite bind_path_exists. unfold bind, unlink, ret. cbv beta.
    destruct (fs w2 !! input_path) as [[|ci]|] eqn:Hin; cbv beta iota;
      rewrite ?Hin.
    + eexists _, _. split; [reflexivity|]. left. by eexists.
    + eexists _, _. split; [reflexivity|]. right. right.
      split; [done|]. cbn [fs set_fs]. apply lookup_delete_eq.
    + eexists _, _. split; [reflexivity|]. by right; right.
  - rewrite bind_path_exists. unfold bind, unlink, ret. cbv beta.
    destruct (fs w2 !! input_path) as [[|ci]|] eqn:Hin; cbv beta iota;
      rewrite ?Hin.
    + eexists _, _. split; [reflexivity|]. left. by eexists.
    + eexists _, _. split; [reflexivity|]. right. right.
      split; [done|]. cbn [fs set_fs]. apply lookup_delete_eq.
    + eexists _, _. split; [reflexivity|]. by right; right.
  - rewrite bind_path_exists. unfold bind, unlink, ret. cbv beta.
    destruct (fs w2 !! input_path) as [[|ci]|] eqn:Hin; cbv beta iota;
      rewrite ?Hin.
    + eexists _, _. split; [reflexivity|]. left. by eexists.
    + eexists _, _. split; [reflexivity|]. right. right.
      split; [done|]. cbn [fs set_fs]. apply lookup_delete_eq.
    + eexists _, _. split; [reflexivity|]. by right; right.
Qed.

Lemma convert_file_route_refused (request : file_request) (w : World) :
  upload_refused request = true ->
  exists message,
    convert_file_route E secure_filename request w
      = (Ok (Response (ErrorBody message) 400), w).
Proof.
  unfold upload_refused, convert_file_route, try_except.
  destruct (request_file request) as [file|]; [|by eexists].
  destruct (String.eqb (upload_filename file) ""); [by eexists|].
  destruct (negb (Py.endswith (upload_filename file) ".mmd")); [by eexists|done].
Qed.

Lemma upload_accepted_file (request : file_request) :
  upload_refused request = false -> exists file, request_file request = Some file.
Proof.
  unfold upload_refused. destruct (request_file request); [by eexists|done].
Qed.

End RouteUpload.

(** An upload without a file field, with an empty file name or with a
    name that does not end in [.mmd] is answered with status 400 and an
    error message; nothing is saved, converted, printed or started. *)
Theorem convert_file_route_refuses (E : Env) (secure_filename : string -> string)
    (request : file_request) (w : World) :
  upload_refused request = true ->
  exists message,
    convert_file_route E secure_filename request w
      = (Ok (Response (ErrorBody message) 400), w).
Proof. apply convert_file_route_refused. Qed.

Lemma convert_file_route_refuses_witness :
  upload_refused (FileRequest (Some (Upload "flow.txt" (Text "graph TD; A-->B"))) None)
    = true /\
  exists message,
    convert_file_route env_open (fun s => s)
      (FileRequest (Some (Upload "flow.txt" (Text "graph TD; A-->B"))) None) w_demo
      = (Ok (Response (ErrorBody message) 400), w_demo).
Proof.
  split; [reflexivity|].
  apply (convert_file_route_refuses env_open (fun s => s)
           (FileRequest (Some (Upload "flow.txt" (Text "graph TD; A-->B"))) None)
           w_demo eq_refl).
Defined.

(** The upload route always answers: it raises nothing, the status goes
    with the body, and the answer is an error body exactly when the upload
    is refused by one of the three checks. *)
Theorem convert_file_route_answers (E : Env) (secure_filename : string -> string)
    (request : file_request) (w : World) :
  exists resp,
    fst (convert_file_route E secure_filename request w) = Ok resp /\
    well_formed resp /\
    (upload_refused request = true <-> exists message, resp_body resp = ErrorBody message).
Proof.
  destruct (upload_refused request) eqn:Href.
  - destruct (convert_file_route_refused E secure_filename request w Href)
      as [message ->].
    eexists. split; [done|]. split; [done|]. split; [by eexists|done].
  - destruct (upload_accepted_file request Href) as [file Hf].
    rewrite (convert_file_route_accepted E secure_filename request file Hf Href).
    unfold try_except.
    destruct (accepted_upload_cases E secure_filename file (request_config request) w)
      as (r & w' & -> & [(e & -> & _)|[(c & -> & _)|[-> _]]]);
      eexists; (split; [done|]); (split; [done|]);
      (split; [done|]); by intros [? [=]].
Qed.

(** After a success answer of the upload route neither the saved upload
    nor the image is left: both files were removed, and the file name of
    the answer is the saved name with [.mmd] replaced by [.png]. *)
Theorem convert_file_route_success_cleans (E : Env)
    (secure_filename : string -> string) (request : file_request) (w : World)
    (image_data : content) (filename message : string) (status : nat) (w' : World) :
  convert_file_route E secure_filename request w
    = (Ok (Response (SuccessBody image_data filename message) status), w') ->
  exists file,
    request_file request = Some file /\
    filename = Py.replace (secure_filename (upload_filename file)) ".mmd" ".png" /\
    fs w' !! upload_path secure_filename (upload_filename file) = None /\
    fs w' !! Path.os_join OUTPUT_FOLDER filename = None.
Proof.
  intros H. destruct (upload_refused request) eqn:Href.
  - destruct (convert_file_route_refused E secure_filename request w Href)
      as [m Hm]. rewrite Hm in H. discriminate H.
  - destruct (upload_accepted_file request Href) as [file Hf]. exists file.
    rewrite (convert_file_route_accepted E secure_filename request file Hf Href) in H.
    unfold try_except in H.
    destruct (accepted_upload_cases E secure_filename file (request_config request) w)
      as (r & w1 & Heq & [(e & -> & _)|[(c & -> & Hin & Hout)|[-> _]]]);
      rewrite Heq in H; try discriminate H.
    injection H as <- <- <- <- <-. done.
Qed.

Lemma convert_file_route_success_cleans_witness :
  exists image_data filename message status w',
    convert_file_route env_open (fun s => s) request_upload w_demo
      = (Ok (Response (SuccessBody image_data filename message) status), w') /\
    fs w' !! "uploads/flow.mmd" = None /\
    fs w' !! Path.os_join OUTPUT_FOLDER filename = None.
Proof.
  eexists _, _, _, _, _.
  match goal with |- ?eq /\ _ =>
    assert (Hrun : eq) by (vm_compute; reflexivity) end.
  split; [exact Hrun|].
  destruct (convert_file_route_success_cleans env_open (fun s => s) request_upload
              w_demo _ _ _ _ _ Hrun) as (file & Hf & _ & Hin & Hout).
  injection Hf as <-. split; [exact Hin | exact Hout].
Defined.

(** After the answer [File conversion failed] the saved upload is not
    left either: the route removed it if it was still there. *)
Theorem convert_file_route_failure_cleans (E : Env)
    (secure_filename : string -> string) (request : file_request) (w : World)
    (status : nat) (w' : World) :
  convert_file_route E secure_filename request w
    = (Ok (Response (FailureBody "File conversion failed") status), w') ->
  exists file,
    request_file request = Some file /\
    fs w' !! upload_path secure_filename (upload_filename file) = None.
Proof.
  intros H. destruct (upload_refused request) eqn:Href.
  - destruct (convert_file_route_refused E secure_filename request w Href)
      as [m Hm]. rewrite Hm in H. discriminate H.
  - destruct (upload_accepted_file request Href) as [file Hf]. exists file.
    rewrite (convert_file_route_accepted E secure_filename request file Hf Href) in H.
    unfold try_except in H.
    destruct (accepted_upload_cases E secure_filename file (request_config request) w)
      as (r & w1 & Heq & [(e & -> & He)|[(c & -> & Hin & Hout)|[-> Hin]]]);
      rewrite Heq in H; try discriminate H.
    + cbn [any_exception] in H. unfold ret in H. injection H as Hmsg _ _.
      by destruct He.
    + by injection H as _ <-.
Qed.

Lemma convert_file_route_failure_cleans_witness :
  exists status w',
    convert_file_route env_no_pil (fun s => s) request_upload w_demo
      = (Ok (Response (FailureBody "File conversion failed") status), w') /\
    fs w' !! "uploads/flow.mmd" = None.
Proof.
  eexists _, _.
  match goal with |- ?eq /\ _ =>
    assert (Hrun : eq) by (vm_compute; reflexivity) end.
  split; [exact Hrun|].
  destruct (convert_file_route_failure_cleans env_no_pil (fun s => s) request_upload
              w_demo _ _ Hrun) as (file & Hf & Hin).
  injection Hf as <-. exact Hin.
Defined.

(** ** The command line: exit codes *)

Section MainMore.
Context (E : Env).

Lemma total_init : total (__init__ E).
Proof.
  intros w. unfold __init__, _find_mermaid_cli. unfold bind at 1.
  destruct (total_find_loop E (possible_paths E) w) as [cli Hcli].
  destruct (find_loop E (possible_paths E) w) as [r w1]. cbn [fst] in Hcli. subst r.
  unfold bind, modify, gets, print, ret. cbn.
  destruct cli; by eexists.
Qed.

Lemma dispatch_exit_code (args : Args) (config : option json) (w : World) (code : Z) :
  fst (dispatch E args config w) = Ok code -> code = 0 \/ code = 1.
Proof.
  unfold dispatch.
  destruct (arg_check args).
  { unfold bind at 1. destruct (_check_dependencies E w) as [[[|]|e] w1];
      cbn; intros [= <-]; auto. }
  destruct (arg_sample args).
  { unfold bind, create_sample_mermaid, bind, write_file, print, ret.
    destruct (writable E "sample.mmd" w); cbn; intros [= <-]; auto. }
  destruct (opt_truthy (arg_text args)).
  { unfold bind at 1.
    destruct (convert_mermaid_text E _ _ config w) as [[[|]|e] w1];
      cbn; intros [= <-]; auto. }
  destruct (opt_truthy (arg_file args)).
  { unfold bind at 1.
    destruct (convert_file E _ _ config w) as [[[|]|e] w1];
      cbn; intros [= <-]; auto. }
  destruct (opt_truthy (arg_directory args)).
  { unfold bind at 1.
    destruct (batch_convert E _ _ config w) as [[[successful total]|e] w1];
      cbn; [|done].
    destruct (successful =? total)%nat; intros [= <-]; auto. }
  cbn. intros [= <-]. auto.
Qed.

(** Reading the configuration changes nothing. *)
Lemma json_load_snd (p : string) (w : World) : snd (json_load E p w) = w.
Proof.
  unfold json_load, bind, read_text.
  destruct (node_at p w) as [[|[s| |]]|]; try done.
  by destruct (json_loads E s).
Qed.

End MainMore.

(** Whenever [main] returns, the exit code is 0 or 1. *)
Theorem main_exit_code (E : Env) (args : Args) (w : World) (code : Z) :
  fst (main E args w) = Ok code -> code = 0 \/ code = 1.
Proof.
  unfold main. unfold bind at 1.
  destruct (__init__ E w) as [[u|e] w1]; [|done].
  unfold bind at 1.
  match goal with |- context [match ?m w1 with _ => _ end] =>
    destruct (m w1) as [[[config|]|e] w2] end; [| |done].
  - apply dispatch_exit_code.
  - cbn. intros [= <-]. auto.
Qed.

Lemma main_exit_code_witness :
  fst (main env_no_tool args_missing_file w_start) = Ok 1 /\ (1 = 0 \/ 1 = 1).
Proof.
  split; [vm_compute; reflexivity|].
  apply (main_exit_code env_no_tool args_missing_file w_start 1).
  vm_compute; reflexivity.
Defined.

(** A configuration file that cannot be read or parsed ends [main] with
    exit code 1 right after the converter is built: one line is printed,
    and no operation is run, whatever else the command line asks for. *)
Theorem main_bad_config (E : Env) (args : Args) (w : World) (e : exn) :
  opt_truthy (arg_config args) = true ->
  fst (json_load E (default "" (arg_config args)) (snd (__init__ E w))) = Raise e ->
  main E args w
    = (Ok 1, add_printed ("❌ Error loading config file: " +:+ exn_str e)
               (snd (__init__ E w))).
Proof.
  intros Hc He. unfold main. unfold bind at 1.
  destruct (total_init E w) as [u Hu].
  destruct (__init__ E w) as [r w1]. cbn [fst snd] in *. subst r.
  rewrite Hc. unfold bind at 1, try_except. unfold bind at 1.
  pose proof (json_load_snd E (default "" (arg_config args)) w1) as Hs.
  destruct (json_load E _ w1) as [r w2]. cbn [fst snd] in *. subst r w2.
  reflexivity.
Qed.

Lemma main_bad_config_witness :
  main env_no_tool args_bad_config w_start
    = (Ok 1, add_printed ("❌ Error loading config file: " +:+ exn_str FileNotFoundError)
               (snd (__init__ env_no_tool w_start))).
Proof.
  apply (main_bad_config env_no_tool args_bad_config w_start FileNotFoundError);
    [reflexivity | vm_compute; reflexivity].
Defined.

(** With [--sample], without [--check] and without a configuration file,
    [main] writes the sample text to [sample.mmd] and returns 0 when the
    file can be written; when it cannot, the error leaves [main] as an
    exception and no file is changed. *)
Theorem main_sample (E : Env) (args : Args) (w : World) :
  arg_check args = false ->
  arg_sample args = true ->
  opt_truthy (arg_config args) = false ->
  exists w1 out, __init__ E w = (Ok tt, w1) /\ main E args w = out /\
    if writable E "sample.mmd" w1 then
      fst out = Ok 0 /\
      fs (snd out) = <["sample.mmd" := File (Text sample_content)]> (fs w1)
    else
      (exists message, fst out = Raise (OSError message)) /\ fs (snd out) = fs w1.
Proof.
  intros Hc Hs Hcfg. unfold main. unfold bind at 1.
  destruct (total_init E w) as [[] Hu].
  destruct (__init__ E w) as [r w1]. cbn [fst] in Hu. subst r.
  exists w1. eexists. split; [done|]. split; [reflexivity|].
  rewrite Hcfg. unfold bind at 1, ret at 1. unfold dispatch. rewrite Hc, Hs.
  unfold create_sample_mermaid, bind, write_file, print, modify, ret.
  destruct (writable E "sample.mmd" w1); cbn; [done|]. split; [by eexists|done].
Qed.

Lemma main_sample_witness :
  exists w1 out, __init__ env_open w_start = (Ok tt, w1) /\
    main env_open args_sample w_start = out /\
    fst out = Ok 0 /\
    fs (snd out) = <["sample.mmd" := File (Text sample_content)]> (fs w1).
Proof.
  destruct (main_sample env_open args_sample w_start eq_refl eq_refl eq_refl)
    as (w1 & out & Hi & Hm & H).
  exists w1, out. split; [exact Hi|]. split; [exact Hm|]. exact H.
Defined.

(** ** diagnose.py: what [check_directories] does to the files *)

Section DiagnoseMore.
Context (E : Env).

#[local] Instance only_adds_dirs_refl dirs : Reflexive (only_adds_dirs dirs).
Proof. intros w. split; [done|]. split; [|done]. intros p n H. by left. Qed.

#[local] Instance only_adds_dirs_trans dirs : Transitive (only_adds_dirs dirs).
Proof.
  intros w1 w2 w3 (Hs1 & Hn1 & Hp1) (Hs2 & Hn2 & Hp2).
  split; [by etrans|]. split; [|congruence].
  intros p n H. destruct (Hn2 p n H) as [H1|H1]; [by apply Hn1 | by right].
Qed.

#[local] Instance only_adds_dirs_print dirs : PrintFrame (only_adds_dirs dirs).
Proof. intros w l. split; [done|]. split; [|done]. intros p n H. by left. Qed.

Lemma only_adds_dirs_cons d dirs w w1 w2 :
  only_adds_dirs [d] w w1 -> only_adds_dirs dirs w1 w2 ->
  only_adds_dirs (d :: dirs) w w2.
Proof.
  intros (Hs1 & Hn1 & Hp1) (Hs2 & Hn2 & Hp2). split; [by etrans|]. split.
  - intros p n H. destruct (Hn2 p n H) as [H1|[Hin ->]].
    + destruct (Hn1 p n H1) as [H0|[Hin ->]]; [by left|].
      right. split; [|done]. apply list_elem_of_singleton in Hin as ->. left.
    + right. split; [by right|done].
  - by rewrite Hp2.
Qed.

(** [os.mkdir(d)] makes [d] or nothing. *)
Lemma only_adds_os_mkdir (d : string) : keeps (only_adds_dirs [d]) (os_mkdir E d).
Proof.
  intros w. unfold os_mkdir, node_at.
  destruct (Path.anchor d); [reflexivity|].
  destruct (fs w !! d) eqn:Hd; [reflexivity|].
  destruct (if Path.anchor (Path.parent d) then Some Dir else fs w !! Path.parent d)
    as [[|c]|]; try reflexivity.
  destruct (bool_decide _); [reflexivity|].
  destruct (writable E d w); [|reflexivity].
  cbn [snd]. split; [by apply insert_subseteq|]. split; [|done].
  intros p n. cbn [fs set_fs].
  destruct (decide (p = d)) as [->|Hne].
  - rewrite lookup_insert_eq. intros [= <-]. right. split; [left|done].
  - rewrite lookup_insert_ne by done. by left.
Qed.

(** One round of the loop leaves what is there and makes at most the
    directory it looks at, whether it returns or raises. *)
Lemma check_directory_only_adds (dir_path : string) :
  keeps (only_adds_dirs [dir_path]) (check_directory E dir_path).
Proof.
  unfold check_directory, mkdir_exist_ok, mkdir_exists.
  frame; first [apply only_adds_os_mkdir | apply keeps_print; apply _].
Qed.

Lemma check_directories_loop_only_adds (dirs : list string) :
  keeps (only_adds_dirs dirs) (check_directories_loop E dirs).
Proof.
  induction dirs as [|d dirs IH]; intros w; [reflexivity|].
  cbn [check_directories_loop]. unfold bind.
  pose proof (check_directory_only_adds d w) as H1.
  destruct (check_directory E d w) as [[u|e] w1]; cbn [snd] in *.
  - by eapply only_adds_dirs_cons.
  - by eapply only_adds_dirs_cons.
Qed.

(** What one round raises: the error of [exists()], or that of listing
    the directory that is there. *)
Lemma check_directory_raise (dir_path : string) (w : World) (e : exn) (w' : World) :
  check_directory E dir_path w = (Raise e, w') ->
  (node_at dir_path w = None /\ stat_error E dir_path w = Some e /\
   answers_false e = false)
  \/ (unlistable E dir_path w = true /\ e = PermissionError).
Proof.
  assert (Hmissing : forall w0,
    fst ((print ("❌ " +:+ dir_path +:+ "/ - Missing") ;;
          try_except
            (mkdir_exist_ok E dir_path ;;
             print ("   📁 Created " +:+ dir_path +:+ "/"))
            any_exception
            (fun e0 => print ("   ⚠️ Could not create: " +:+ exn_str e0))) w0)
    <> Raise e).
  { intros w0. rewrite bind_print.
    match goal with |- context [try_except ?m _ ?h ?w1] =>
      destruct (total_try_except_any m h (fun e0 w2 => ex_intro _ tt eq_refl) w1)
        as [u Hu] end.
    by rewrite Hu. }
  unfold check_directory. unfold bind at 1. rewrite Path_exists_eq.
  destruct (node_at dir_path w) as [n|] eqn:Hn.
  - unfold bind at 1. rewrite is_dir_eq, Hn. destruct n as [|c]; cbn [andb].
    + unfold bind at 1, iterdir.
      destruct (unlistable E dir_path w); [|done].
      intros [= <- <-]. by right.
    + intros H. by destruct (Hmissing w); rewrite H.
  - destruct (stat_error E dir_path w) as [e'|] eqn:Hs.
    + destruct (answers_false e') eqn:Hi.
      * cbv beta iota. unfold bind at 1, ret at 1. cbn [andb].
        intros H. by destruct (Hmissing w); rewrite H.
      * intros [= <- <-]. by left.
    + cbv beta iota. unfold bind at 1, ret at 1. cbn [andb].
      intros H. by destruct (Hmissing w); rewrite H.
Qed.

Lemma check_directories_loop_raise (dirs : list string) (e : exn) :
  forall w w',
    check_directories_loop E dirs w = (Raise e, w') ->
    exists d w0,
      d ∈ dirs /\
      ((node_at d w0 = None /\ stat_error E d w0 = Some e /\
        answers_false e = false)
       \/ (unlistable E d w0 = true /\ e = PermissionError)).
Proof.
  induction dirs as [|d dirs IH]; intros w w'; [done|].
  cbn [check_directories_loop]. unfold bind.
  destruct (check_directory E d w) as [[u|e'] w1] eqn:Hc.
  - intros (d' & w0 & Hd' & H)%IH. exists d', w0. split; [by right | done].
  - intros [= <- <-]. apply check_directory_raise in Hc.
    exists d, w. split; [by left | done].
Qed.

(** A missing directory that may be made is made. *)
Lemma check_directory_makes (dir_path : string) (w : World) :
  Path.anchor (Path.parent dir_path) = true ->
  (forall w0, writable E dir_path w0 = true) ->
  (forall w0, dir_path ∉ broken_links E w0) ->
  nothing_at E dir_path w ->
  exists w', check_directory E dir_path w = (Ok tt, w') /\
             fs w' !! dir_path = Some Dir.
Proof.
  intros Hpar Hwr Hnl Hno. unfold check_directory.
  rewrite (bind_ok _ _ _ _ _ (Path_exists_nothing E _ _ Hno)).
  unfold bind at 1, ret at 1. cbn [andb]. rewrite bind_print.
  destruct Hno as [Hn _].
  unfold try_except, bind, mkdir_exist_ok, try_except, os_mkdir.
  unfold node_at in *. rewrite Hpar.
  destruct (Path.anchor dir_path); [done|].
  cbn [fs add_printed]. rewrite Hn, Hwr.
  rewrite bool_decide_eq_false_2 by apply Hnl. cbn.
  eexists. split; [reflexivity|]. cbn. apply lookup_insert_eq.
Qed.

End DiagnoseMore.

(** Whether it returns or raises, [check_directories] leaves every file
    and directory that was there as it was and starts no process, and
    whatever is new afterwards is one of the five required directories.
    What it raises comes from outside its [try]: the error of [exists()]
    on a required directory, or [PermissionError] from listing one that is
    there. *)
Theorem check_directories_only_adds (E : Env) (w : World) :
  only_adds_dirs required_dirs w (snd (check_directories E w)) /\
  forall e, fst (check_directories E w) = Raise e ->
    exists d w0,
      d ∈ required_dirs /\
      ((node_at d w0 = None /\ stat_error E d w0 = Some e /\
        answers_false e = false)
       \/ (unlistable E d w0 = true /\ e = PermissionError)).
Proof.
  set (bar := String.concat "" (repeat "=" 60)).
  set (w0 := add_printed bar
               (add_printed (" " +:+ "Project Directories")
                  (add_printed (String Py.nl bar) w))).
  assert (Hrun : check_directories E w = check_directories_loop E required_dirs w0)
    by reflexivity.
  rewrite Hrun. split.
  - destruct (check_directories_loop_only_adds E required_dirs w0) as (Hs & Hn & Hp).
    split; [exact Hs|]. split; [exact Hn | exact Hp].
  - intros e He.
    destruct (check_directories_loop E required_dirs w0) as [r w'] eqn:Hl.
    cbn [fst] in He. subst r. by apply check_directories_loop_raise in Hl.
Qed.

Section DiagnoseMakes.
Context (E : Env).
Hypothesis plain : stat_plain E.

Lemma check_directories_loop_makes (dirs : list string) (w : World) :
  (forall d0, d0 ∈ dirs ->
     Path.anchor (Path.parent d0) = true /\ Path.anchor d0 = false /\
     (forall w0, writable E d0 w0 = true) /\
     (forall w0, unlistable E d0 w0 = false) /\
     (forall w0, d0 ∉ broken_links E w0)) ->
  exists w',
    check_directories_loop E dirs w = (Ok tt, w') /\
    forall d, d ∈ dirs -> fs w !! d = None -> fs w' !! d = Some Dir.
Proof.
  revert w. induction dirs as [|d0 dirs IH]; intros w Hall.
  - exists w. split; [done|]. by intros d ?%elem_of_nil.
  - cbn [check_directories_loop].
    destruct (Hall d0) as (Hpar & Hanc & Hwr & Hls & Hnl); [left|].
    pose proof (check_directory_only_adds E d0 w) as H1.
    assert (Hret : exists w1, check_directory E d0 w = (Ok tt, w1)).
    { destruct (check_directory E d0 w) as [[[]|e] w1] eqn:Hc; [by eexists|].
      apply check_directory_raise in Hc as [(_ & Hs & Hi)|[Hu _]].
      - apply plain in Hs. congruence.
      - by rewrite Hls in Hu. }
    destruct Hret as [w1 Hc]. rewrite Hc in H1. cbn [snd] in H1.
    rewrite (bind_ok _ _ _ _ _ Hc).
    destruct (IH w1) as (w2 & Hloop & Hmade).
    { intros d1 Hd1. apply Hall. by right. }
    exists w2. split; [done|].
    pose proof (check_directories_loop_only_adds E dirs w1) as H2.
    rewrite Hloop in H2. cbn [snd] in H2.
    intros d Hd Hnone.
    destruct (fs w1 !! d) as [n|] eqn:Hd1.
    + destruct H1 as (_ & Hn1 & _). destruct (Hn1 d n Hd1) as [H0|[_ ->]].
      { by rewrite Hnone in H0. }
      destruct H2 as (Hs2 & _). by eapply lookup_weaken.
    + apply elem_of_cons in Hd as [->|Hd]; [|by apply Hmade].
      destruct (check_directory_makes E d0 w Hpar Hwr Hnl) as (w1' & Hc' & Hdir).
      { split; [unfold node_at; by rewrite Hanc|].
        destruct (stat_error E d0 w) as [e|] eqn:Hs; [by apply plain in Hs | done]. }
      rewrite Hc in Hc'. injection Hc' as <-. congruence.
Qed.

End DiagnoseMakes.

(** Where [os.stat] fails only with the answer that nothing is there,
    and each of the five directories can be written and listed and is not
    a link that leads nowhere, [check_directories] returns, and every
    required directory that was not there before it is a directory after
    it. *)
Theorem check_directories_makes (E : Env) (w : World) :
  stat_plain E ->
  (forall d0 w0, d0 ∈ required_dirs ->
                 writable E d0 w0 = true /\ unlistable E d0 w0 = false /\
                 d0 ∉ broken_links E w0) ->
  fst (check_directories E w) = Ok tt /\
  forall d, d ∈ required_dirs -> fs w !! d = None ->
            fs (snd (check_directories E w)) !! d = Some Dir.
Proof.
  intros Hplain Hok.
  set (bar := String.concat "" (repeat "=" 60)).
  set (w0 := add_printed bar
               (add_printed (" " +:+ "Project Directories")
                  (add_printed (String Py.nl bar) w))).
  assert (Hrun : check_directories E w = check_directories_loop E required_dirs w0)
    by reflexivity.
  rewrite Hrun.
  destruct (check_directories_loop_makes E Hplain required_dirs w0)
    as (w' & -> & Hmade).
  { intros d0 Hd0. repeat split; try (intros w1; by apply Hok).
    all: unfold required_dirs in Hd0;
      repeat (apply elem_of_cons in Hd0 as [->|Hd0]; [reflexivity|]);
      by apply elem_of_nil in Hd0. }
  split; [done|]. exact Hmade.
Qed.

Lemma check_directories_makes_witness :
  fst (check_directories env_open w_start) = Ok tt /\
  fs (snd (check_directories env_open w_start)) !! "uploads" = Some Dir.
Proof.
  destruct (check_directories_makes env_open w_start) as [Hr Hmade].
  - intros p w e H. discriminate H.
  - intros d0 w0 _. split; [reflexivity|]. split; [reflexivity|].
    apply not_elem_of_nil.
  - split; [exact Hr|]. apply Hmade; [|reflexivity].
    unfold required_dirs. do 3 right. left.
Defined.

(** ** The routes that report on the converter *)

(** For a converter built by [__init__], the health route reports the
    tool as available exactly when the converter is not in demo mode; the
    route changes nothing. *)
Theorem health_after_init (E : Env) (w : World) :
  exists w1,
    __init__ E w = (Ok tt, w1) /\
    health_check w1 = (Ok (Health "ok" (negb (demo_mode (self w1)))), w1).
Proof.
  unfold __init__, _find_mermaid_cli. unfold bind at 1.
  destruct (total_find_loop E (possible_paths E) w) as [cli Hcli].
  destruct (find_loop E (possible_paths E) w) as [r w0]. cbn [fst] in Hcli. subst r.
  unfold bind, modify, gets, print, ret. cbn.
  destruct cli; cbn; eexists; (split; [reflexivity|]); by destruct w0.
Qed.

(** The route of the dependency check has no handler of its own: it
    answers with the result of [_check_dependencies] and the candidate of
    the converter, and an exception of [_check_dependencies] leaves the
    route as it is. *)
Theorem check_dependencies_route (E : Env) (w : World) :
  (forall ok, fst (_check_dependencies E w) = Ok ok ->
     fst (check_dependencies E w) = Ok (Dependencies ok (mermaid_cli (self w)))) /\
  (forall e, fst (_check_dependencies E w) = Raise e ->
     fst (check_dependencies E w) = Raise e).
Proof.
  pose proof (settled_check_dependencies E w) as [Hself _].
  unfold check_dependencies, bind.
  destruct (_check_dependencies E w) as [[ok|e] w1]; cbn [fst snd] in *.
  - split; [|done]. intros ok' [= <-]. unfold gets, ret. cbn. by rewrite Hself.
  - split; [done|]. by intros e' [= <-].
Qed.
